(** * Slack inbound admission pipeline

    A shallow embedding of two source files of the repository:

    - [src/channels/mention-gating.ts]: the pure mention gate
      [resolveMentionGating];
    - the Slack monitor's [prepareSlackMessage], which classifies an inbound
      event, runs the admission gates in order, and assembles the envelope
      handed to the agent-routing layer.

    JavaScript values are embedded as follows.  A [string] is a sequence of
    code units below 256; an optional field ([x?: T], or a value that may be
    [undefined]/[null]) is an [option]; [a ?? b] is nullish coalescing;
    truthiness of a string is non-emptiness.  An awaited collaborator is
    embedded as the value its promise resolves to; the two outbound calls
    whose rejection the source catches ([sendMessageSlack] and
    [reactSlackMessage]) yield the caught error, if any.  The call of
    [reactSlackMessage] is not awaited: the handlers of its promise are a
    step of their own, [Slack.ackReactionSettled]. *)

From Stdlib Require Import String Ascii ZArith Bool List Lia.
From stdpp Require Import base option list strings pretty gmap.

(** ** JavaScript conventions *)
Module Js.

(** [Boolean(s)], [!s] and the condition of [if (s)] for a string. *)
Definition truthy (s : string) : bool :=
  match s with EmptyString => false | String _ _ => true end.

(** The same for a string that may be [undefined]. *)
Definition truthyOpt (o : option string) : bool :=
  match o with Some s => truthy s | None => false end.

(** [a ?? b] where [b] may itself be absent. *)
Definition nullish {A : Type} (a b : option A) : option A :=
  match a with Some _ => a | None => b end.

(** [a || b] on strings: the first operand when truthy, else the second. *)
Definition orStr (a b : string) : string := if truthy a then a else b.

(** [a || b] where [a] may be [undefined]. *)
Definition orOpt (a : option string) (b : string) : string :=
  match a with Some s => orStr s b | None => b end.

(** A template substitution [`${x}`] of a possibly absent string. *)
Definition tpl (o : option string) : string := default "undefined" o.

(** [x === true] for an optional boolean. *)
Definition isTrue (o : option bool) : bool :=
  match o with Some true => true | _ => false end.

(** White space ([\s], and what [trim] strips) among code units below 256:
    TAB, LF, VT, FF, CR, SPACE and NBSP. *)
Definition isSpace (c : ascii) : bool :=
  let n := nat_of_ascii c in
  ((9 <=? n) && (n <=? 13)) || (n =? 32) || (n =? 160).

Fixpoint trimStartL (l : list ascii) : list ascii :=
  match l with
  | c :: t => if isSpace c then trimStartL t else l
  | [] => []
  end.

(** [s.trim()] *)
Definition trim (s : string) : string :=
  string_of_list_ascii
    (rev (trimStartL (rev (trimStartL (list_ascii_of_string s))))).

(** [s.replace(/\s+/g, " ")]; [inRun] tells whether the previous code unit
    belonged to the run of white space being replaced. *)
Fixpoint collapseFrom (inRun : bool) (s : string) : string :=
  match s with
  | EmptyString => EmptyString
  | String c t =>
      if isSpace c
      then if inRun then collapseFrom true t
           else String " " (collapseFrom true t)
      else String c (collapseFrom false t)
  end.
Definition collapseSpaces (s : string) : string := collapseFrom false s.

(** [s.slice(0, n)] *)
Definition slice0 (n : nat) (s : string) : string := substring 0 n s.

(** [hay.includes(needle)] *)
Fixpoint includes (needle hay : string) : bool :=
  String.prefix needle hay
  || match hay with
     | EmptyString => false
     | String _ t => includes needle t
     end.

(** The line feed of ["\n"]. *)
Definition nl : string := String (ascii_of_nat 10) EmptyString.

(** The double quote. *)
Definition quote : string := String (ascii_of_nat 34) EmptyString.

(** A JavaScript number as far as the pipeline is concerned: the result of
    [Math.round(Number(ts) * 1000)], which is [NaN] when [ts] is not
    numeric.  The floating-point computation itself is a collaborator. *)
Inductive num := Num (z : Z) | NaN.

End Js.

(** ** The mention gate ([src/channels/mention-gating.ts]) *)
Module MentionGating.

Record MentionGateParams := {
  requireMention : bool;
  canDetectMention : bool;
  wasMentioned : bool;
  implicitMention : option bool;
  shouldBypassMention : option bool;
}.

Record MentionGateResult := {
  effectiveWasMentioned : bool;
  shouldSkip : bool;
}.

Definition resolveMentionGating (params : MentionGateParams)
  : MentionGateResult :=
  let implicit := Js.isTrue (implicitMention params) in
  let bypass := Js.isTrue (shouldBypassMention params) in
  let effectiveWasMentioned := wasMentioned params || implicit || bypass in
  let shouldSkip :=
    requireMention params && canDetectMention params
    && negb effectiveWasMentioned in
  {| effectiveWasMentioned := effectiveWasMentioned;
     shouldSkip := shouldSkip |}.

End MentionGating.

(** ** Data of the Slack monitor

    The type declarations live outside the two source files; the records
    below list the fields that [prepareSlackMessage] reads or writes. *)
Module Slack.

(** [SlackMessageEvent["channel_type"]] *)
Inductive ChannelType := Im | Mpim | Channel | Group.

#[global] Instance ChannelType_eq_dec : EqDecision ChannelType.
Proof. solve_decision. Defined.

Record SlackFile := {
  file_name : option string;
  file_url : option string;
}.

Record SlackMessageEvent := {
  channel : string;
  channel_type : option ChannelType;
  user : option string;
  bot_id : option string;
  username : option string;
  text : option string;
  ts : option string;
  thread_ts : option string;
  parent_user_id : option string;
  files : option (list SlackFile);
}.

(** The [opts] argument. *)
Record PrepareOpts := {
  source : string;
  opts_wasMentioned : option bool;
}.

(** What [ctx.resolveChannelName] resolves to. *)
Record ChannelInfo := {
  info_name : option string;
  info_type : option ChannelType;
  info_topic : option string;
  info_purpose : option string;
}.

Definition noChannelInfo : ChannelInfo :=
  {| info_name := None; info_type := None;
     info_topic := None; info_purpose := None |}.

(** What [ctx.resolveUserName] resolves to. *)
Record UserInfo := { user_name : option string }.

(** The resolved per-channel configuration. *)
Record ChannelConfig := {
  cc_requireMention : option bool;
  cc_allowBots : option bool;
  cc_users : option (list string);
  cc_systemPrompt : option string;
}.

Record SlackAccountConfig := { acct_allowBots : option bool }.

Record ResolvedSlackAccount := {
  accountId : string;
  config : option SlackAccountConfig;
}.

(** The global configuration; [slack_allowBots] is
    [cfg.channels?.slack?.allowBots], the one entry read directly. *)
Record OpenClawConfig := { slack_allowBots : option bool }.

Record SlackMonitorContext := {
  cfg : OpenClawConfig;
  botUserId : string;
  teamId : string;
  botToken : string;
  dmEnabled : bool;
  dmPolicy : string;
  defaultRequireMention : bool;
  channelsConfig : option (gmap string ChannelConfig);
  ackReactionScope : string;
  historyLimit : Z;
  threadInheritParent : bool;
  threadHistoryScope : string;
  mediaMaxBytes : Z;
}.

Record Peer := { peer_kind : string; peer_id : string }.

Record Route := {
  agentId : string;
  route_accountId : string;
  route_sessionKey : string;
}.

Record SlackMedia := {
  media_path : string;
  media_contentType : option string;
  media_placeholder : string;
}.

Record ThreadStarter := {
  starter_text : string;
  starter_userId : option string;
  starter_ts : option string;
}.

Record HistoryEntry := {
  entry_sender : string;
  entry_body : string;
  entry_timestamp : option Js.num;
  entry_messageId : option string;
}.

Record ThreadKeys := {
  tk_sessionKey : string;
  tk_parentSessionKey : option string;
}.

(** A compiled mention pattern, kept as its source text. *)
Definition RegExp := string.

(** *** The envelope *)
Record CtxPayload := {
  Body : string;
  RawBody : string;
  CommandBody : string;
  From : string;
  To : string;
  SessionKey : string;
  AccountId : string;
  ChatType : string;
  GroupSubject : option string;
  GroupSystemPrompt : option string;
  SenderName : string;
  SenderId : string;
  Provider : string;
  Surface : string;
  MessageSid : option string;
  ReplyToId : option string;
  ParentSessionKey : option string;
  ThreadStarterBody : option string;
  ThreadLabel : option string;
  Timestamp : option Js.num;
  WasMentioned : option bool;
  MediaPath : option string;
  MediaType : option string;
  MediaUrl : option string;
  CommandAuthorized : bool;
  OriginatingChannel : string;
  OriginatingTo : string;
}.

(** [ackReactionPromise] holds what the scheduled reaction settles to. *)
Record PreparedSlackMessage := {
  p_ctx : SlackMonitorContext;
  p_account : ResolvedSlackAccount;
  p_message : SlackMessageEvent;
  p_route : Route;
  p_channelConfig : option ChannelConfig;
  replyTarget : string;
  ctxPayload : CtxPayload;
  p_isDirectMessage : bool;
  p_isRoomish : bool;
  historyKey : string;
  preview : string;
  ackReactionMessageTs : option string;
  ackReactionValue : string;
  ackReactionPromise : option bool;
}.

(** *** The shared stores and the observable effects *)

Record PairingRequest := {
  pairing_code : string;
  pairing_name : option string;
}.

Record SentMessage := {
  sent_to : string;
  sent_text : string;
  sent_accountId : string;
}.

Record Reaction := {
  react_channel : string;
  react_ts : string;
  react_emoji : string;
}.

Record SystemEvent := {
  event_text : string;
  event_sessionKey : string;
  event_contextKey : string;
}.

Record InfoLine := {
  info_channel : string;
  info_reason : string;
  info_msg : string;
}.

(** [pairingRequests] is the pairing store, keyed by (channel, sender id);
    [channelHistories] is [ctx.channelHistories]; the lists record the
    calls made so far, oldest first. *)
Record World := {
  pairingRequests : gmap (string * string) PairingRequest;
  channelHistories : gmap string (list HistoryEntry);
  sent : list SentMessage;
  reactions : list Reaction;
  verboseLog : list string;
  infoLog : list InfoLine;
  systemEvents : list SystemEvent;
}.

(** *** Collaborators

    The functions and services imported by the source file whose code is
    not part of it.  Each field carries the name used at the call site;
    object arguments are flattened in the order they are written there. *)
Class Collaborators := {
  (* methods of [ctx] *)
  resolveChannelName : string -> ChannelInfo;
  resolveUserName : string -> option UserInfo;
  isChannelAllowed : string -> option string -> option ChannelType -> bool;
  (* ../context.js, ../channel-config.js *)
  normalizeSlackChannelType :
    option ChannelType -> string -> option ChannelType;
  resolveSlackChannelConfig :
    string -> option string -> option (gmap string ChannelConfig) -> bool ->
    option ChannelConfig;
  (* ../auth.js, ../allow-list.js *)
  resolveSlackEffectiveAllowFrom : SlackMonitorContext -> list string;
  isSlackSenderAllowListed : list string -> string -> string -> bool;
  allowListMatches : list string -> string -> bool;
  resolveSlackUserAllowed : option (list string) -> string -> string -> bool;
  (* pairing *)
  generatePairingCode : gmap (string * string) PairingRequest -> string;
  buildPairingReply : string -> string -> string -> string;
  (* outbound calls: [Some err] is a rejection, [err] being [String(err)] *)
  sendMessageSlack : string -> string -> string -> string -> option string;
  reactSlackMessage : string -> string -> string -> string -> option string;
  (* routing *)
  resolveAgentRoute :
    OpenClawConfig -> string -> string -> option string -> Peer -> Route;
  threadScopedSessionKey : string -> string -> string;
  (* mentions and commands *)
  buildMentionRegexes : OpenClawConfig -> string -> list RegExp;
  matchesMentionPatterns : string -> list RegExp -> bool;
  shouldHandleTextCommands : OpenClawConfig -> string -> bool;
  hasControlCommand : string -> OpenClawConfig -> bool;
  (* media and threads *)
  resolveSlackMedia : option (list SlackFile) -> string -> Z -> option SlackMedia;
  resolveSlackThreadStarter : string -> string -> option ThreadStarter;
  (* identity, envelope, history *)
  resolveAckReaction : OpenClawConfig -> string -> option string;
  formatAgentEnvelope : string -> string -> option Js.num -> string -> string;
  formatThreadStarterEnvelope :
    string -> string -> option Js.num -> string -> string;
  buildHistoryContextFromMap :
    gmap string (list HistoryEntry) -> string -> Z -> option HistoryEntry ->
    string -> (HistoryEntry -> string) ->
    string * gmap string (list HistoryEntry);
  (* [Math.round(Number(ts) * 1000)] *)
  roundMillis : string -> Js.num;
  shouldLogVerbose : bool;
}.

(** *** The pipeline monad

    [prepareSlackMessage] threads the world through its calls and leaves
    early with [return null].  [DropReason] names the [return null] that
    was taken; the source returns a bare [null], see [returned]. *)
Inductive DropReason :=
| SelfMessage            (* line 72 *)
| BotsNotAllowed         (* line 75 *)
| DmMissingUser          (* lines 81 and 107 *)
| MissingSender          (* line 87 *)
| ChannelNotAllowed      (* line 98 *)
| DmDisabled             (* line 111 *)
| DmNotPermitted         (* line 154 *)
| ChannelUserNotAllowed  (* line 196 *)
| NoMention              (* line 236 *)
| EmptyBody              (* line 245 *)
| EmptyReplyTarget.      (* line 415 *)

#[global] Instance DropReason_eq_dec : EqDecision DropReason.
Proof. solve_decision. Defined.

Definition Pipeline (A : Type) : Type := World -> World * (DropReason + A).

Definition ret {A} (a : A) : Pipeline A := fun w => (w, inr a).

Definition bind {A B} (m : Pipeline A) (k : A -> Pipeline B) : Pipeline B :=
  fun w =>
    match m w with
    | (w', inr a) => k a w'
    | (w', inl r) => (w', inl r)
    end.

(** [return null] *)
Definition drop {A} (r : DropReason) : Pipeline A := fun w => (w, inl r).

Definition effect (f : World -> World) : Pipeline unit :=
  fun w => (f w, inr tt).

Definition when (b : bool) (m : Pipeline unit) : Pipeline unit :=
  if b then m else ret tt.

(** The value the source function's promise resolves to. *)
Definition returned {A} (r : World * (DropReason + A)) : option A :=
  match r.2 with inr a => Some a | inl _ => None end.

(** Weakest precondition: [Q] holds of the result and the world after a
    normal end, [E] of the reason and the world after a [return null]. *)
Definition wp {A} (m : Pipeline A) (Q : A -> World -> Prop)
    (E : DropReason -> World -> Prop) (w : World) : Prop :=
  match m w with
  | (w', inr a) => Q a w'
  | (w', inl r) => E r w'
  end.

(** stdpp's [x ← m; k] and [m;; k] are used for sequencing. *)
#[global] Instance Pipeline_ret : MRet Pipeline := @ret.
#[global] Instance Pipeline_bind : MBind Pipeline :=
  fun A B k m => bind m k.

(** *** Primitive effects *)

Definition logVerbose (msg : string) : Pipeline unit :=
  effect (fun w =>
    {| pairingRequests := pairingRequests w;
       channelHistories := channelHistories w;
       sent := sent w;
       reactions := reactions w;
       verboseLog := verboseLog w ++ [msg];
       infoLog := infoLog w;
       systemEvents := systemEvents w |}).

(** [ctx.logger.info({ channel, reason }, msg)] *)
Definition loggerInfo (line : InfoLine) : Pipeline unit :=
  effect (fun w =>
    {| pairingRequests := pairingRequests w;
       channelHistories := channelHistories w;
       sent := sent w;
       reactions := reactions w;
       verboseLog := verboseLog w;
       infoLog := infoLog w ++ [line];
       systemEvents := systemEvents w |}).

Definition enqueueSystemEvent (ev : SystemEvent) : Pipeline unit :=
  effect (fun w =>
    {| pairingRequests := pairingRequests w;
       channelHistories := channelHistories w;
       sent := sent w;
       reactions := reactions w;
       verboseLog := verboseLog w;
       infoLog := infoLog w;
       systemEvents := systemEvents w ++ [ev] |}).

Definition recordSent (m : SentMessage) : Pipeline unit :=
  effect (fun w =>
    {| pairingRequests := pairingRequests w;
       channelHistories := channelHistories w;
       sent := sent w ++ [m];
       reactions := reactions w;
       verboseLog := verboseLog w;
       infoLog := infoLog w;
       systemEvents := systemEvents w |}).

Definition recordReaction (r : Reaction) : Pipeline unit :=
  effect (fun w =>
    {| pairingRequests := pairingRequests w;
       channelHistories := channelHistories w;
       sent := sent w;
       reactions := reactions w ++ [r];
       verboseLog := verboseLog w;
       infoLog := infoLog w;
       systemEvents := systemEvents w |}).

Definition setPairingRequests
    (store : gmap (string * string) PairingRequest) (w : World) : World :=
  {| pairingRequests := store;
     channelHistories := channelHistories w;
     sent := sent w;
     reactions := reactions w;
     verboseLog := verboseLog w;
     infoLog := infoLog w;
     systemEvents := systemEvents w |}.

Definition setChannelHistories
    (h : gmap string (list HistoryEntry)) (w : World) : World :=
  {| pairingRequests := pairingRequests w;
     channelHistories := h;
     sent := sent w;
     reactions := reactions w;
     verboseLog := verboseLog w;
     infoLog := infoLog w;
     systemEvents := systemEvents w |}.

(** The test of [/<@[^>]+>/] at a position just after ["<@"]: one or more
    code units other than [>] and then a [>].  [seen] tells whether a code
    unit has been consumed already. *)
Fixpoint mentionTail (seen : bool) (s : string) : bool :=
  match s with
  | EmptyString => false
  | String c t =>
      if Ascii.eqb c ">" then seen else mentionTail true t
  end.

(** [/<@[^>]+>/.test(s)] *)
Fixpoint hasAnyMentionIn (s : string) : bool :=
  match s with
  | EmptyString => false
  | String c t =>
      (Ascii.eqb c "<"
       && match t with
          | String d u => Ascii.eqb d "@" && mentionTail false u
          | EmptyString => false
          end)
      || hasAnyMentionIn t
  end.

(** [list.filter((entry, index, list) => list.indexOf(entry) === index)]:
    the first occurrence of every entry, in order. *)
Fixpoint keepFirst (seen l : list string) : list string :=
  match l with
  | [] => []
  | x :: t =>
      if bool_decide (x ∈ seen) then keepFirst seen t
      else x :: keepFirst (x :: seen) t
  end.

(** ** [prepareSlackMessage] *)
Section Prepare.
Context `{Collaborators}.

(** Modelled from the spec: [upsertChannelPairingRequest] of
    pairing/pairing-store.js, whose code is not part of the sources.
    Spec 4.2: "look up or create a pending pairing request keyed by
    (channel-kind, sender id).  Creation is idempotent"; spec 6:
    "pairing-request upsert (returns code + created flag)". *)
Definition upsertChannelPairingRequest
    (channel id : string) (name : option string)
  : Pipeline (string * bool) :=
  fun w =>
    match pairingRequests w !! (channel, id) with
    | Some req => (w, inr (pairing_code req, false))
    | None =>
        let code := generatePairingCode (pairingRequests w) in
        let req := {| pairing_code := code; pairing_name := name |} in
        (setPairingRequests (<[(channel, id) := req]> (pairingRequests w)) w,
         inr (code, true))
    end.

(** Modelled from the spec: [resolveThreadSessionKeys] of
    routing/session-key.js, whose code is not part of the sources.
    Spec 4.4: "If this is a thread reply, derives thread-scoped
    session key and, only when the adapter is configured to inherit
    context, a parent session key equal to the base session key;
    otherwise thread keys equal the base session key and parent key is
    absent."  The caller passes a thread id exactly for a thread reply. *)
Definition resolveThreadSessionKeys
    (baseSessionKey : string) (threadId parentSessionKey : option string)
  : ThreadKeys :=
  match threadId with
  | Some t =>
      {| tk_sessionKey := threadScopedSessionKey baseSessionKey t;
         tk_parentSessionKey := parentSessionKey |}
  | None =>
      {| tk_sessionKey := baseSessionKey; tk_parentSessionKey := None |}
  end.

(** *** Lines 37-68: channel classification *)
Record Classified := {
  channelInfo : ChannelInfo;
  channelName : option string;
  resolvedChannelType : option ChannelType;
  isDirectMessage : bool;
  isGroupDm : bool;
  isRoom : bool;
  isRoomish : bool;
  channelConfig : option ChannelConfig;
  allowBots : bool;
}.

Definition classify (ctx : SlackMonitorContext)
    (account : ResolvedSlackAccount) (message : SlackMessageEvent)
  : Classified :=
  (* [!channelType || channelType !== "im"] *)
  let lookup := negb (bool_decide (channel_type message = Some Im)) in
  let channelInfo :=
    if lookup then resolveChannelName (channel message)
    else noChannelInfo in
  let channelType :=
    if lookup
    then Js.nullish (channel_type message) (info_type channelInfo)
    else channel_type message in
  let channelName := info_name channelInfo in
  let resolvedChannelType :=
    normalizeSlackChannelType channelType (channel message) in
  let isDirectMessage := bool_decide (resolvedChannelType = Some Im) in
  let isGroupDm := bool_decide (resolvedChannelType = Some Mpim) in
  let isRoom :=
    bool_decide (resolvedChannelType = Some Channel)
    || bool_decide (resolvedChannelType = Some Group) in
  let isRoomish := isRoom || isGroupDm in
  let channelConfig :=
    if isRoom
    then resolveSlackChannelConfig (channel message) channelName
           (channelsConfig ctx) (defaultRequireMention ctx)
    else None in
  let allowBots :=
    default false
      (Js.nullish (channelConfig ≫= cc_allowBots)
         (Js.nullish (config account ≫= acct_allowBots)
            (slack_allowBots (cfg ctx)))) in
  {| channelInfo := channelInfo;
     channelName := channelName;
     resolvedChannelType := resolvedChannelType;
     isDirectMessage := isDirectMessage;
     isGroupDm := isGroupDm;
     isRoom := isRoom;
     isRoomish := isRoomish;
     channelConfig := channelConfig;
     allowBots := allowBots |}.

(** *** Lines 70-99: bot, sender and channel gates; yields [senderId] *)
Definition isBotMessage (message : SlackMessageEvent) : bool :=
  Js.truthyOpt (bot_id message).

(** [message.user && ctx.botUserId && message.user === ctx.botUserId] *)
Definition isOwnMessage (ctx : SlackMonitorContext)
    (message : SlackMessageEvent) : bool :=
  Js.truthyOpt (user message) && Js.truthy (botUserId ctx)
  && bool_decide (user message = Some (botUserId ctx)).

(** Line 84: [message.user ?? (isBotMessage ? message.bot_id : undefined)] *)
Definition senderIdOf (message : SlackMessageEvent) : option string :=
  Js.nullish (user message)
    (if isBotMessage message then bot_id message else None).

Definition senderGates (ctx : SlackMonitorContext)
    (message : SlackMessageEvent) (c : Classified) : Pipeline string :=
  when (isBotMessage message)
    (if isOwnMessage ctx message then drop SelfMessage
     else
       when (negb (allowBots c))
         (logVerbose ("slack: drop bot message "
                      +:+ default "unknown" (bot_id message)
                      +:+ " (allowBots=false)");;
          drop BotsNotAllowed));;
  when (isDirectMessage c && negb (Js.truthyOpt (user message)))
    (logVerbose "slack: drop dm message (missing user id)";;
     drop DmMissingUser);;
  let senderId := senderIdOf message in
  when (negb (Js.truthyOpt senderId))
    (logVerbose "slack: drop message (missing sender id)";;
     drop MissingSender);;
  when (negb (isChannelAllowed (channel message) (channelName c)
                (resolvedChannelType c)))
    (logVerbose "slack: drop message (channel not allowed)";;
     drop ChannelNotAllowed);;
  mret (default "" senderId).

(** *** Lines 101-157: the direct-message access policy *)

(** Lines 132-144: what is handed to [sendMessageSlack]. *)
Definition pairingReplyOf (account : ResolvedSlackAccount)
    (message : SlackMessageEvent) (directUserId code : string)
  : SentMessage :=
  {| sent_to := channel message;
     sent_text :=
       buildPairingReply "slack" ("Your Slack user id: " +:+ directUserId)
         code;
     sent_accountId := accountId account |}.

(** Lines 131-147: the pairing reply; a rejected send is logged. *)
Definition sendPairingReply (ctx : SlackMonitorContext)
    (account : ResolvedSlackAccount) (message : SlackMessageEvent)
    (directUserId code : string) : Pipeline unit :=
  let reply := pairingReplyOf account message directUserId code in
  recordSent reply;;
  match sendMessageSlack (sent_to reply) (sent_text reply) (botToken ctx)
          (sent_accountId reply) with
  | Some err =>
      logVerbose ("slack pairing reply failed for "
                  +:+ Js.tpl (user message) +:+ ": " +:+ err)
  | None => mret tt
  end.

(** How a run may change the pairing store and the outbox: not at all, or
    by creating the request of [directUserId] and dispatching its reply. *)
Definition pairingStep (account : ResolvedSlackAccount)
    (message : SlackMessageEvent) (directUserId : string) (w w' : World)
  : Prop :=
  (pairingRequests w' = pairingRequests w /\ sent w' = sent w)
  \/ (pairingRequests w !! ("slack", directUserId) = None
      /\ let code := generatePairingCode (pairingRequests w) in
         pairingRequests w'
         = <[("slack", directUserId) :=
               {| pairing_code := code;
                  pairing_name := resolveUserName directUserId ≫= user_name |}]>
             (pairingRequests w)
         /\ sent w' = sent w ++ [pairingReplyOf account message directUserId code]).

Definition dmAccessPolicy (ctx : SlackMonitorContext)
    (account : ResolvedSlackAccount) (message : SlackMessageEvent)
    (c : Classified) (allowFromLower : list string) : Pipeline unit :=
  when (isDirectMessage c)
    (when (negb (Js.truthyOpt (user message)))
       (logVerbose "slack: drop dm message (missing user id)";;
        drop DmMissingUser);;
     let directUserId := default "" (user message) in
     when (negb (dmEnabled ctx)
           || bool_decide (dmPolicy ctx = "disabled"))
       (logVerbose "slack: drop dm (dms disabled)";;
        drop DmDisabled);;
     when (negb (bool_decide (dmPolicy ctx = "open")))
       (let permitted := allowListMatches allowFromLower directUserId in
        when (negb permitted)
          ((if bool_decide (dmPolicy ctx = "pairing") then
              let sender := resolveUserName directUserId in
              let senderName := sender ≫= user_name in
              r ← upsertChannelPairingRequest "slack" directUserId
                    senderName;
              let '(code, created) := r in
              when created
                (logVerbose ("slack pairing request sender="
                             +:+ directUserId +:+ " name="
                             +:+ default "unknown" senderName);;
                 sendPairingReply ctx account message directUserId code)
            else
              logVerbose ("Blocked unauthorized slack sender "
                          +:+ Js.tpl (user message) +:+ " (dmPolicy="
                          +:+ dmPolicy ctx +:+ ")"));;
           drop DmNotPermitted))).

(** *** Lines 159-232: route, mention status and authorization

    These lines have no side effect; their constants are collected in
    one record, under the names they have in the source. *)
Record MentionLocals := {
  route : Route;
  mentionRegexes : list RegExp;
  wasMentioned : bool;
  implicitMention : bool;
  senderName : string;
  channelUserAuthorized : bool;
  commandAuthorized : bool;
  hasAnyMention : bool;
  allowTextCommands : bool;
  shouldRequireMention : bool;
  shouldBypassMention : bool;
  canDetectMention : bool;
  mentionGate : MentionGating.MentionGateResult;
  effectiveWasMentioned : bool;
}.

Definition mentionLocals (ctx : SlackMonitorContext)
    (account : ResolvedSlackAccount) (message : SlackMessageEvent)
    (opts : PrepareOpts) (c : Classified) (senderId : string)
    (allowFromLower : list string) : MentionLocals :=
  let route :=
    resolveAgentRoute (cfg ctx) "slack" (accountId account)
      (if Js.truthy (teamId ctx) then Some (teamId ctx) else None)
      {| peer_kind :=
           if isDirectMessage c then "dm"
           else if isRoom c then "channel" else "group";
         peer_id :=
           if isDirectMessage c then default "unknown" (user message)
           else channel message |} in
  let mentionRegexes := buildMentionRegexes (cfg ctx) (agentId route) in
  let wasMentioned :=
    default
      (negb (isDirectMessage c)
       && ((Js.truthy (botUserId ctx)
            && match text message with
               | Some t => Js.includes ("<@" +:+ botUserId ctx +:+ ">") t
               | None => false
               end)
           || matchesMentionPatterns (default "" (text message))
                mentionRegexes))
      (opts_wasMentioned opts) in
  let implicitMention :=
    negb (isDirectMessage c) && Js.truthy (botUserId ctx)
    && Js.truthyOpt (thread_ts message)
    && bool_decide (parent_user_id message = Some (botUserId ctx)) in
  let sender :=
    match user message with
    | Some u => if Js.truthy u then resolveUserName u else None
    | None => None
    end in
  let senderName :=
    default "unknown"
      (Js.nullish (sender ≫= user_name)
         (Js.nullish (Js.trim <$> username message)
            (Js.nullish (user message) (bot_id message)))) in
  let channelUserAuthorized :=
    if isRoom c
    then resolveSlackUserAllowed (channelConfig c ≫= cc_users) senderId
           senderName
    else true in
  let commandAuthorized :=
    isSlackSenderAllowListed allowFromLower senderId senderName
    && channelUserAuthorized in
  let hasAnyMention := hasAnyMentionIn (default "" (text message)) in
  let allowTextCommands := shouldHandleTextCommands (cfg ctx) "slack" in
  let shouldRequireMention :=
    if isRoom c
    then default (defaultRequireMention ctx)
           (channelConfig c ≫= cc_requireMention)
    else false in
  let shouldBypassMention :=
    allowTextCommands && isRoom c && shouldRequireMention
    && negb wasMentioned && negb hasAnyMention && commandAuthorized
    && hasControlCommand (default "" (text message)) (cfg ctx) in
  let canDetectMention :=
    Js.truthy (botUserId ctx) || (0 <? length mentionRegexes) in
  let mentionGate :=
    MentionGating.resolveMentionGating
      {| MentionGating.requireMention := shouldRequireMention;
         MentionGating.canDetectMention := canDetectMention;
         MentionGating.wasMentioned := wasMentioned;
         MentionGating.implicitMention := Some implicitMention;
         MentionGating.shouldBypassMention := Some shouldBypassMention |} in
  {| route := route;
     mentionRegexes := mentionRegexes;
     wasMentioned := wasMentioned;
     implicitMention := implicitMention;
     senderName := senderName;
     channelUserAuthorized := channelUserAuthorized;
     commandAuthorized := commandAuthorized;
     hasAnyMention := hasAnyMention;
     allowTextCommands := allowTextCommands;
     shouldRequireMention := shouldRequireMention;
     shouldBypassMention := shouldBypassMention;
     canDetectMention := canDetectMention;
     mentionGate := mentionGate;
     effectiveWasMentioned :=
       MentionGating.effectiveWasMentioned mentionGate |}.

(** Lines 194-197 and 234-237: the two gates of this stage. *)
Definition mentionGates (message : SlackMessageEvent) (c : Classified)
    (senderId : string) (l : MentionLocals) : Pipeline unit :=
  when (isRoom c && negb (channelUserAuthorized l))
    (logVerbose ("Blocked unauthorized slack sender " +:+ senderId
                 +:+ " (not in channel users)");;
     drop ChannelUserNotAllowed);;
  when (isRoom c && shouldRequireMention l
        && MentionGating.shouldSkip (mentionGate l))
    (loggerInfo {| info_channel := channel message;
                   info_reason := "no-mention";
                   info_msg := "skipping room message" |};;
     drop NoMention).

(** Lines 70-237: every gate before body resolution. *)
Definition admission (ctx : SlackMonitorContext)
    (account : ResolvedSlackAccount) (message : SlackMessageEvent)
    (opts : PrepareOpts) (c : Classified)
  : Pipeline (string * MentionLocals) :=
  senderId ← senderGates ctx message c;
  let allowFromLower := resolveSlackEffectiveAllowFrom ctx in
  dmAccessPolicy ctx account message c allowFromLower;;
  let l := mentionLocals ctx account message opts c senderId
             allowFromLower in
  mentionGates message c senderId l;;
  mret (senderId, l).

(** *** Lines 239-245: body resolution *)
Definition rawBodyOf (message : SlackMessageEvent)
    (media : option SlackMedia) : string :=
  Js.orStr (Js.trim (default "" (text message)))
    (Js.orOpt (media_placeholder <$> media) "").

(** *** Lines 247-277: the acknowledgment reaction *)
Definition shouldAckReaction (ctx : SlackMonitorContext) (c : Classified)
    (l : MentionLocals) (ackReaction : option string) : bool :=
  if negb (Js.truthyOpt ackReaction) then false
  else if bool_decide (ackReactionScope ctx = "all") then true
  else if bool_decide (ackReactionScope ctx = "direct")
  then isDirectMessage c
  else if bool_decide (ackReactionScope ctx = "group-all")
  then isRoomish c
  else if bool_decide (ackReactionScope ctx = "group-mentions") then
    if negb (isRoom c) then false
    else if negb (shouldRequireMention l) then false
    else if negb (canDetectMention l) then false
    else effectiveWasMentioned l
  else false.

(** Line 266: [shouldAckReaction() && ackReactionMessageTs &&
    ackReactionValue]. *)
Definition ackScheduled (ctx : SlackMonitorContext)
    (message : SlackMessageEvent) (c : Classified) (l : MentionLocals)
    (ackReaction : option string) : bool :=
  shouldAckReaction ctx c l ackReaction
  && Js.truthyOpt (ts message) && Js.truthy (default "" ackReaction).

(** Lines 270-276: the two handlers attached with [.then] to the call of
    [reactSlackMessage].  The call is not awaited, so the handlers run when
    the event loop settles it and not where it is made: for a message
    outside a thread no [await] follows line 277, and they run after
    [prepareSlackMessage] has returned, hence after the log line of line
    418; for a thread reply they may also run at the awaits of lines 362
    and 368.  They are a step of their own, taken in the world of that
    moment, and yield the value the promise settles to. *)
Definition ackReactionSettled (ctx : SlackMonitorContext)
    (message : SlackMessageEvent) (ackReaction : option string)
  : Pipeline bool :=
  match reactSlackMessage (channel message) (default "" (ts message))
          (default "" ackReaction) (botToken ctx) with
  | None => mret true
  | Some err =>
      logVerbose ("slack react failed for channel "
                  +:+ channel message +:+ ": " +:+ err);;
      mret false
  end.

(** Lines 265-277: the call is made where it is scheduled; the promise is
    given by the value it settles to, which is the one the handlers of
    [ackReactionSettled] return. *)
Definition scheduleAckReaction (ctx : SlackMonitorContext)
    (message : SlackMessageEvent) (c : Classified) (l : MentionLocals)
    (ackReaction : option string) : Pipeline (option bool) :=
  let ackReactionValue := default "" ackReaction in
  if ackScheduled ctx message c l ackReaction
  then
    let messageTs := default "" (ts message) in
    recordReaction {| react_channel := channel message;
                      react_ts := messageTs;
                      react_emoji := ackReactionValue |};;
    mret (Some (bool_decide
                  (reactSlackMessage (channel message) messageTs
                     ackReactionValue (botToken ctx) = None)))
  else mret None.

(** [message.ts ? Math.round(Number(message.ts) * 1000) : undefined] *)
Definition millisOf (t : option string) : option Js.num :=
  match t with
  | Some s => if Js.truthy s then Some (roundMillis s) else None
  | None => None
  end.

(** *** Lines 300-311: thread and session keys *)
Definition hasThreadTs (message : SlackMessageEvent) : bool :=
  Js.truthyOpt (thread_ts message).

Definition isThreadReply (message : SlackMessageEvent) : bool :=
  hasThreadTs message
  && (negb (bool_decide (thread_ts message = ts message))
      || Js.truthyOpt (parent_user_id message)).

Definition threadKeysOf (ctx : SlackMonitorContext)
    (message : SlackMessageEvent) (baseSessionKey : string) : ThreadKeys :=
  resolveThreadSessionKeys baseSessionKey
    (if isThreadReply message then thread_ts message else None)
    (if isThreadReply message && threadInheritParent ctx
     then Some baseSessionKey else None).

(** Line 345 *)
Definition slackToOf (message : SlackMessageEvent) (c : Classified)
  : string :=
  if isDirectMessage c then "user:" +:+ Js.tpl (user message)
  else "channel:" +:+ channel message.

(** Lines 347-357 *)
Definition truthyTrimmed (o : option string) : option string :=
  match o with
  | Some s => if Js.truthy (Js.trim s) then Some (Js.trim s) else None
  | None => None
  end.

Definition groupSystemPromptOf (c : Classified) : option string :=
  let channelDescription :=
    String.concat Js.nl
      (keepFirst []
         (omap truthyTrimmed
            [info_topic (channelInfo c); info_purpose (channelInfo c)])) in
  let systemPromptParts :=
    omap id
      [ if Js.truthy channelDescription
        then Some ("Channel description: " +:+ channelDescription)
        else None;
        truthyTrimmed (channelConfig c ≫= cc_systemPrompt) ] in
  if 0 <? length systemPromptParts
  then Some (String.concat (Js.nl +:+ Js.nl) systemPromptParts)
  else None.

(** Lines 359-382: [(threadStarterBody, threadLabel)] *)
Definition threadStarterOf (message : SlackMessageEvent)
    (roomLabel : string) : option string * option string :=
  if isThreadReply message && Js.truthyOpt (thread_ts message) then
    let threadTs := default "" (thread_ts message) in
    match resolveSlackThreadStarter (channel message) threadTs with
    | Some starter =>
        if Js.truthy (starter_text starter) then
          let starterUser :=
            match starter_userId starter with
            | Some u => if Js.truthy u then resolveUserName u else None
            | None => None
            end in
          let starterName :=
            default "Unknown"
              (Js.nullish (starterUser ≫= user_name)
                 (starter_userId starter)) in
          let starterWithId :=
            starter_text starter +:+ Js.nl +:+ "[slack message id: "
            +:+ default threadTs (starter_ts starter) +:+ " channel: "
            +:+ channel message +:+ "]" in
          let snippet :=
            Js.slice0 80 (Js.collapseSpaces (starter_text starter)) in
          (Some (formatThreadStarterEnvelope "Slack" starterName
                   (millisOf (starter_ts starter)) starterWithId),
           Some ("Slack thread " +:+ roomLabel
                 +:+ (if Js.truthy snippet then ": " +:+ snippet
                      else "")))
        else (None, Some ("Slack thread " +:+ roomLabel))
    | None => (None, Some ("Slack thread " +:+ roomLabel))
    end
  else (None, None).

(** Lines 327-342: the call of [buildHistoryContextFromMap] on the shared
    map [ctx.channelHistories], which it updates in place. *)
Definition buildHistoryContext (historyKey : string) (limit : Z)
    (entry : option HistoryEntry) (currentMessage : string)
    (formatEntry : HistoryEntry -> string) : Pipeline string :=
  fun w =>
    let r :=
      buildHistoryContextFromMap (channelHistories w) historyKey limit
        entry currentMessage formatEntry in
    (setChannelHistories r.2 w, inr r.1).

(** *** Lines 239-437: body, side effects and envelope *)
Definition assemble (ctx : SlackMonitorContext)
    (account : ResolvedSlackAccount) (message : SlackMessageEvent)
    (c : Classified) (senderId : string) (l : MentionLocals)
  : Pipeline PreparedSlackMessage :=
  let media :=
    resolveSlackMedia (files message) (botToken ctx)
      (mediaMaxBytes ctx) in
  let rawBody := rawBodyOf message media in
  when (negb (Js.truthy rawBody)) (drop EmptyBody);;
  let ackReaction := resolveAckReaction (cfg ctx) (agentId (route l)) in
  let ackReactionValue := default "" ackReaction in
  let ackReactionMessageTs := ts message in
  ackReactionPromise ← scheduleAckReaction ctx message c l ackReaction;
  let roomLabel :=
    if Js.truthyOpt (channelName c)
    then "#" +:+ Js.tpl (channelName c)
    else "#" +:+ channel message in
  let historyEntry :=
    if isRoomish c && (0 <? historyLimit ctx)%Z
    then Some {| entry_sender := senderName l;
                 entry_body := rawBody;
                 entry_timestamp := millisOf (ts message);
                 entry_messageId := ts message |}
    else None in
  let preview := Js.slice0 160 (Js.collapseSpaces rawBody) in
  let inboundLabel :=
    if isDirectMessage c then "Slack DM from " +:+ senderName l
    else "Slack message in " +:+ roomLabel +:+ " from " +:+ senderName l in
  let slackFrom :=
    if isDirectMessage c then "slack:" +:+ Js.tpl (user message)
    else if isRoom c then "slack:channel:" +:+ channel message
    else "slack:group:" +:+ channel message in
  let baseSessionKey := route_sessionKey (route l) in
  let threadKeys := threadKeysOf ctx message baseSessionKey in
  let sessionKey := tk_sessionKey threadKeys in
  let historyKey :=
    if isThreadReply message
       && bool_decide (threadHistoryScope ctx = "thread")
    then sessionKey else channel message in
  enqueueSystemEvent
    {| event_text := inboundLabel +:+ ": " +:+ preview;
       event_sessionKey := sessionKey;
       event_contextKey :=
         "slack:message:" +:+ channel message +:+ ":"
         +:+ default "unknown" (ts message) |};;
  let textWithId :=
    rawBody +:+ Js.nl +:+ "[slack message id: " +:+ Js.tpl (ts message)
    +:+ " channel: " +:+ channel message +:+ "]" in
  let body :=
    formatAgentEnvelope "Slack" (senderName l) (millisOf (ts message))
      textWithId in
  combinedBody ←
    (if isRoomish c && (0 <? historyLimit ctx)%Z
     then
       buildHistoryContext historyKey (historyLimit ctx) historyEntry body
         (fun entry =>
            formatAgentEnvelope "Slack" roomLabel (entry_timestamp entry)
              (entry_sender entry +:+ ": " +:+ entry_body entry
               +:+ (if Js.truthyOpt (entry_messageId entry)
                    then " [id:" +:+ Js.tpl (entry_messageId entry)
                         +:+ " channel:" +:+ channel message +:+ "]"
                    else "")))
     else mret body);
  let slackTo := slackToOf message c in
  let groupSystemPrompt := groupSystemPromptOf c in
  let starter := threadStarterOf message roomLabel in
  let ctxPayload :=
    {| Body := combinedBody;
       RawBody := rawBody;
       CommandBody := rawBody;
       From := slackFrom;
       To := slackTo;
       SessionKey := sessionKey;
       AccountId := route_accountId (route l);
       ChatType :=
         if isDirectMessage c then "direct"
         else if isRoom c then "room" else "group";
       GroupSubject := if isRoomish c then Some roomLabel else None;
       GroupSystemPrompt :=
         if isRoomish c then groupSystemPrompt else None;
       SenderName := senderName l;
       SenderId := senderId;
       Provider := "slack";
       Surface := "slack";
       MessageSid := ts message;
       ReplyToId := Js.nullish (thread_ts message) (ts message);
       ParentSessionKey := tk_parentSessionKey threadKeys;
       ThreadStarterBody := starter.1;
       ThreadLabel := starter.2;
       Timestamp := millisOf (ts message);
       WasMentioned :=
         if isRoomish c then Some (effectiveWasMentioned l) else None;
       MediaPath := media_path <$> media;
       MediaType := media ≫= media_contentType;
       MediaUrl := media_path <$> media;
       CommandAuthorized := commandAuthorized l;
       OriginatingChannel := "slack";
       OriginatingTo := slackTo |} in
  let replyTarget := To ctxPayload in
  when (negb (Js.truthy replyTarget)) (drop EmptyReplyTarget);;
  when shouldLogVerbose
    (logVerbose ("slack inbound: channel=" +:+ channel message
                 +:+ " from=" +:+ slackFrom +:+ " preview=" +:+ Js.quote
                 +:+ preview +:+ Js.quote));;
  mret {| p_ctx := ctx;
          p_account := account;
          p_message := message;
          p_route := route l;
          p_channelConfig := channelConfig c;
          replyTarget := replyTarget;
          ctxPayload := ctxPayload;
          p_isDirectMessage := isDirectMessage c;
          p_isRoomish := isRoomish c;
          historyKey := historyKey;
          preview := preview;
          ackReactionMessageTs := ackReactionMessageTs;
          ackReactionValue := ackReactionValue;
          ackReactionPromise := ackReactionPromise |}.

(** The constants of lines 159-232 as [admission] computes them for a
    message that gets that far. *)
Definition localsOf (ctx : SlackMonitorContext)
    (account : ResolvedSlackAccount) (message : SlackMessageEvent)
    (opts : PrepareOpts) : MentionLocals :=
  mentionLocals ctx account message opts (classify ctx account message)
    (default "" (senderIdOf message))
    (resolveSlackEffectiveAllowFrom ctx).

(** *** The exported function *)
Definition prepareSlackMessage (ctx : SlackMonitorContext)
    (account : ResolvedSlackAccount) (message : SlackMessageEvent)
    (opts : PrepareOpts) : Pipeline PreparedSlackMessage :=
  let c := classify ctx account message in
  passed ← admission ctx account message opts c;
  assemble ctx account message c passed.1 passed.2.

End Prepare.

(** Two worlds that differ in the logs at most: the stores, the outbox, the
    reactions and the system events are the same. *)
Definition quiet (w w' : World) : Prop :=
  pairingRequests w' = pairingRequests w
  /\ channelHistories w' = channelHistories w
  /\ sent w' = sent w
  /\ reactions w' = reactions w
  /\ systemEvents w' = systemEvents w.

End Slack.

(** ** A concrete deployment

    One instance of the collaborators and a few events, on which the
    pipeline can be run. *)
Module Demo.
Import Slack.

Definition inferType (channelId : string) : ChannelType :=
  if String.prefix "D" channelId then Im
  else if String.prefix "G" channelId then Mpim
  else Channel.

Definition generalConfig : ChannelConfig :=
  {| cc_requireMention := Some true;
     cc_allowBots := None;
     cc_users := None;
     cc_systemPrompt := None |}.

#[global] Instance collaborators : Collaborators := {|
  resolveChannelName channelId :=
    {| info_name := Some "general";
       info_type := Some (inferType channelId);
       info_topic := Some "Releases";
       info_purpose := None |};
  resolveUserName userId := Some {| user_name := Some ("name-" +:+ userId) |};
  isChannelAllowed _ _ _ := true;
  normalizeSlackChannelType channelType channelId :=
    Some (default (inferType channelId) channelType);
  resolveSlackChannelConfig _ _ _ _ := Some generalConfig;
  resolveSlackEffectiveAllowFrom _ := ["uowner"];
  isSlackSenderAllowListed allowList senderId _ :=
    bool_decide (senderId ∈ allowList);
  allowListMatches allowList userId := bool_decide (userId ∈ allowList);
  resolveSlackUserAllowed allowList userId userName :=
    match allowList with
    | Some l => bool_decide (userId ∈ l) || bool_decide (userName ∈ l)
    | None => true
    end;
  generatePairingCode store := "PAIR" +:+ pretty (size store);
  buildPairingReply _ idLine code := idLine +:+ " Pairing code: " +:+ code;
  sendMessageSlack _ _ _ _ := None;
  reactSlackMessage _ _ _ _ := None;
  resolveAgentRoute _ chan _ _ peer :=
    {| agentId := "main";
       route_accountId := "default";
       route_sessionKey :=
         "agent:main:" +:+ chan +:+ ":" +:+ peer_kind peer +:+ ":"
         +:+ peer_id peer |};
  threadScopedSessionKey base threadId := base +:+ ":thread:" +:+ threadId;
  buildMentionRegexes _ _ := [];
  matchesMentionPatterns _ _ := false;
  shouldHandleTextCommands _ _ := true;
  hasControlCommand body _ := String.prefix "/" body;
  resolveSlackMedia attached _ _ :=
    match attached with
    | Some (_ :: _) =>
        Some {| media_path := "/tmp/slack-file";
                media_contentType := None;
                media_placeholder := "[Slack file]" |}
    | _ => None
    end;
  resolveSlackThreadStarter _ _ := None;
  resolveAckReaction _ _ := Some "eyes";
  formatAgentEnvelope chan sender _ body :=
    "[" +:+ chan +:+ " " +:+ sender +:+ "] " +:+ body;
  formatThreadStarterEnvelope chan author _ body :=
    "[" +:+ chan +:+ " " +:+ author +:+ "] " +:+ body;
  buildHistoryContextFromMap histories _ _ _ current _ :=
    (current, histories);
  roundMillis _ := Js.NaN;
  shouldLogVerbose := false;
|}.

Definition ctx0 : SlackMonitorContext :=
  {| cfg := {| slack_allowBots := None |};
     botUserId := "UBOT";
     teamId := "T1";
     botToken := "xoxb-token";
     dmEnabled := true;
     dmPolicy := "pairing";
     defaultRequireMention := true;
     channelsConfig := None;
     ackReactionScope := "group-mentions";
     historyLimit := 0;
     threadInheritParent := true;
     threadHistoryScope := "thread";
     mediaMaxBytes := 1000000 |}.

Definition withDm (enabled : bool) (policy : string)
    (ctx : SlackMonitorContext) : SlackMonitorContext :=
  {| cfg := cfg ctx;
     botUserId := botUserId ctx;
     teamId := teamId ctx;
     botToken := botToken ctx;
     dmEnabled := enabled;
     dmPolicy := policy;
     defaultRequireMention := defaultRequireMention ctx;
     channelsConfig := channelsConfig ctx;
     ackReactionScope := ackReactionScope ctx;
     historyLimit := historyLimit ctx;
     threadInheritParent := threadInheritParent ctx;
     threadHistoryScope := threadHistoryScope ctx;
     mediaMaxBytes := mediaMaxBytes ctx |}.

Definition account0 : ResolvedSlackAccount :=
  {| accountId := "default"; config := None |}.

Definition opts0 : PrepareOpts :=
  {| source := "message"; opts_wasMentioned := None |}.

Definition world0 : World :=
  {| pairingRequests := ∅;
     channelHistories := ∅;
     sent := [];
     reactions := [];
     verboseLog := [];
     infoLog := [];
     systemEvents := [] |}.

(** An event in [chan] from [sender] with the given text. *)
Definition event (chan : string) (sender : option string)
    (body : option string) (stamp : string) : SlackMessageEvent :=
  {| channel := chan;
     channel_type := None;
     user := sender;
     bot_id := None;
     username := None;
     text := body;
     ts := Some stamp;
     thread_ts := None;
     parent_user_id := None;
     files := None |}.

Definition asBot (botId : string) (m : SlackMessageEvent)
  : SlackMessageEvent :=
  {| channel := channel m;
     channel_type := channel_type m;
     user := user m;
     bot_id := Some botId;
     username := username m;
     text := text m;
     ts := ts m;
     thread_ts := thread_ts m;
     parent_user_id := parent_user_id m;
     files := files m |}.

Definition inThread (threadTs : string) (parent : option string)
    (m : SlackMessageEvent) : SlackMessageEvent :=
  {| channel := channel m;
     channel_type := channel_type m;
     user := user m;
     bot_id := bot_id m;
     username := username m;
     text := text m;
     ts := ts m;
     thread_ts := Some threadTs;
     parent_user_id := parent;
     files := files m |}.

(** A second deployment: the channel ["CPRIVATE"] is not allowed, outbound
    calls to Slack are rejected, verbose logging is on, threads have a
    starter, the purpose of a channel repeats its topic, and the history
    helper renders and records entries. *)
Definition strict : Collaborators := {|
  resolveChannelName channelId :=
    {| info_name := Some "general";
       info_type := Some (inferType channelId);
       info_topic := Some "Releases";
       info_purpose := Some " Releases " |};
  resolveUserName := @resolveUserName collaborators;
  isChannelAllowed channelId _ _ := negb (bool_decide (channelId = "CPRIVATE"));
  normalizeSlackChannelType := @normalizeSlackChannelType collaborators;
  resolveSlackChannelConfig := @resolveSlackChannelConfig collaborators;
  resolveSlackEffectiveAllowFrom :=
    @resolveSlackEffectiveAllowFrom collaborators;
  isSlackSenderAllowListed := @isSlackSenderAllowListed collaborators;
  allowListMatches := @allowListMatches collaborators;
  resolveSlackUserAllowed := @resolveSlackUserAllowed collaborators;
  generatePairingCode := @generatePairingCode collaborators;
  buildPairingReply := @buildPairingReply collaborators;
  sendMessageSlack _ _ _ _ := Some "channel_not_found";
  reactSlackMessage _ _ _ _ := Some "ratelimited";
  resolveAgentRoute := @resolveAgentRoute collaborators;
  threadScopedSessionKey := @threadScopedSessionKey collaborators;
  buildMentionRegexes := @buildMentionRegexes collaborators;
  matchesMentionPatterns := @matchesMentionPatterns collaborators;
  shouldHandleTextCommands := @shouldHandleTextCommands collaborators;
  hasControlCommand := @hasControlCommand collaborators;
  resolveSlackMedia := @resolveSlackMedia collaborators;
  resolveSlackThreadStarter _ threadTs :=
    Some {| starter_text := "Release   plan";
            starter_userId := Some "U1";
            starter_ts := Some threadTs |};
  resolveAckReaction := @resolveAckReaction collaborators;
  formatAgentEnvelope := @formatAgentEnvelope collaborators;
  formatThreadStarterEnvelope := @formatThreadStarterEnvelope collaborators;
  buildHistoryContextFromMap histories key _ entry current formatEntry :=
    let past := default [] (histories !! key) in
    (String.concat Js.nl (map formatEntry past ++ [current]),
     match entry with
     | Some e => <[key := past ++ [e]]> histories
     | None => histories
     end);
  roundMillis := @roundMillis collaborators;
  shouldLogVerbose := true;
|}.

(** A context that keeps history, reacts to every message and admits
    allow-listed senders only. *)
Definition ctx1 : SlackMonitorContext :=
  {| cfg := {| slack_allowBots := None |};
     botUserId := "UBOT";
     teamId := "T1";
     botToken := "xoxb-token";
     dmEnabled := true;
     dmPolicy := "allowlist";
     defaultRequireMention := true;
     channelsConfig := None;
     ackReactionScope := "all";
     historyLimit := 5;
     threadInheritParent := true;
     threadHistoryScope := "thread";
     mediaMaxBytes := 1000000 |}.

(** A room message that mentions the bot, one that does not, a direct
    message of the owner and one of a stranger. *)
Definition mentioning : SlackMessageEvent :=
  event "C1" (Some "U7") (Some "<@UBOT>  hello   there") "1.0".

Definition unmentioning : SlackMessageEvent :=
  event "C1" (Some "U7") (Some "hello") "1.0".

Definition fromOwner : SlackMessageEvent :=
  event "D1" (Some "uowner") (Some "hi") "1.0".

Definition fromStranger : SlackMessageEvent :=
  event "D1" (Some "U9") (Some "hi") "1.0".

End Demo.

(** * Properties *)

Import Slack.

(** ** The string helpers on small inputs *)

Example trim_strips_both_ends : Js.trim "  control  command " = "control  command".
Proof. reflexivity. Qed.

Example trim_of_blank : Js.trim "   " = "".
Proof. reflexivity. Qed.

Example collapseSpaces_runs : Js.collapseSpaces "a   b  c " = "a b c ".
Proof. reflexivity. Qed.

Example includes_bot_token : Js.includes "<@UBOT>" "hello <@UBOT>!" = true.
Proof. reflexivity. Qed.

Example hasAnyMentionIn_token : hasAnyMentionIn "ping <@U123> now" = true.
Proof. reflexivity. Qed.

Example hasAnyMentionIn_empty_token : hasAnyMentionIn "ping <@> now" = false.
Proof. reflexivity. Qed.

Example hasAnyMentionIn_unclosed : hasAnyMentionIn "ping <@U123 now" = false.
Proof. reflexivity. Qed.

Example keepFirst_duplicates : keepFirst [] ["a"; "b"; "a"] = ["a"; "b"].
Proof. reflexivity. Qed.

(** ** The mention gate *)

(** C1. For every input, [effectiveWasMentioned] is the disjunction of
    [wasMentioned], [implicitMention] and [shouldBypassMention], an absent
    optional flag counting as false, and [shouldSkip] holds exactly when
    [requireMention] and [canDetectMention] hold and [effectiveWasMentioned]
    does not. *)
Theorem resolveMentionGating_truth_table (params : MentionGating.MentionGateParams) :
  let result := MentionGating.resolveMentionGating params in
  MentionGating.effectiveWasMentioned result
  = MentionGating.wasMentioned params
    || default false (MentionGating.implicitMention params)
    || default false (MentionGating.shouldBypassMention params)
  /\ (MentionGating.shouldSkip result = true
      <-> MentionGating.requireMention params = true
          /\ MentionGating.canDetectMention params = true
          /\ MentionGating.effectiveWasMentioned result = false).
Proof.
  destruct params as [req can was [[|]|] [[|]|]]; cbn;
    rewrite ?orb_true_r, ?orb_false_r; (split; [reflexivity|]);
    rewrite !andb_true_iff, negb_true_iff; tauto.
Qed.

(** C3. When mention detection is impossible the gate never skips, whatever
    the other inputs are. *)
Theorem resolveMentionGating_fail_open (params : MentionGating.MentionGateParams) :
  MentionGating.canDetectMention params = false ->
  MentionGating.shouldSkip (MentionGating.resolveMentionGating params) = false.
Proof.
  intros Hcan. unfold MentionGating.resolveMentionGating. cbn.
  rewrite Hcan. apply andb_false_intro1, andb_false_r.
Qed.

(** A required mention that cannot be detected. *)
Lemma resolveMentionGating_fail_open_witness :
  let params :=
    {| MentionGating.requireMention := true;
       MentionGating.canDetectMention := false;
       MentionGating.wasMentioned := false;
       MentionGating.implicitMention := None;
       MentionGating.shouldBypassMention := Some false |} in
  MentionGating.canDetectMention params = false
  /\ MentionGating.shouldSkip (MentionGating.resolveMentionGating params)
     = false.
Proof.
  split; [reflexivity|].
  apply resolveMentionGating_fail_open. reflexivity.
Defined.

(** ** Rules for the pipeline monad *)
Section Rules.
Context {A B : Type}.
Implicit Types (Q : A -> World -> Prop) (E : DropReason -> World -> Prop).

Lemma bind_run (m : Pipeline A) (k : A -> Pipeline B) w :
  (m ≫= k) w
  = match m w with
    | (w', inr a) => k a w'
    | (w', inl r) => (w', inl r)
    end.
Proof. reflexivity. Qed.

Lemma bind_inr (m : Pipeline A) (k : A -> Pipeline B) w w' a :
  m w = (w', inr a) -> (m ≫= k) w = k a w'.
Proof. intros Hm. rewrite bind_run, Hm. reflexivity. Qed.

Lemma bind_inl (m : Pipeline A) (k : A -> Pipeline B) w w' r :
  m w = (w', inl r) -> (m ≫= k) w = (w', inl r).
Proof. intros Hm. rewrite bind_run, Hm. reflexivity. Qed.

Lemma wp_ret Q E (a : A) w : Q a w -> wp (mret a) Q E w.
Proof. exact id. Qed.

Lemma wp_drop Q E r w : E r w -> wp (drop r) Q E w.
Proof. exact id. Qed.

Lemma wp_bind (m : Pipeline A) (k : A -> Pipeline B)
    (Q : B -> World -> Prop) E w :
  wp m (fun a => wp (k a) Q E) E w -> wp (m ≫= k) Q E w.
Proof.
  unfold wp. rewrite bind_run. destruct (m w) as [w' [r|a]]; exact id.
Qed.

Lemma wp_if (b : bool) (m1 m2 : Pipeline A) Q E w :
  (b = true -> wp m1 Q E w) -> (b = false -> wp m2 Q E w) ->
  wp (if b then m1 else m2) Q E w.
Proof. destruct b; auto. Qed.

Lemma wp_mono (m : Pipeline A) Q Q' E E' w :
  wp m Q E w ->
  (forall a w', Q a w' -> Q' a w') -> (forall r w', E r w' -> E' r w') ->
  wp m Q' E' w.
Proof.
  unfold wp. destruct (m w) as [w' [r|a]]; auto.
Qed.

Lemma wp_inr (m : Pipeline A) Q E w w' a :
  wp m Q E w -> m w = (w', inr a) -> Q a w'.
Proof. unfold wp. intros Hwp Hm. rewrite Hm in Hwp. exact Hwp. Qed.

Lemma wp_inl (m : Pipeline A) Q E w w' r :
  wp m Q E w -> m w = (w', inl r) -> E r w'.
Proof. unfold wp. intros Hwp Hm. rewrite Hm in Hwp. exact Hwp. Qed.

End Rules.

Lemma wp_effect (f : World -> World) (Q : unit -> World -> Prop) E w :
  Q tt (f w) -> wp (effect f) Q E w.
Proof. exact id. Qed.

Lemma wp_when (b : bool) (m : Pipeline unit) (Q : unit -> World -> Prop) E w :
  (b = true -> wp m Q E w) -> (b = false -> Q tt w) -> wp (when b m) Q E w.
Proof.
  destruct b; intros Ht Hf; [apply Ht | apply Hf]; reflexivity.
Qed.

(** One step of a weakest-precondition computation. *)
Ltac wp_step :=
  lazymatch goal with
  | |- wp (_ ≫= _) _ _ _ => apply wp_bind
  | |- wp (mret _) _ _ _ => apply wp_ret
  | |- wp (ret _) _ _ _ => apply wp_ret
  | |- wp (drop _) _ _ _ => apply wp_drop
  | |- wp (when _ _) _ _ _ => apply wp_when; intros ?
  | |- wp (if _ then _ else _) _ _ _ => apply wp_if; intros ?
  | |- wp (logVerbose _) _ _ _ => apply wp_effect
  | |- wp (loggerInfo _) _ _ _ => apply wp_effect
  | |- wp (enqueueSystemEvent _) _ _ _ => apply wp_effect
  | |- wp (recordSent _) _ _ _ => apply wp_effect
  | |- wp (recordReaction _) _ _ _ => apply wp_effect
  | |- wp (effect _) _ _ _ => apply wp_effect
  | |- wp (let x := ?v in @?m x) ?Q ?E ?w =>
      change (let x := v in wp (m x) Q E w); intro; cbv beta
  | |- wp (match ?x with _ => _ end) _ _ _ => destruct x eqn:?
  end.

Ltac wp_go := repeat wp_step.

(** Membership of a reason in a list of reasons written out. *)
Ltac in_reasons :=
  rewrite ?elem_of_cons, ?elem_of_nil in *; intuition (try congruence).

(** ** The mention-token pattern *)
Section MentionToken.

Lemma includes_gt_nil : Js.includes ">" "" = false.
Proof. reflexivity. Qed.

Lemma includes_gt_cons (c : ascii) (t : string) :
  Js.includes ">" (String c t) = Ascii.eqb c ">" || Js.includes ">" t.
Proof.
  change (Js.includes ">" (String c t))
    with (String.prefix ">" (String c t) || Js.includes ">" t).
  f_equal.
  change (String.prefix ">" (String c t))
    with (if ascii_dec ">" c then String.prefix "" t else false).
  destruct (ascii_dec ">" c) as [<-|Hne].
  - destruct t; reflexivity.
  - destruct (Ascii.eqb_spec c ">") as [->|_]; [contradiction|reflexivity].
Qed.

Lemma append_gt_not_empty (a b : string) : a +:+ ">" +:+ b <> "".
Proof. destruct a; discriminate. Qed.

(** [mentionTail] recognises [[^>]+>] as a prefix, the [+] being waived
    when a code unit has been consumed before. *)
Lemma mentionTail_spec (s : string) : forall seen,
  mentionTail seen s = true
  <-> exists id post,
        s = id +:+ ">" +:+ post /\ Js.includes ">" id = false
        /\ (seen = true \/ id <> "").
Proof.
  induction s as [|c t IH]; intros seen; cbn.
  - split; [discriminate|].
    intros (id & post & Heq & _). symmetry in Heq.
    exfalso. exact (append_gt_not_empty _ _ Heq).
  - destruct (Ascii.eqb_spec c ">") as [->|Hc].
    + split.
      * intros ->. exists "", t. cbn. auto.
      * intros (id & post & Heq & Hfree & Hseen).
        destruct id as [|d id'].
        -- destruct Hseen as [Hseen|Hid]; [exact Hseen|contradiction].
        -- cbn in Heq. injection Heq as <- _.
           rewrite includes_gt_cons in Hfree. discriminate.
    + rewrite IH. split.
      * intros (id & post & -> & Hfree & _).
        exists (String c id), post. rewrite includes_gt_cons.
        destruct (Ascii.eqb_spec c ">") as [Heq|_]; [contradiction|].
        repeat split; [exact Hfree|right; discriminate].
      * intros (id & post & Heq & Hfree & _).
        destruct id as [|d id'].
        -- cbn in Heq. injection Heq as Heq _. contradiction.
        -- cbn in Heq. injection Heq as <- ->.
           rewrite includes_gt_cons in Hfree.
           apply orb_false_iff in Hfree as [_ Hfree].
           exists id', post. auto.
Qed.

(** [hasAnyMentionIn] is the test of [/<@[^>]+>/]: the text holds ["<@"],
    then a non-empty run free of [>], then [>]. *)
Lemma hasAnyMentionIn_spec (s : string) :
  hasAnyMentionIn s = true
  <-> exists pre id post,
        s = pre +:+ "<@" +:+ id +:+ ">" +:+ post
        /\ id <> "" /\ Js.includes ">" id = false.
Proof.
  induction s as [|c t IH]; cbn.
  - split; [discriminate|].
    intros (pre & id & post & Heq & _). destruct pre; discriminate.
  - rewrite orb_true_iff, andb_true_iff, IH. split.
    + intros [[Hc Htail] | (pre & id & post & -> & Hid & Hfree)].
      * apply Ascii.eqb_eq in Hc as ->.
        destruct t as [|d u]; [discriminate|].
        apply andb_true_iff in Htail as [Hd Htail].
        apply Ascii.eqb_eq in Hd as ->.
        apply mentionTail_spec in Htail
          as (id & post & -> & Hfree & [Hseen|Hid]); [discriminate|].
        exists "", id, post. auto.
      * exists (String c pre), id, post. auto.
    + intros (pre & id & post & Heq & Hid & Hfree).
      destruct pre as [|d pre'].
      * left. cbn in Heq. injection Heq as -> ->. split; [reflexivity|].
        cbn. apply mentionTail_spec. exists id, post. auto.
      * right. cbn in Heq. injection Heq as _ ->.
        exists pre', id, post. auto.
Qed.

End MentionToken.

(** ** The stages of the pipeline *)
Section Stages.
Context `{Collaborators}.
Implicit Types (ctx : SlackMonitorContext) (message : SlackMessageEvent)
  (c : Classified) (w : World).

(** What is known once the sender gates are passed, and which
    [return null] is taken otherwise; the logs alone may have grown. *)
Lemma senderGates_spec ctx message c w :
  wp (senderGates ctx message c)
    (fun senderId w' =>
       w' = w
       /\ Js.truthy senderId = true
       /\ senderIdOf message = Some senderId
       /\ (isDirectMessage c = true -> user message = Some senderId)
       /\ (isBotMessage message = true ->
           isOwnMessage ctx message = false /\ allowBots c = true)
       /\ isChannelAllowed (channel message) (channelName c)
            (resolvedChannelType c) = true)
    (fun r w' =>
       r ∈ [SelfMessage; BotsNotAllowed; DmMissingUser; MissingSender;
            ChannelNotAllowed]
       /\ pairingRequests w' = pairingRequests w
       /\ sent w' = sent w /\ reactions w' = reactions w)
    w.
Proof.
  unfold senderGates, senderIdOf. wp_go; cbn.
  all: lazymatch goal with
       | |- _ ∈ _ /\ _ => split; [in_reasons | auto]
       | |- _ => split; [reflexivity|]
       end.
  all: rewrite ?negb_false_iff, ?negb_true_iff, ?andb_false_iff in *.
  all: destruct (user message), (bot_id message), (isBotMessage message),
         (isDirectMessage c); cbn in *; intuition congruence.
Qed.

Lemma wp_upsertChannelPairingRequest chan id name
    (Q : string * bool -> World -> Prop) E w :
  match pairingRequests w !! (chan, id) with
  | Some req => Q (pairing_code req, false) w
  | None =>
      let code := generatePairingCode (pairingRequests w) in
      Q (code, true)
        (setPairingRequests
           (<[(chan, id) :=
                {| pairing_code := code; pairing_name := name |}]>
              (pairingRequests w)) w)
  end ->
  wp (upsertChannelPairingRequest chan id name) Q E w.
Proof.
  unfold wp, upsertChannelPairingRequest.
  destruct (pairingRequests w !! (chan, id)); intros HQ; exact HQ.
Qed.

(** The direct-message policy lets a message through without touching the
    world; each of its three [return null]s has its own condition, and
    none schedules a reaction. *)
Lemma dmAccessPolicy_spec ctx account message c allowFromLower w :
  wp (dmAccessPolicy ctx account message c allowFromLower)
    (fun _ w' =>
       w' = w
       /\ (isDirectMessage c = true ->
           dmEnabled ctx = true /\ dmPolicy ctx <> "disabled"
           /\ (dmPolicy ctx <> "open" ->
               allowListMatches allowFromLower (default "" (user message))
               = true)))
    (fun r w' =>
       isDirectMessage c = true
       /\ reactions w' = reactions w
       /\ pairingStep account message (default "" (user message)) w w'
       /\ (r = DmMissingUser /\ Js.truthyOpt (user message) = false
           \/ r = DmDisabled
              /\ (dmEnabled ctx = false \/ dmPolicy ctx = "disabled")
           \/ r = DmNotPermitted
              /\ dmEnabled ctx = true /\ dmPolicy ctx <> "disabled"
              /\ dmPolicy ctx <> "open"
              /\ allowListMatches allowFromLower
                   (default "" (user message)) = false))
    w.
Proof.
  unfold dmAccessPolicy, sendPairingReply, pairingStep.
  wp_go;
    try (apply wp_upsertChannelPairingRequest;
         destruct (pairingRequests w !! _) eqn:Hpending; cbv zeta; wp_go).
  all: cbn.
  all: rewrite ?negb_true_iff, ?negb_false_iff, ?orb_true_iff,
         ?orb_false_iff, ?bool_decide_eq_true, ?bool_decide_eq_false in *.
  all: destruct (dmEnabled ctx), (allowListMatches _ _);
    cbn in *; intuition congruence.
Qed.

Lemma mentionGates_spec message c senderId (l : MentionLocals) w :
  wp (mentionGates message c senderId l)
    (fun _ w' =>
       w' = w
       /\ (isRoom c = true ->
           channelUserAuthorized l = true
           /\ (shouldRequireMention l = true ->
               MentionGating.shouldSkip (mentionGate l) = false)))
    (fun r w' =>
       isRoom c = true
       /\ pairingRequests w' = pairingRequests w
       /\ sent w' = sent w /\ reactions w' = reactions w
       /\ (r = ChannelUserNotAllowed /\ channelUserAuthorized l = false
           \/ r = NoMention /\ shouldRequireMention l = true
              /\ MentionGating.shouldSkip (mentionGate l) = true))
    w.
Proof.
  unfold mentionGates. wp_go; cbn.
  all: rewrite ?negb_true_iff, ?negb_false_iff, ?andb_true_iff,
         ?andb_false_iff in *.
  all: destruct (isRoom c), (channelUserAuthorized l),
         (shouldRequireMention l); cbn in *; intuition congruence.
Qed.

Lemma scheduleAckReaction_spec ctx message c (l : MentionLocals) ack w :
  wp (scheduleAckReaction ctx message c l ack)
    (fun promise w' =>
       (promise <> None <-> ackScheduled ctx message c l ack = true)
       /\ (ackScheduled ctx message c l ack = false -> w' = w)
       /\ reactions w'
          = reactions w
            ++ (if ackScheduled ctx message c l ack
                then [ {| react_channel := channel message;
                          react_ts := default "" (ts message);
                          react_emoji := default "" ack |} ]
                else [])
       /\ pairingRequests w' = pairingRequests w /\ sent w' = sent w)
    (fun _ _ => False)
    w.
Proof.
  unfold scheduleAckReaction. wp_go; cbn.
  all: match goal with Hs : ackScheduled _ _ _ _ _ = _ |- _ => rewrite Hs end.
  all: rewrite ?app_nil_r; repeat split; congruence.
Qed.

Lemma wp_buildHistoryContext key limit entry current fmt
    (Q : string -> World -> Prop) E w :
  (let r :=
     buildHistoryContextFromMap (channelHistories w) key limit entry
       current fmt in
   Q r.1 (setChannelHistories r.2 w)) ->
  wp (buildHistoryContext key limit entry current fmt) Q E w.
Proof. intros HQ. exact HQ. Qed.

Lemma prefix_empty (s : string) : String.prefix "" s = true.
Proof. destruct s; reflexivity. Qed.

(** Line 345 always yields a prefixed, hence non-empty, target. *)
Lemma slackToOf_shape message c :
  (String.prefix "user:" (slackToOf message c) = true
   \/ String.prefix "channel:" (slackToOf message c) = true)
  /\ Js.truthy (slackToOf message c) = true.
Proof.
  unfold slackToOf. destruct (isDirectMessage c); cbn.
  - split; [left|reflexivity]. apply prefix_empty.
  - split; [right|reflexivity]. apply prefix_empty.
Qed.

Lemma assemble_spec ctx account message c senderId (l : MentionLocals) w :
  let media :=
    resolveSlackMedia (files message) (botToken ctx) (mediaMaxBytes ctx) in
  let ack := resolveAckReaction (cfg ctx) (agentId (route l)) in
  let threadKeys := threadKeysOf ctx message (route_sessionKey (route l)) in
  wp (assemble ctx account message c senderId l)
    (fun p w' =>
       Js.truthy (rawBodyOf message media) = true
       /\ RawBody (ctxPayload p) = rawBodyOf message media
       /\ CommandBody (ctxPayload p) = rawBodyOf message media
       /\ To (ctxPayload p) = slackToOf message c
       /\ replyTarget p = slackToOf message c
       /\ SessionKey (ctxPayload p) = tk_sessionKey threadKeys
       /\ ParentSessionKey (ctxPayload p) = tk_parentSessionKey threadKeys
       /\ p_route p = route l
       /\ WasMentioned (ctxPayload p)
          = (if isRoomish c then Some (effectiveWasMentioned l) else None)
       /\ CommandAuthorized (ctxPayload p) = commandAuthorized l
       /\ ackReactionValue p = default "" ack
       /\ (ackReactionPromise p <> None
           <-> ackScheduled ctx message c l ack = true)
       /\ reactions w'
          = reactions w
            ++ (if ackScheduled ctx message c l ack
                then [ {| react_channel := channel message;
                          react_ts := default "" (ts message);
                          react_emoji := default "" ack |} ]
                else [])
       /\ pairingRequests w' = pairingRequests w /\ sent w' = sent w)
    (fun r w' =>
       r = EmptyBody /\ w' = w
       /\ Js.truthy (rawBodyOf message media) = false)
    w.
Proof.
  intros media ack threadKeys. unfold assemble. wp_go.
  { rewrite negb_true_iff in *. auto. }
  eapply wp_mono;
    [apply scheduleAckReaction_spec | | intros ? ? []].
  intros promise w1 (Hpromise & _ & Hreactions & Hpairing & Hsent).
  rewrite negb_false_iff in *.
  wp_go; try (apply wp_buildHistoryContext; cbv zeta); wp_go.
  all: cbn [To] in *.
  all: try match goal with
         | Hto : negb (Js.truthy (slackToOf _ _)) = true |- _ =>
             rewrite (proj2 (slackToOf_shape _ _)) in Hto; discriminate
         end.
  all: cbn; repeat (split; [now auto|]); auto.
Qed.

(** Admission leaves the world as it was when it lets a message through,
    and schedules no reaction when it does not. *)
Lemma admission_spec ctx account message opts c w :
  wp (admission ctx account message opts c)
    (fun a w' =>
       w' = w
       /\ senderIdOf message = Some a.1
       /\ a.2 = mentionLocals ctx account message opts c a.1
                  (resolveSlackEffectiveAllowFrom ctx)
       /\ Js.truthy a.1 = true
       /\ (isDirectMessage c = true ->
           user message = Some a.1 /\ dmEnabled ctx = true
           /\ dmPolicy ctx <> "disabled"
           /\ (dmPolicy ctx <> "open" ->
               allowListMatches (resolveSlackEffectiveAllowFrom ctx) a.1
               = true))
       /\ (isRoom c = true ->
           channelUserAuthorized a.2 = true
           /\ (shouldRequireMention a.2 = true ->
               MentionGating.shouldSkip (mentionGate a.2) = false)))
    (fun r w' =>
       reactions w' = reactions w
       /\ pairingStep account message (default "" (user message)) w w'
       /\ r ∈ [SelfMessage; BotsNotAllowed; DmMissingUser; MissingSender;
               ChannelNotAllowed; DmDisabled; DmNotPermitted;
               ChannelUserNotAllowed; NoMention]
       /\ (r = DmDisabled ->
           isDirectMessage c = true
           /\ (dmEnabled ctx = false \/ dmPolicy ctx = "disabled")))
    w.
Proof.
  unfold admission. apply wp_bind.
  eapply wp_mono; [apply senderGates_spec | |].
  2:{ intros r w' (Hr & Hstore & Hsent & Hreact). split; [exact Hreact|].
      split; [left; auto|].
      split; [in_reasons|]. intros ->. in_reasons. }
  intros senderId w1 (-> & Htruthy & Hsender & Huser & _). cbv zeta.
  apply wp_bind.
  eapply wp_mono; [apply dmAccessPolicy_spec | |].
  2:{ intros r w' (Hdm & Hreact & Hstep & Hr). split; [exact Hreact|].
      split; [exact Hstep|].
      split; [in_reasons|]. intros ->.
      split; [exact Hdm|]. intuition congruence. }
  intros _ w2 (-> & Hpolicy). apply wp_bind.
  eapply wp_mono; [apply mentionGates_spec | |].
  2:{ intros r w' (_ & Hstore & Hsent & Hreact & Hr).
      split; [exact Hreact|]. split; [left; auto|].
      split; [in_reasons|]. intros ->. intuition congruence. }
  intros _ w3 (-> & Hroom). apply wp_ret. cbn.
  split; [reflexivity|]. split; [exact Hsender|].
  split; [reflexivity|]. split; [exact Htruthy|].
  split; [|exact Hroom].
  intros Hdm. specialize (Hpolicy Hdm). specialize (Huser Hdm).
  rewrite Huser in Hpolicy. cbn in Hpolicy. tauto.
Qed.

(** Either admission takes a [return null], or it leaves the world as it
    was and assembly runs on the constants of the message. *)
Lemma prepareSlackMessage_run ctx account message opts w :
  let c := classify ctx account message in
  let senderId := default "" (senderIdOf message) in
  let l := localsOf ctx account message opts in
  (exists r w',
      admission ctx account message opts c w = (w', inl r)
      /\ prepareSlackMessage ctx account message opts w = (w', inl r))
  \/ (admission ctx account message opts c w = (w, inr (senderId, l))
      /\ prepareSlackMessage ctx account message opts w
         = assemble ctx account message c senderId l w).
Proof.
  intros c senderId l. unfold prepareSlackMessage. fold c.
  rewrite bind_run.
  destruct (admission ctx account message opts c w) as [w' [r|[sid l']]]
    eqn:Hadm.
  - left. eauto.
  - right.
    destruct (wp_inr _ _ _ _ _ _ (admission_spec ctx account message opts c w)
                Hadm) as (-> & Hsender & Hl & _).
    cbn in Hsender, Hl. subst l'.
    assert (sid = senderId) as -> by (unfold senderId; rewrite Hsender; reflexivity).
    split; reflexivity.
Qed.

End Stages.

(** ** The admission gates *)
Section Gates.
Context `{Collaborators}.
Implicit Types (ctx : SlackMonitorContext) (message : SlackMessageEvent)
  (account : ResolvedSlackAccount) (opts : PrepareOpts) (w : World).



(** C9.  A direct message is dropped whenever [dmEnabled] is off, whatever
    the policy and the allowlist say; and for a direct message that has
    passed the sender gates, the drop of line 111 is taken exactly when
    [dmEnabled] is off or the policy is ["disabled"]. *)
Theorem dm_disabled_drop ctx account message opts w :
  let c := classify ctx account message in
  isDirectMessage c = true ->
  (dmEnabled ctx = false ->
   returned (prepareSlackMessage ctx account message opts w) = None)
  /\ (forall senderId,
        (senderGates ctx message c w).2 = inr senderId ->
        ((prepareSlackMessage ctx account message opts w).2 = inl DmDisabled
         <-> dmEnabled ctx = false \/ dmPolicy ctx = "disabled")).
Proof.
  intros c Hdm. split.
  - intros Hoff.
    destruct (prepareSlackMessage_run ctx account message opts w)
      as [(r & w' & _ & ->) | [Hadm _]]; [reflexivity|].
    pose proof (wp_inr _ _ _ _ _ _
                  (admission_spec ctx account message opts c w) Hadm)
      as (_ & _ & _ & _ & Hpolicy & _).
    destruct (Hpolicy Hdm) as (_ & Hon & _). congruence.
  - intros senderId Hpass.
    destruct (senderGates ctx message c w) as [w1 [r|sid]] eqn:Hgates;
      [discriminate|].
    cbn in Hpass. injection Hpass as ->.
    pose proof (wp_inr _ _ _ _ _ _ (senderGates_spec ctx message c w) Hgates)
      as (-> & Htruthy & _ & Huser & _).
    specialize (Huser Hdm). split.
    + intros Hdrop.
      destruct (prepareSlackMessage_run ctx account message opts w)
        as [(r & w' & Hadm & Hrun) | [Hadm Hrun]]; rewrite Hrun in Hdrop.
      * cbn in Hdrop. injection Hdrop as ->.
        pose proof (wp_inl _ _ _ _ _ _
                      (admission_spec ctx account message opts c w) Hadm)
          as (_ & _ & _ & Hwhy).
        apply Hwhy. reflexivity.
      * fold c in Hdrop.
        destruct (assemble ctx account message c
                    (default "" (senderIdOf message))
                    (localsOf ctx account message opts) w)
          as [w' [r|p]] eqn:Hasm; [|discriminate].
        pose proof (wp_inl _ _ _ _ _ _
                      (assemble_spec ctx account message c _ _ w) Hasm)
          as (-> & _).
        discriminate.
    + intros Hoff.
      destruct (dmAccessPolicy ctx account message c
                  (resolveSlackEffectiveAllowFrom ctx) w)
        as [w2 [r|[]]] eqn:Hpolicy.
      * pose proof (wp_inl _ _ _ _ _ _
                      (dmAccessPolicy_spec ctx account message c _ w)
                      Hpolicy) as (_ & _ & Hwhy).
        assert (r = DmDisabled) as ->.
        { rewrite Huser in Hwhy. cbn in Hwhy. intuition congruence. }
        unfold prepareSlackMessage, admission. fold c.
        rewrite !bind_run, Hgates. cbv zeta. rewrite bind_run, Hpolicy.
        reflexivity.
      * pose proof (wp_inr _ _ _ _ _ _
                      (dmAccessPolicy_spec ctx account message c _ w)
                      Hpolicy) as (_ & Hon).
        specialize (Hon Hdm). intuition congruence.
Qed.

End Gates.

(** ** Pairing *)
Section Pairing.
Context `{Collaborators}.
Implicit Types (ctx : SlackMonitorContext) (message : SlackMessageEvent)
  (account : ResolvedSlackAccount) (opts : PrepareOpts) (w : World).

(** Under the policy ["pairing"], a direct message of a sender who is not
    on the allowlist ends in the [return null] of line 154; the store and
    the outbox change exactly as the upsert decides. *)
Lemma dmAccessPolicy_pairing ctx account message c w sender :
  isDirectMessage c = true ->
  user message = Some sender ->
  Js.truthy sender = true ->
  dmEnabled ctx = true ->
  dmPolicy ctx = "pairing" ->
  allowListMatches (resolveSlackEffectiveAllowFrom ctx) sender = false ->
  wp (dmAccessPolicy ctx account message c
        (resolveSlackEffectiveAllowFrom ctx))
    (fun _ _ => False)
    (fun r w' =>
       r = DmNotPermitted
       /\ match pairingRequests w !! ("slack", sender) with
          | Some _ =>
              pairingRequests w' = pairingRequests w /\ sent w' = sent w
          | None =>
              let code := generatePairingCode (pairingRequests w) in
              pairingRequests w'
              = <[("slack", sender) :=
                    {| pairing_code := code;
                       pairing_name := resolveUserName sender ≫= user_name |}]>
                  (pairingRequests w)
              /\ sent w' = sent w ++ [pairingReplyOf account message sender code]
          end)
    w.
Proof.
  intros Hdm Huser Htruthy Hon Hpolicy Hallow.
  unfold dmAccessPolicy, sendPairingReply.
  rewrite Hdm, Huser, Hon, Hpolicy.
  change (default "" (Some sender)) with sender. cbn [Js.truthyOpt].
  rewrite Htruthy, Hallow. cbn [negb orb].
  assert (forall s : string,
             s <> "pairing" -> bool_decide ("pairing" = s) = false)
    as Hother by (intros s Hs; apply bool_decide_eq_false_2; congruence).
  rewrite (Hother "disabled"), (Hother "open") by discriminate.
  rewrite bool_decide_eq_true_2 by reflexivity. cbn [negb when].
  wp_go; try discriminate.
  apply wp_upsertChannelPairingRequest.
  destruct (pairingRequests w !! ("slack", sender)); cbv zeta; wp_go;
    try discriminate; cbn; auto.
Qed.


(** One run of the pipeline in the pairing scenario. *)
Lemma pairing_run ctx account message opts w sender :
  let c := classify ctx account message in
  let run := prepareSlackMessage ctx account message opts w in
  isDirectMessage c = true ->
  (senderGates ctx message c w).2 = inr sender ->
  dmEnabled ctx = true ->
  dmPolicy ctx = "pairing" ->
  allowListMatches (resolveSlackEffectiveAllowFrom ctx) sender = false ->
  run.2 = inl DmNotPermitted
  /\ match pairingRequests w !! ("slack", sender) with
     | Some _ =>
         pairingRequests run.1 = pairingRequests w /\ sent run.1 = sent w
     | None =>
         let code := generatePairingCode (pairingRequests w) in
         pairingRequests run.1
         = <[("slack", sender) :=
               {| pairing_code := code;
                  pairing_name := resolveUserName sender ≫= user_name |}]>
             (pairingRequests w)
         /\ sent run.1 = sent w ++ [pairingReplyOf account message sender code]
     end.
Proof.
  intros c run Hdm Hpass Hon Hpolicy Hallow.
  destruct (senderGates ctx message c w) as [w1 [r|sid]] eqn:Hgates;
    [discriminate|].
  cbn in Hpass. injection Hpass as ->.
  pose proof (wp_inr _ _ _ _ _ _ (senderGates_spec ctx message c w) Hgates)
    as (-> & Htruthy & _ & Huser & _).
  specialize (Huser Hdm).
  pose proof (dmAccessPolicy_pairing ctx account message c w sender
                Hdm Huser Htruthy Hon Hpolicy Hallow) as Hdrop.
  unfold wp in Hdrop.
  subst run. unfold prepareSlackMessage, admission. fold c.
  rewrite !bind_run, Hgates. cbv zeta. rewrite !bind_run.
  destruct (dmAccessPolicy ctx account message c
              (resolveSlackEffectiveAllowFrom ctx) w) as [w' [r|[]]];
    [|contradiction].
  destruct Hdrop as [-> Hstore]. split; [reflexivity|exact Hstore].
Qed.

(** Whatever a run does, the pairing store and the outbox change by at most
    the creation of the sender's request and its reply. *)
Lemma prepareSlackMessage_pairingStep ctx account message opts w :
  pairingStep account message (default "" (user message)) w
    (prepareSlackMessage ctx account message opts w).1.
Proof.
  destruct (prepareSlackMessage_run ctx account message opts w)
    as [(r & w' & Hadm & ->) | [_ ->]].
  - apply (wp_inl _ _ _ _ _ _
             (admission_spec ctx account message opts _ w) Hadm).
  - pose proof (assemble_spec ctx account message
                  (classify ctx account message)
                  (default "" (senderIdOf message))
                  (localsOf ctx account message opts) w) as Hasm.
    cbv zeta in Hasm. unfold wp in Hasm. left.
    destruct (assemble ctx account message (classify ctx account message)
                (default "" (senderIdOf message))
                (localsOf ctx account message opts) w) as [w' [r|p]]; cbn.
    + destruct Hasm as (_ & -> & _). auto.
    + destruct Hasm as (_ & _ & _ & _ & _ & _ & _ & _ & _ & _ & _ & _ & _
                        & Hstore & Hsent). auto.
Qed.



End Pairing.

(** ** Body resolution and the envelope *)
Section Envelope.
Context `{Collaborators}.
Implicit Types (ctx : SlackMonitorContext) (message : SlackMessageEvent)
  (account : ResolvedSlackAccount) (opts : PrepareOpts) (w : World).

(** C10.  The reply target computed at line 345 starts with ["user:"] or
    ["channel:"] and is therefore not empty; the [return null] of line 415
    is never taken, so a [null] comes from one of the gates before it; a
    forwarded envelope carries that target in [To] and [replyTarget]. *)
Theorem reply_target_never_empty ctx account message opts w :
  let c := classify ctx account message in
  let run := prepareSlackMessage ctx account message opts w in
  ((String.prefix "user:" (slackToOf message c) = true
    \/ String.prefix "channel:" (slackToOf message c) = true)
   /\ slackToOf message c <> "")
  /\ run.2 <> inl EmptyReplyTarget
  /\ (forall reason,
        run.2 = inl reason ->
        reason ∈ [SelfMessage; BotsNotAllowed; DmMissingUser; MissingSender;
                  ChannelNotAllowed; DmDisabled; DmNotPermitted;
                  ChannelUserNotAllowed; NoMention; EmptyBody])
  /\ (forall p,
        run.2 = inr p ->
        To (ctxPayload p) = slackToOf message c
        /\ replyTarget p = slackToOf message c).
Proof.
  intros c run.
  assert (forall reason,
             run.2 = inl reason ->
             reason ∈ [SelfMessage; BotsNotAllowed; DmMissingUser;
                       MissingSender; ChannelNotAllowed; DmDisabled;
                       DmNotPermitted; ChannelUserNotAllowed; NoMention;
                       EmptyBody]) as Hreasons.
  { intros reason Hrun. subst run.
    destruct (prepareSlackMessage_run ctx account message opts w)
      as [(r & w' & Hadm & Heq) | [Hadm Heq]]; rewrite Heq in Hrun.
    - cbn in Hrun. injection Hrun as ->.
      pose proof (wp_inl _ _ _ _ _ _
                    (admission_spec ctx account message opts c w) Hadm)
        as (_ & _ & Hin & _).
      in_reasons.
    - fold c in Hrun.
      destruct (assemble ctx account message c
                  (default "" (senderIdOf message))
                  (localsOf ctx account message opts) w)
        as [w' [r|p]] eqn:Hasm; [|discriminate].
      cbn in Hrun. injection Hrun as ->.
      pose proof (wp_inl _ _ _ _ _ _
                    (assemble_spec ctx account message c _ _ w) Hasm)
        as (-> & _).
      in_reasons. }
  split; [|split; [|split; [exact Hreasons|]]].
  - destruct (slackToOf_shape message c) as [Hshape Htruthy].
    split; [exact Hshape|]. intros Hempty. rewrite Hempty in Htruthy.
    discriminate.
  - intros Hrun. specialize (Hreasons _ Hrun). in_reasons.
  - intros p Hrun. subst run.
    destruct (prepareSlackMessage_run ctx account message opts w)
      as [(r & w' & Hadm & Heq) | [Hadm Heq]]; rewrite Heq in Hrun;
      [discriminate|].
    fold c in Hrun.
    destruct (assemble ctx account message c
                (default "" (senderIdOf message))
                (localsOf ctx account message opts) w)
      as [w' [r|p']] eqn:Hasm; [discriminate|].
    cbn in Hrun. injection Hrun as ->.
    pose proof (wp_inr _ _ _ _ _ _
                  (assemble_spec ctx account message c _ _ w) Hasm)
      as (_ & _ & _ & Hto & Htarget & _).
    split; assumption.
Qed.


Lemma rawBodyOf_cases message (media : option SlackMedia) :
  let trimmed := Js.trim (default "" (text message)) in
  let placeholder := default "" (media_placeholder <$> media) in
  rawBodyOf message media
  = if Js.truthy trimmed then trimmed else placeholder.
Proof.
  cbv zeta. unfold rawBodyOf, Js.orStr.
  destruct (Js.truthy (Js.trim (default "" (text message))));
    [reflexivity|].
  destruct media as [m|]; cbn; [|reflexivity].
  unfold Js.orStr. destruct (media_placeholder m); reflexivity.
Qed.

Lemma truthy_false (s : string) : Js.truthy s = false <-> s = "".
Proof. destruct s; cbn; split; congruence. Qed.

(** C7.  With an empty trimmed text and no media placeholder the pipeline
    returns [null], whatever the gates before say; for a message that has
    passed those gates this is the [return null] of line 245, and otherwise
    the message is forwarded with the trimmed text as its body when that is
    not empty, and the media placeholder else. *)
Theorem body_resolution ctx account message opts w :
  let c := classify ctx account message in
  let media :=
    resolveSlackMedia (files message) (botToken ctx) (mediaMaxBytes ctx) in
  let trimmed := Js.trim (default "" (text message)) in
  let placeholder := default "" (media_placeholder <$> media) in
  let run := prepareSlackMessage ctx account message opts w in
  (trimmed = "" -> placeholder = "" -> returned run = None)
  /\ (forall w1 passed,
        admission ctx account message opts c w = (w1, inr passed) ->
        (trimmed = "" -> placeholder = "" -> run = (w1, inl EmptyBody))
        /\ (trimmed <> "" \/ placeholder <> "" ->
            exists w' p,
              run = (w', inr p)
              /\ RawBody (ctxPayload p)
                 = (if decide (trimmed = "") then placeholder else trimmed)
              /\ CommandBody (ctxPayload p) = RawBody (ctxPayload p))).
Proof.
  intros c media trimmed placeholder run.
  pose proof (rawBodyOf_cases message media) as Hraw. cbv zeta in Hraw.
  fold trimmed placeholder in Hraw.
  destruct (prepareSlackMessage_run ctx account message opts w)
    as [(r & w' & Hadm & Heq) | [Hadm Heq]]; fold c in Hadm.
  { split.
    - intros _ _. subst run. rewrite Heq. reflexivity.
    - intros w1 passed Hpass. rewrite Hpass in Hadm. discriminate. }
  fold c in Heq.
  pose proof (assemble_spec ctx account message c
                (default "" (senderIdOf message))
                (localsOf ctx account message opts) w) as Hasm.
  cbv zeta in Hasm. fold media in Hasm. unfold wp in Hasm.
  fold run in Heq. rewrite <- Heq in Hasm.
  destruct run as [w' [r|p]].
  - destruct Hasm as (-> & -> & Hempty).
    rewrite Hraw in Hempty.
    assert (trimmed = "" /\ placeholder = "") as [Ht Hp].
    { destruct (Js.truthy trimmed) eqn:Htr; [congruence|].
      apply truthy_false in Htr, Hempty. auto. }
    split; [reflexivity|].
    intros w1 passed Hpass. rewrite Hpass in Hadm.
    injection Hadm as -> _. split; [reflexivity|].
    intros [Hne|Hne]; contradiction.
  - destruct Hasm as (Htruthy & Hbody & Hcommand & _).
    rewrite Hraw in Htruthy, Hbody.
    assert (RawBody (ctxPayload p)
            = if decide (trimmed = "") then placeholder else trimmed)
      as Hchoice.
    { rewrite Hbody. destruct (Js.truthy trimmed) eqn:Htr.
      - destruct (decide (trimmed = "")) as [He|]; [|reflexivity].
        rewrite He in Htr. discriminate.
      - apply truthy_false in Htr.
        destruct (decide (trimmed = "")); [reflexivity|contradiction]. }
    assert (~ (trimmed = "" /\ placeholder = "")) as Hsome.
    { intros [Ht Hp]. rewrite Ht in Htruthy. cbn in Htruthy.
      rewrite Hp in Htruthy. discriminate. }
    split; [intros Ht Hp; tauto|].
    intros w1 passed Hpass. split; [intros Ht Hp; tauto|].
    intros _. exists w', p. rewrite Hcommand, Hbody.
    split; [reflexivity|]. split; [|rewrite Hraw; reflexivity].
    rewrite <- Hbody. exact Hchoice.
Qed.

End Envelope.

(** ** Mention bypass and thread keys *)
Section Mention.
Context `{Collaborators}.
Implicit Types (ctx : SlackMonitorContext) (message : SlackMessageEvent)
  (account : ResolvedSlackAccount) (opts : PrepareOpts) (w : World).

(** C5.  [shouldBypassMention] holds exactly when text commands are
    handled on the surface, the channel is a room, the channel requires a
    mention, the bot was not mentioned, the text holds no mention token of
    any user, the sender is command-authorized and the text holds a control
    command.  The mention token is the pattern of line 206; a mention is
    required only in a room; and a bypass satisfies the mention gate. *)
Theorem shouldBypassMention_iff ctx account message opts :
  let c := classify ctx account message in
  let l := localsOf ctx account message opts in
  let body := default "" (text message) in
  (shouldBypassMention l = true
   <-> shouldHandleTextCommands (cfg ctx) "slack" = true
       /\ isRoom c = true
       /\ shouldRequireMention l = true
       /\ wasMentioned l = false
       /\ hasAnyMention l = false
       /\ commandAuthorized l = true
       /\ hasControlCommand body (cfg ctx) = true)
  /\ (hasAnyMention l = true
      <-> exists pre id post,
            body = pre +:+ "<@" +:+ id +:+ ">" +:+ post
            /\ id <> "" /\ Js.includes ">" id = false)
  /\ (shouldRequireMention l = true
      <-> isRoom c = true
          /\ default (defaultRequireMention ctx)
               (channelConfig c ≫= cc_requireMention) = true)
  /\ (shouldBypassMention l = true ->
      effectiveWasMentioned l = true
      /\ MentionGating.shouldSkip (mentionGate l) = false).
Proof.
  intros c l body. subst l. unfold localsOf. fold c. clearbody c.
  split; [|split; [|split]].
  - unfold mentionLocals. cbn.
    rewrite !andb_true_iff, !negb_true_iff. tauto.
  - apply hasAnyMentionIn_spec.
  - unfold mentionLocals. cbn.
    destruct (isRoom c); intuition congruence.
  - unfold mentionLocals.
    cbn [shouldBypassMention effectiveWasMentioned mentionGate].
    intros Hbypass. unfold MentionGating.resolveMentionGating.
    cbn [MentionGating.effectiveWasMentioned MentionGating.shouldSkip
         MentionGating.wasMentioned MentionGating.implicitMention
         MentionGating.shouldBypassMention MentionGating.requireMention
         MentionGating.canDetectMention].
    rewrite Hbypass. cbn [Js.isTrue]. rewrite !orb_true_r.
    split; [reflexivity|]. cbn. rewrite !andb_false_r. reflexivity.
Qed.

(** C6.  A message is a thread reply exactly when it has a non-empty thread
    id that differs from its own id or comes with a parent sender.  For a
    thread reply the session key is the thread-scoped key, and the parent
    session key is the base key exactly when the context inherits the
    parent; otherwise the session key is the base key and there is no
    parent key.  A forwarded envelope carries these keys. *)
Theorem thread_session_keys ctx account message opts w :
  let base := route_sessionKey (route (localsOf ctx account message opts)) in
  let keys := threadKeysOf ctx message base in
  (isThreadReply message = true
   <-> (exists t, thread_ts message = Some t /\ t <> "")
       /\ (thread_ts message <> ts message
           \/ exists u, parent_user_id message = Some u /\ u <> ""))
  /\ (isThreadReply message = true ->
      exists t,
        thread_ts message = Some t
        /\ tk_sessionKey keys = threadScopedSessionKey base t
        /\ (tk_parentSessionKey keys = Some base
            <-> threadInheritParent ctx = true)
        /\ (threadInheritParent ctx = false ->
            tk_parentSessionKey keys = None))
  /\ (isThreadReply message = false ->
      tk_sessionKey keys = base /\ tk_parentSessionKey keys = None)
  /\ (forall w' p,
        prepareSlackMessage ctx account message opts w = (w', inr p) ->
        SessionKey (ctxPayload p) = tk_sessionKey keys
        /\ ParentSessionKey (ctxPayload p) = tk_parentSessionKey keys).
Proof.
  intros base keys.
  assert (forall o : option string,
             Js.truthyOpt o = true <-> exists t, o = Some t /\ t <> "")
    as Htruthy.
  { intros [[|a s]|]; cbn; split; try discriminate; try reflexivity.
    - intros (t & Heq & Hne). injection Heq as <-. contradiction.
    - intros _. eexists. split; [reflexivity|discriminate].
    - intros (t & Heq & _). discriminate. }
  split; [|split; [|split]].
  - unfold isThreadReply, hasThreadTs.
    rewrite andb_true_iff, orb_true_iff, negb_true_iff,
      bool_decide_eq_false, !Htruthy. reflexivity.
  - intros Hreply. unfold keys, threadKeysOf. rewrite Hreply.
    unfold isThreadReply, hasThreadTs in Hreply.
    apply andb_true_iff in Hreply as [Hthread _].
    apply Htruthy in Hthread as (t & Ht & _).
    exists t. rewrite Ht. cbn.
    destruct (threadInheritParent ctx); cbn; intuition congruence.
  - intros Hreply. unfold keys, threadKeysOf. rewrite Hreply. cbn. auto.
  - intros w' p Hrun.
    destruct (prepareSlackMessage_run ctx account message opts w)
      as [(r & w1 & _ & Heq) | [_ Heq]]; rewrite Heq in Hrun;
      [discriminate|].
    pose proof (wp_inr _ _ _ _ _ _
                  (assemble_spec ctx account message _ _ _ w) Hrun)
      as (_ & _ & _ & _ & _ & Hkey & Hparent & _).
    split; assumption.
Qed.

End Mention.

(** ** The acknowledgment reaction *)
Section Ack.
Context `{Collaborators}.
Implicit Types (ctx : SlackMonitorContext) (message : SlackMessageEvent)
  (account : ResolvedSlackAccount) (opts : PrepareOpts) (w : World)
  (c : Classified) (l : MentionLocals).

Lemma shouldAckReaction_group_mentions ctx c l ack :
  ackReactionScope ctx = "group-mentions" ->
  shouldAckReaction ctx c l ack = true ->
  isRoom c = true /\ shouldRequireMention l = true
  /\ canDetectMention l = true /\ effectiveWasMentioned l = true.
Proof.
  intros Hscope. unfold shouldAckReaction. rewrite Hscope. cbn.
  destruct (Js.truthyOpt ack), (isRoom c), (shouldRequireMention l),
    (canDetectMention l); cbn; intros Hack; auto; discriminate.
Qed.

Lemma shouldAckReaction_no_symbol ctx c l ack :
  Js.truthyOpt ack = false -> shouldAckReaction ctx c l ack = false.
Proof. intros Hack. unfold shouldAckReaction. rewrite Hack. reflexivity. Qed.

Lemma snoc_neq {X} (xs : list X) (x : X) : xs ++ [x] <> xs.
Proof.
  intros Heq. apply (f_equal length) in Heq.
  rewrite length_app in Heq. cbn in Heq. lia.
Qed.

(** What a run does to the list of reactions: it grows, by one, exactly
    when the message is forwarded with a reaction scheduled. *)
Lemma reactions_after ctx account message opts w :
  let c := classify ctx account message in
  let l := localsOf ctx account message opts in
  let ack := resolveAckReaction (cfg ctx) (agentId (route l)) in
  let run := prepareSlackMessage ctx account message opts w in
  (reactions run.1 = reactions w
   /\ forall p, run.2 = inr p ->
                ackReactionPromise p = None
                /\ ackScheduled ctx message c l ack = false)
  \/ (reactions run.1 <> reactions w
      /\ ackScheduled ctx message c l ack = true
      /\ exists p, run.2 = inr p /\ ackReactionPromise p <> None).
Proof.
  intros c l ack run. subst run.
  destruct (prepareSlackMessage_run ctx account message opts w)
    as [(r & w' & Hadm & Heq) | [Hadm Heq]]; rewrite Heq.
  { left. cbn. split; [|discriminate].
    apply (wp_inl _ _ _ _ _ _
             (admission_spec ctx account message opts _ w) Hadm). }
  fold c l.
  pose proof (assemble_spec ctx account message c
                (default "" (senderIdOf message)) l w) as Hasm.
  cbv zeta in Hasm. fold ack in Hasm. unfold wp in Hasm.
  destruct (assemble ctx account message c
              (default "" (senderIdOf message)) l w) as [w' [r|p]].
  { left. destruct Hasm as (_ & -> & _). split; [reflexivity|discriminate]. }
  destruct Hasm as (_ & _ & _ & _ & _ & _ & _ & _ & _ & _ & _ & Hpromise
                    & Hreactions & _).
  cbn. destruct (ackScheduled ctx message c l ack) eqn:Hsched.
  - right. rewrite Hreactions. split; [apply snoc_neq|].
    split; [reflexivity|]. exists p. split; [reflexivity|].
    apply Hpromise. reflexivity.
  - left. rewrite Hreactions, app_nil_r. split; [reflexivity|].
    intros p' Hp. injection Hp as <-. split; [|reflexivity].
    destruct (ackReactionPromise p) eqn:Hp; [|reflexivity].
    assert (Some b <> None) as Hsome by discriminate.
    apply Hpromise in Hsome. discriminate.
Qed.

(** C8.  Under the scope ["group-mentions"] a reaction is scheduled only
    for a room message in a channel that requires a mention, with mention
    detection possible and the mention satisfied; and under every scope
    nothing is scheduled when no reaction symbol is configured. *)
Theorem ack_reaction_policy ctx account message opts w :
  let c := classify ctx account message in
  let l := localsOf ctx account message opts in
  let run := prepareSlackMessage ctx account message opts w in
  (ackReactionScope ctx = "group-mentions" ->
   (reactions run.1 <> reactions w
    \/ exists p, run.2 = inr p /\ ackReactionPromise p <> None) ->
   isRoom c = true /\ shouldRequireMention l = true
   /\ canDetectMention l = true /\ effectiveWasMentioned l = true)
  /\ (Js.truthyOpt (resolveAckReaction (cfg ctx) (agentId (route l)))
      = false ->
      reactions run.1 = reactions w
      /\ forall p, run.2 = inr p -> ackReactionPromise p = None).
Proof.
  intros c l run.
  pose proof (reactions_after ctx account message opts w) as Hafter.
  cbv zeta in Hafter. fold c l in Hafter.
  change (prepareSlackMessage ctx account message opts w) with run in Hafter.
  destruct Hafter
    as [[Hsame Hnone] | (Hgrown & Hsched & p & Hp & Hpromise)].
  - split.
    + intros _ [Hgrown | (p & Hp & Hpromise)]; [contradiction|].
      destruct (Hnone p Hp) as [Hnull _]. contradiction.
    + intros _. split; [exact Hsame|]. intros p Hp. apply (Hnone p Hp).
  - unfold ackScheduled in Hsched.
    apply andb_true_iff in Hsched as [Hsched Hvalue].
    apply andb_true_iff in Hsched as [Hshould Hts].
    split.
    + intros Hscope _.
      apply (shouldAckReaction_group_mentions ctx c l _ Hscope Hshould).
    + intros Hnosymbol.
      rewrite (shouldAckReaction_no_symbol ctx c l _ Hnosymbol) in Hshould.
      discriminate.
Qed.

End Ack.

(** ** The properties on the concrete deployment *)



(** An allowlisted sender under the policy ["open"], direct messages off. *)
Lemma dm_disabled_drop_witness :
  let ctx := Demo.withDm false "open" Demo.ctx0 in
  let message := Demo.event "D1" (Some "uowner") (Some "hello") "1.0" in
  allowListMatches (resolveSlackEffectiveAllowFrom ctx) "uowner" = true
  /\ returned (prepareSlackMessage ctx Demo.account0 message Demo.opts0
                Demo.world0) = None.
Proof.
  cbv zeta. split; [reflexivity|].
  apply (dm_disabled_drop (Demo.withDm false "open" Demo.ctx0) Demo.account0
           (Demo.event "D1" (Some "uowner") (Some "hello") "1.0")
           Demo.opts0 Demo.world0);
    reflexivity.
Defined.


(** Nor is a reply dispatched, with direct messages enabled, to a sender
    whose request is already pending when the first message arrives. *)
Lemma pairing_reply_none_when_pending :
  let pending :=
    (upsertChannelPairingRequest "slack" "U7" None Demo.world0).1 in
  let m1 := Demo.event "D1" (Some "U7") (Some "hello") "1.0" in
  let m2 := Demo.event "D1" (Some "U7") (Some "anyone?") "2.0" in
  let run1 :=
    prepareSlackMessage Demo.ctx0 Demo.account0 m1 Demo.opts0 pending in
  let run2 :=
    prepareSlackMessage Demo.ctx0 Demo.account0 m2 Demo.opts0 run1.1 in
  sent pending = []
  /\ is_Some (pairingRequests pending !! ("slack", "U7"))
  /\ (returned run1 = None /\ returned run2 = None)
  /\ sent run1.1 = [] /\ sent run2.1 = [].
Proof.
  cbv zeta. split; [vm_compute; reflexivity|].
  split; [vm_compute; eauto|].
  repeat split; vm_compute; reflexivity.
Qed.


(** A control command of the owner in a room that requires a mention. *)
Lemma shouldBypassMention_iff_witness :
  let message := Demo.event "C1" (Some "uowner") (Some "/status") "1.0" in
  let l := localsOf Demo.ctx0 Demo.account0 message Demo.opts0 in
  shouldBypassMention l = true /\ effectiveWasMentioned l = true
  /\ MentionGating.shouldSkip (mentionGate l) = false.
Proof.
  cbv zeta.
  destruct (shouldBypassMention_iff Demo.ctx0 Demo.account0
              (Demo.event "C1" (Some "uowner") (Some "/status") "1.0")
              Demo.opts0) as (Hiff & _ & _ & Hgate).
  assert (shouldBypassMention
            (localsOf Demo.ctx0 Demo.account0
               (Demo.event "C1" (Some "uowner") (Some "/status") "1.0")
               Demo.opts0) = true) as Hbypass.
  { apply Hiff. repeat split; reflexivity. }
  split; [exact Hbypass|]. exact (Hgate Hbypass).
Defined.

(** A reply in the thread ["0.5"] of a room, the parent being inherited. *)
Lemma thread_session_keys_witness :
  let message :=
    Demo.inThread "0.5" None
      (Demo.event "C1" (Some "U7") (Some "<@UBOT> hello") "1.0") in
  exists w' p,
    prepareSlackMessage Demo.ctx0 Demo.account0 message Demo.opts0 Demo.world0
    = (w', inr p)
    /\ isThreadReply message = true
    /\ SessionKey (ctxPayload p) = "agent:main:slack:channel:C1:thread:0.5"
    /\ ParentSessionKey (ctxPayload p) = Some "agent:main:slack:channel:C1".
Proof.
  cbv zeta.
  destruct (thread_session_keys Demo.ctx0 Demo.account0
              (Demo.inThread "0.5" None
                 (Demo.event "C1" (Some "U7") (Some "<@UBOT> hello") "1.0"))
              Demo.opts0 Demo.world0) as (_ & _ & _ & Hforwarded).
  destruct (prepareSlackMessage Demo.ctx0 Demo.account0
              (Demo.inThread "0.5" None
                 (Demo.event "C1" (Some "U7") (Some "<@UBOT> hello") "1.0"))
              Demo.opts0 Demo.world0) as [w' [r|p]] eqn:Hrun;
    [vm_compute in Hrun; discriminate|].
  exists w', p. destruct (Hforwarded w' p eq_refl) as [-> ->].
  repeat split; reflexivity.
Defined.

(** A direct message with blank text and one file. *)
Lemma body_resolution_witness :
  let ctx := Demo.withDm true "open" Demo.ctx0 in
  let message :=
    {| channel := "D1"; channel_type := Some Im; user := Some "U7";
       bot_id := None; username := None; text := Some "   ";
       ts := Some "1.0"; thread_ts := None; parent_user_id := None;
       files := Some [ {| file_name := Some "a.png"; file_url := None |} ] |} in
  exists w' p,
    prepareSlackMessage ctx Demo.account0 message Demo.opts0 Demo.world0
    = (w', inr p)
    /\ RawBody (ctxPayload p) = "[Slack file]".
Proof.
  cbv zeta.
  destruct (body_resolution (Demo.withDm true "open" Demo.ctx0) Demo.account0
              {| channel := "D1"; channel_type := Some Im; user := Some "U7";
                 bot_id := None; username := None; text := Some "   ";
                 ts := Some "1.0"; thread_ts := None; parent_user_id := None;
                 files := Some [ {| file_name := Some "a.png";
                                    file_url := None |} ] |}
              Demo.opts0 Demo.world0) as [_ Hpassed].
  destruct (Hpassed _ _ eq_refl) as [_ Hbody].
  destruct Hbody as (w' & p & Hrun & Hraw & _); [right; discriminate|].
  exists w', p. split; [exact Hrun|]. rewrite Hraw. reflexivity.
Defined.

(** A mention in a room, under the scope ["group-mentions"]. *)
Lemma ack_reaction_policy_witness :
  let message := Demo.event "C1" (Some "U7") (Some "<@UBOT> hello") "1.0" in
  let c := classify Demo.ctx0 Demo.account0 message in
  let l := localsOf Demo.ctx0 Demo.account0 message Demo.opts0 in
  let run :=
    prepareSlackMessage Demo.ctx0 Demo.account0 message Demo.opts0
      Demo.world0 in
  reactions run.1 <> reactions Demo.world0
  /\ isRoom c = true /\ shouldRequireMention l = true
  /\ canDetectMention l = true /\ effectiveWasMentioned l = true.
Proof.
  cbv zeta.
  assert (reactions
            (prepareSlackMessage Demo.ctx0 Demo.account0
               (Demo.event "C1" (Some "U7") (Some "<@UBOT> hello") "1.0")
               Demo.opts0 Demo.world0).1
          <> reactions Demo.world0) as Hgrown
    by (vm_compute; discriminate).
  split; [exact Hgrown|].
  apply (ack_reaction_policy Demo.ctx0 Demo.account0
           (Demo.event "C1" (Some "U7") (Some "<@UBOT> hello") "1.0")
           Demo.opts0 Demo.world0);
    [reflexivity|left; exact Hgrown].
Defined.

(** A forwarded room message and its reply target. *)
Lemma reply_target_never_empty_witness :
  let message := Demo.event "C1" (Some "U7") (Some "<@UBOT> hello") "1.0" in
  exists p,
    returned (prepareSlackMessage Demo.ctx0 Demo.account0 message Demo.opts0
                Demo.world0) = Some p
    /\ replyTarget p = "channel:C1".
Proof.
  cbv zeta.
  destruct (reply_target_never_empty Demo.ctx0 Demo.account0
              (Demo.event "C1" (Some "U7") (Some "<@UBOT> hello") "1.0")
              Demo.opts0 Demo.world0) as (_ & _ & _ & Hforwarded).
  unfold returned.
  destruct (prepareSlackMessage Demo.ctx0 Demo.account0
              (Demo.event "C1" (Some "U7") (Some "<@UBOT> hello") "1.0")
              Demo.opts0 Demo.world0).2 as [r|p] eqn:Hrun;
    [vm_compute in Hrun; discriminate|].
  exists p. split; [reflexivity|].
  destruct (Hforwarded p eq_refl) as [_ ->]. reflexivity.
Defined.

(** * Further properties of the pipeline *)

(** ** What each stage does to the world *)
Section Effects.
Context `{Collaborators}.
Implicit Types (ctx : SlackMonitorContext) (message : SlackMessageEvent)
  (account : ResolvedSlackAccount) (opts : PrepareOpts) (w : World)
  (c : Classified) (l : MentionLocals).

Lemma quiet_refl w : quiet w w.
Proof. repeat split. Qed.

(** The gates of lines 70-99 and 187-237 touch the logs only; the
    direct-message policy adds the pairing step. *)
Lemma admission_effects ctx account message opts c w :
  wp (admission ctx account message opts c)
    (fun _ w' => w' = w)
    (fun r w' =>
       channelHistories w' = channelHistories w
       /\ reactions w' = reactions w
       /\ systemEvents w' = systemEvents w
       /\ (r <> DmNotPermitted -> quiet w w')
       /\ (r = SelfMessage -> w' = w)
       /\ (r = BotsNotAllowed ->
           isBotMessage message = true /\ allowBots c = false)
       /\ (r = ChannelNotAllowed ->
           isChannelAllowed (channel message) (channelName c)
             (resolvedChannelType c) = false)
       /\ (r = MissingSender -> Js.truthyOpt (senderIdOf message) = false))
    w.
Proof.
  unfold admission, senderGates, dmAccessPolicy, sendPairingReply,
    mentionGates.
  wp_go;
    try (apply wp_upsertChannelPairingRequest;
         destruct (pairingRequests w !! _) eqn:Hpending; cbv zeta; wp_go).
  all: try reflexivity.
  all: unfold quiet; cbn.
  all: rewrite ?negb_true_iff, ?negb_false_iff in *.
  all: repeat split; try congruence; try discriminate; auto.
Qed.


(** Scheduling the reaction records the call and nothing else; the promise
    settles to whether the call went through. *)
Lemma scheduleAckReaction_effects ctx message c l ack w :
  wp (scheduleAckReaction ctx message c l ack)
    (fun promise w' =>
       promise
       = (if ackScheduled ctx message c l ack
          then Some (bool_decide
                       (reactSlackMessage (channel message)
                          (default "" (ts message)) (default "" ack)
                          (botToken ctx) = None))
          else None)
       /\ pairingRequests w' = pairingRequests w
       /\ channelHistories w' = channelHistories w
       /\ sent w' = sent w
       /\ systemEvents w' = systemEvents w
       /\ infoLog w' = infoLog w
       /\ reactions w'
          = reactions w
            ++ (if ackScheduled ctx message c l ack
                then [ {| react_channel := channel message;
                          react_ts := default "" (ts message);
                          react_emoji := default "" ack |} ]
                else [])
       /\ verboseLog w' = verboseLog w)
    (fun _ _ => False)
    w.
Proof.
  unfold scheduleAckReaction. wp_go; cbn.
  all: match goal with Hs : ackScheduled _ _ _ _ _ = _ |- _ => rewrite Hs end.
  all: rewrite ?app_nil_r; repeat split; reflexivity.
Qed.

(** The envelope a forwarded message gets, field by field, and what
    assembly does to the world. *)
Lemma assemble_envelope ctx account message c senderId l w :
  let media :=
    resolveSlackMedia (files message) (botToken ctx) (mediaMaxBytes ctx) in
  let ack := resolveAckReaction (cfg ctx) (agentId (route l)) in
  let rawBody := rawBodyOf message media in
  let roomLabel :=
    if Js.truthyOpt (channelName c) then "#" +:+ Js.tpl (channelName c)
    else "#" +:+ channel message in
  let sessionKey :=
    tk_sessionKey (threadKeysOf ctx message (route_sessionKey (route l))) in
  let current :=
    formatAgentEnvelope "Slack" (senderName l) (millisOf (ts message))
      (rawBody +:+ Js.nl +:+ "[slack message id: " +:+ Js.tpl (ts message)
       +:+ " channel: " +:+ channel message +:+ "]") in
  wp (assemble ctx account message c senderId l)
    (fun p w' =>
       (p_isDirectMessage p = isDirectMessage c
        /\ p_isRoomish p = isRoomish c
        /\ p_route p = route l
        /\ p_message p = message
        /\ p_channelConfig p = channelConfig c)
       /\ (SenderId (ctxPayload p) = senderId
           /\ SenderName (ctxPayload p) = senderName l
           /\ CommandAuthorized (ctxPayload p) = commandAuthorized l
           /\ AccountId (ctxPayload p) = route_accountId (route l)
           /\ SessionKey (ctxPayload p) = sessionKey)
       /\ (ChatType (ctxPayload p)
           = (if isDirectMessage c then "direct"
              else if isRoom c then "room" else "group")
           /\ From (ctxPayload p)
              = (if isDirectMessage c then "slack:" +:+ Js.tpl (user message)
                 else if isRoom c then "slack:channel:" +:+ channel message
                 else "slack:group:" +:+ channel message)
           /\ To (ctxPayload p) = slackToOf message c
           /\ OriginatingTo (ctxPayload p) = slackToOf message c
           /\ GroupSubject (ctxPayload p)
              = (if isRoomish c then Some roomLabel else None)
           /\ GroupSystemPrompt (ctxPayload p)
              = (if isRoomish c then groupSystemPromptOf c else None)
           /\ WasMentioned (ctxPayload p)
              = (if isRoomish c then Some (effectiveWasMentioned l)
                 else None))
       /\ (RawBody (ctxPayload p) = rawBody
           /\ CommandBody (ctxPayload p) = rawBody
           /\ Js.truthy rawBody = true
           /\ preview p = Js.slice0 160 (Js.collapseSpaces rawBody)
           /\ MessageSid (ctxPayload p) = ts message
           /\ ReplyToId (ctxPayload p)
              = Js.nullish (thread_ts message) (ts message)
           /\ MediaPath (ctxPayload p) = media_path <$> media
           /\ MediaUrl (ctxPayload p) = media_path <$> media)
       /\ (ThreadStarterBody (ctxPayload p)
           = (threadStarterOf message roomLabel).1
           /\ ThreadLabel (ctxPayload p)
              = (threadStarterOf message roomLabel).2
           /\ historyKey p
              = (if isThreadReply message
                    && bool_decide (threadHistoryScope ctx = "thread")
                 then sessionKey else channel message))
       /\ (ackReactionValue p = default "" ack
           /\ ackReactionMessageTs p = ts message
           /\ ackReactionPromise p
              = (if ackScheduled ctx message c l ack
                 then Some (bool_decide
                              (reactSlackMessage (channel message)
                                 (default "" (ts message)) (default "" ack)
                                 (botToken ctx) = None))
                 else None))
       /\ (pairingRequests w' = pairingRequests w
           /\ sent w' = sent w
           /\ infoLog w' = infoLog w
           /\ systemEvents w'
              = systemEvents w
                ++ [ {| event_text :=
                          (if isDirectMessage c
                           then "Slack DM from " +:+ senderName l
                           else "Slack message in " +:+ roomLabel
                                +:+ " from " +:+ senderName l)
                          +:+ ": " +:+ preview p;
                        event_sessionKey := sessionKey;
                        event_contextKey :=
                          "slack:message:" +:+ channel message +:+ ":"
                          +:+ default "unknown" (ts message) |} ])
       /\ (if isRoomish c && (0 <? historyLimit ctx)%Z
           then exists entry formatEntry,
               Body (ctxPayload p)
               = (buildHistoryContextFromMap (channelHistories w)
                    (historyKey p) (historyLimit ctx) (Some entry)
                    current formatEntry).1
               /\ channelHistories w'
                  = (buildHistoryContextFromMap (channelHistories w)
                       (historyKey p) (historyLimit ctx) (Some entry)
                       current formatEntry).2
               /\ entry_sender entry = senderName l
               /\ entry_body entry = rawBody
               /\ entry_messageId entry = ts message
           else Body (ctxPayload p) = current
                /\ channelHistories w' = channelHistories w))
    (fun r w' => r = EmptyBody /\ w' = w)
    w.
Proof.
  intros media ack rawBody roomLabel sessionKey current.
  unfold assemble. wp_go.
  { auto. }
  eapply wp_mono;
    [apply scheduleAckReaction_effects | | intros ? ? []].
  intros promise w1
    (Hpromise & Hpairing & Hhistories & Hsent & Hevents & Hinfo & _).
  rewrite negb_false_iff in *.
  wp_go; try (apply wp_buildHistoryContext; cbv zeta); wp_go.
  all: cbn [To] in *.
  all: try match goal with
         | Hto : negb (Js.truthy (slackToOf _ _)) = true |- _ =>
             rewrite (proj2 (slackToOf_shape _ _)) in Hto; discriminate
         end.
  all: match goal with Hh : (_ && (0 <? _)%Z) = _ |- _ => rewrite Hh end.
  all: cbn.
  all: rewrite ?Hpairing, ?Hsent, ?Hinfo, ?Hevents, ?Hhistories.
  all: repeat (split; [now auto|]); auto.
  all: eexists _, _; cbn; repeat (split; [reflexivity|]); reflexivity.
Qed.


(** How a run of [admission] splits over its three stages. *)
Lemma admission_stages ctx account message opts c w :
  let senderId := default "" (senderIdOf message) in
  let allow := resolveSlackEffectiveAllowFrom ctx in
  let l := mentionLocals ctx account message opts c senderId allow in
  let run := admission ctx account message opts c w in
  (exists r, senderGates ctx message c w = (run.1, inl r) /\ run.2 = inl r)
  \/ (senderGates ctx message c w = (w, inr senderId)
      /\ ((exists r,
              dmAccessPolicy ctx account message c allow w = (run.1, inl r)
              /\ run.2 = inl r)
          \/ (dmAccessPolicy ctx account message c allow w = (w, inr tt)
              /\ ((exists r,
                      mentionGates message c senderId l w = (run.1, inl r)
                      /\ run.2 = inl r)
                  \/ (mentionGates message c senderId l w = (w, inr tt)
                      /\ run = (w, inr (senderId, l))))))).
Proof.
  intros senderId allow l run. subst run. unfold admission.
  rewrite bind_run.
  destruct (senderGates ctx message c w) as [w1 [r|sid]] eqn:Hgates.
  { left. exists r. split; reflexivity. }
  pose proof (wp_inr _ _ _ _ _ _ (senderGates_spec ctx message c w) Hgates)
    as (-> & _ & Hsender & _).
  assert (sid = senderId) as ->
    by (unfold senderId; rewrite Hsender; reflexivity).
  right. split; [reflexivity|]. cbv zeta. rewrite bind_run.
  fold allow.
  destruct (dmAccessPolicy ctx account message c allow w)
    as [w2 [r|[]]] eqn:Hpolicy.
  { left. exists r. split; reflexivity. }
  pose proof (wp_inr _ _ _ _ _ _
                (dmAccessPolicy_spec ctx account message c allow w) Hpolicy)
    as (-> & _).
  right. split; [reflexivity|]. fold l. rewrite bind_run.
  destruct (mentionGates message c senderId l w) as [w3 [r|[]]] eqn:Hmention.
  { left. exists r. split; reflexivity. }
  pose proof (wp_inr _ _ _ _ _ _
                (mentionGates_spec message c senderId l w) Hmention)
    as (-> & _).
  right. split; reflexivity.
Qed.

(** A forwarded message has passed every stage without touching the world
    before assembly. *)
Lemma forwarded_stages ctx account message opts w w' p :
  let c := classify ctx account message in
  let senderId := default "" (senderIdOf message) in
  let allow := resolveSlackEffectiveAllowFrom ctx in
  let l := localsOf ctx account message opts in
  prepareSlackMessage ctx account message opts w = (w', inr p) ->
  senderGates ctx message c w = (w, inr senderId)
  /\ dmAccessPolicy ctx account message c allow w = (w, inr tt)
  /\ mentionGates message c senderId l w = (w, inr tt)
  /\ assemble ctx account message c senderId l w = (w', inr p).
Proof.
  intros c senderId allow l Hrun.
  destruct (prepareSlackMessage_run ctx account message opts w)
    as [(r & w1 & _ & Heq) | [Hadm Heq]]; rewrite Heq in Hrun;
    [discriminate|].
  fold c senderId l in Hadm, Hrun.
  destruct (admission_stages ctx account message opts c w)
    as [(r & _ & Hr) | (Hgates & [(r & _ & Hr) | (Hpolicy
          & [(r & _ & Hr) | (Hmention & _)])])];
    try (rewrite Hadm in Hr; discriminate).
  auto.
Qed.

(** A dropped message stopped at one of the stages; the drop of line 245
    leaves the world as it was. *)
Lemma dropped_stages ctx account message opts w w' r :
  let c := classify ctx account message in
  let senderId := default "" (senderIdOf message) in
  let allow := resolveSlackEffectiveAllowFrom ctx in
  let l := localsOf ctx account message opts in
  prepareSlackMessage ctx account message opts w = (w', inl r) ->
  senderGates ctx message c w = (w', inl r)
  \/ (senderGates ctx message c w = (w, inr senderId)
      /\ (dmAccessPolicy ctx account message c allow w = (w', inl r)
          \/ (dmAccessPolicy ctx account message c allow w = (w, inr tt)
              /\ (mentionGates message c senderId l w = (w', inl r)
                  \/ (mentionGates message c senderId l w = (w, inr tt)
                      /\ r = EmptyBody /\ w' = w))))).
Proof.
  intros c senderId allow l Hrun.
  destruct (prepareSlackMessage_run ctx account message opts w)
    as [(r1 & w1 & Hadm & Heq) | [Hadm Heq]]; rewrite Heq in Hrun.
  - injection Hrun as -> ->. fold c in Hadm.
    destruct (admission_stages ctx account message opts c w)
      as [(r0 & Hgates & Hr) | (Hgates & [(r0 & Hpolicy & Hr) | (Hpolicy
            & [(r0 & Hmention & Hr) | (Hmention & Hr)])])];
      rewrite Hadm in *; cbn in *.
    + injection Hr as ->. auto.
    + injection Hr as ->. auto.
    + injection Hr as ->. right. split; [exact Hgates|]. right.
      split; [exact Hpolicy|]. left. exact Hmention.
    + discriminate.
  - fold c senderId l in Hadm, Hrun.
    pose proof (wp_inl _ _ _ _ _ _
                  (assemble_envelope ctx account message c senderId l w) Hrun)
      as [-> ->].
    destruct (admission_stages ctx account message opts c w)
      as [(r0 & _ & Hr) | (Hgates & [(r0 & _ & Hr) | (Hpolicy
            & [(r0 & _ & Hr) | (Hmention & _)])])];
      try (rewrite Hadm in Hr; discriminate).
    right. split; [exact Hgates|]. right. split; [exact Hpolicy|].
    right. auto.
Qed.

End Effects.

(** ** The gates before the direct-message policy *)
Section EarlyGates.
Context `{Collaborators}.
Implicit Types (ctx : SlackMonitorContext) (message : SlackMessageEvent)
  (account : ResolvedSlackAccount) (opts : PrepareOpts) (w : World).

(** X1.  A message with a bot indicator that is not the bot's own is dropped
    at line 75, with one log line and nothing else, when [allowBots]
    resolves to false; it is forwarded only when [allowBots] resolves to
    true; and outside a room the channel-level setting is not consulted. *)
Theorem bot_message_needs_allowBots ctx account message opts w :
  let c := classify ctx account message in
  let run := prepareSlackMessage ctx account message opts w in
  Js.truthyOpt (bot_id message) = true ->
  isOwnMessage ctx message = false ->
  (allowBots c = false ->
   run = ((logVerbose ("slack: drop bot message "
                       +:+ default "unknown" (bot_id message)
                       +:+ " (allowBots=false)") w).1,
          inl BotsNotAllowed))
  /\ (forall p, run.2 = inr p -> allowBots c = true)
  /\ (isRoom c = false ->
      allowBots c
      = default false
          (Js.nullish (config account ≫= acct_allowBots)
             (slack_allowBots (cfg ctx)))).
Proof.
  intros c run Hbot Hown. split; [|split].
  - intros Hallow. subst run.
    unfold prepareSlackMessage, admission. fold c. clearbody c.
    rewrite !bind_run.
    unfold senderGates, isBotMessage. rewrite Hbot, Hown, Hallow.
    reflexivity.
  - intros p Hrun. subst run.
    destruct (prepareSlackMessage ctx account message opts w) as [w' r]
      eqn:Heq.
    cbn in Hrun. subst r.
    destruct (forwarded_stages ctx account message opts w w' p Heq)
      as (Hgates & _).
    pose proof (wp_inr _ _ _ _ _ _ (senderGates_spec ctx message _ w) Hgates)
      as (_ & _ & _ & _ & Hallowed & _).
    apply Hallowed. exact Hbot.
  - subst c. unfold classify. cbn. intros ->. reflexivity.
Qed.

(** X2.  A forwarded envelope always names a sender: [SenderId] is not
    empty, and it is the message's [user], or, for a bot message without a
    [user], its [bot_id]; in a direct message it is the [user]. *)
Theorem forwarded_sender_id ctx account message opts w :
  let run := prepareSlackMessage ctx account message opts w in
  forall p,
    run.2 = inr p ->
    let senderId := SenderId (ctxPayload p) in
    senderId <> ""
    /\ (user message = Some senderId
        \/ user message = None /\ Js.truthyOpt (bot_id message) = true
           /\ bot_id message = Some senderId)
    /\ (p_isDirectMessage p = true -> user message = Some senderId).
Proof.
  intros run p Hrun. subst run.
  destruct (prepareSlackMessage ctx account message opts w) as [w' r] eqn:Heq.
  cbn in Hrun. subst r.
  destruct (forwarded_stages ctx account message opts w w' p Heq)
    as (Hgates & _ & _ & Hasm).
  pose proof (wp_inr _ _ _ _ _ _ (senderGates_spec ctx message _ w) Hgates)
    as (_ & Htruthy & Hsender & Hdirect & _).
  pose proof (wp_inr _ _ _ _ _ _
                (assemble_envelope ctx account message _ _ _ w) Hasm)
    as ((Hdm & _) & (Hid & _) & _).
  cbv zeta. rewrite Hid, Hdm.
  set (sid := default "" (senderIdOf message)) in *. clearbody sid.
  split; [|split].
  - intros Hempty. rewrite Hempty in Htruthy. discriminate.
  - unfold senderIdOf, isBotMessage in Hsender.
    destruct (user message) as [u|]; cbn in Hsender.
    + left. exact Hsender.
    + right. destruct (Js.truthyOpt (bot_id message)); [auto|discriminate].
  - exact Hdirect.
Qed.

(** X3.  A message in a channel that [ctx.isChannelAllowed] refuses is never
    forwarded, and nothing but the logs records it. *)
Theorem channel_not_allowed_drop ctx account message opts w :
  let c := classify ctx account message in
  let run := prepareSlackMessage ctx account message opts w in
  isChannelAllowed (channel message) (channelName c) (resolvedChannelType c)
  = false ->
  returned run = None /\ quiet w run.1.
Proof.
  intros c run Hrefused. subst run. unfold returned.
  destruct (prepareSlackMessage ctx account message opts w) as [w' [r|p]]
    eqn:Heq; cbn.
  - split; [reflexivity|].
    destruct (dropped_stages ctx account message opts w w' r Heq)
      as [Hgates | [Hgates _]].
    + pose proof (wp_inl _ _ _ _ _ _ (senderGates_spec ctx message _ w) Hgates)
        as [Hin _].
      assert (r <> DmNotPermitted) as Hother by in_reasons.
      destruct (prepareSlackMessage_run ctx account message opts w)
        as [(r1 & w1 & Hadm & Hrun) | [Hadm Hrun]].
      * rewrite Heq in Hrun. injection Hrun as <- <-.
        apply (wp_inl _ _ _ _ _ _
                 (admission_effects ctx account message opts _ w) Hadm).
        exact Hother.
      * destruct (admission_stages ctx account message opts c w)
          as [(r0 & Hg & Hr) | (Hg & _)].
        -- fold c in Hadm. rewrite Hadm in Hr. discriminate.
        -- fold c in Hgates. rewrite Hg in Hgates. discriminate.
    + pose proof (wp_inr _ _ _ _ _ _ (senderGates_spec ctx message _ w) Hgates)
        as (_ & _ & _ & _ & _ & Hallowed).
      fold c in Hallowed. congruence.
  - destruct (forwarded_stages ctx account message opts w w' p Heq)
      as (Hgates & _).
    pose proof (wp_inr _ _ _ _ _ _ (senderGates_spec ctx message _ w) Hgates)
      as (_ & _ & _ & _ & _ & Hallowed).
    fold c in Hallowed. congruence.
Qed.

(** X4.  The second test for a missing user in a direct message (lines
    105-108) is never taken: a message that has passed the gates of lines
    70-99 is not dropped there. *)
Theorem second_dm_user_check_dead ctx account message c w w1 senderId :
  senderGates ctx message c w = (w1, inr senderId) ->
  forall allowFromLower,
    (dmAccessPolicy ctx account message c allowFromLower w1).2
    <> inl DmMissingUser.
Proof.
  intros Hgates allowFromLower Hdrop.
  pose proof (wp_inr _ _ _ _ _ _ (senderGates_spec ctx message c w) Hgates)
    as (_ & Htruthy & _ & Hdirect & _).
  destruct (dmAccessPolicy ctx account message c allowFromLower w1)
    as [w2 [r|[]]] eqn:Hpolicy; [|discriminate].
  cbn in Hdrop. injection Hdrop as ->.
  pose proof (wp_inl _ _ _ _ _ _
                (dmAccessPolicy_spec ctx account message c allowFromLower w1)
                Hpolicy) as (Hdm & _ & _ & Hwhy).
  rewrite (Hdirect Hdm) in Hwhy. cbn in Hwhy. intuition congruence.
Qed.

(** X5.  A dropped message enqueues no system event, schedules no reaction
    and leaves the histories alone; unless it is the drop of the
    direct-message policy, the pairing store and the outbox are untouched
    too; and the drops of lines 72 and 245 leave no trace at all. *)
Theorem dropped_leaves_no_trace ctx account message opts w :
  let run := prepareSlackMessage ctx account message opts w in
  forall r,
    run.2 = inl r ->
    systemEvents run.1 = systemEvents w
    /\ reactions run.1 = reactions w
    /\ channelHistories run.1 = channelHistories w
    /\ (r <> DmNotPermitted -> quiet w run.1)
    /\ (r = SelfMessage \/ r = EmptyBody -> run.1 = w).
Proof.
  intros run r Hrun. subst run.
  destruct (prepareSlackMessage_run ctx account message opts w)
    as [(r1 & w1 & Hadm & Heq) | [Hadm Heq]]; rewrite Heq in *.
  - cbn in Hrun. injection Hrun as ->. cbn.
    pose proof (wp_inl _ _ _ _ _ _
                  (admission_effects ctx account message opts _ w) Hadm)
      as (Hhist & Hreact & Hevents & Hquiet & Hself & _).
    pose proof (wp_inl _ _ _ _ _ _
                  (admission_spec ctx account message opts _ w) Hadm)
      as (_ & _ & Hin & _).
    split; [exact Hevents|]. split; [exact Hreact|].
    split; [exact Hhist|]. split; [exact Hquiet|].
    intros [->| ->]; [auto|in_reasons].
  - destruct (assemble ctx account message (classify ctx account message)
                (default "" (senderIdOf message))
                (localsOf ctx account message opts) w)
      as [w' [r'|p]] eqn:Hasm; [|discriminate].
    pose proof (wp_inl _ _ _ _ _ _
                  (assemble_envelope ctx account message _ _ _ w) Hasm)
      as [_ ->].
    cbn. split; [reflexivity|]. split; [reflexivity|].
    split; [reflexivity|]. split; [intros _; apply quiet_refl|].
    intros _. reflexivity.
Qed.

End EarlyGates.

(** ** The direct-message policy *)
Section DirectMessages.
Context `{Collaborators}.
Implicit Types (ctx : SlackMonitorContext) (message : SlackMessageEvent)
  (account : ResolvedSlackAccount) (opts : PrepareOpts) (w : World).

(** The three kinds of line 50-52 exclude one another, and a channel
    configuration is resolved for a room only. *)
Lemma classify_kinds ctx account message :
  let c := classify ctx account message in
  (isDirectMessage c = true ->
   isRoom c = false /\ isGroupDm c = false /\ isRoomish c = false
   /\ channelConfig c = None)
  /\ (isRoom c = true -> isDirectMessage c = false /\ isRoomish c = true)
  /\ (isRoom c = false -> channelConfig c = None)
  /\ isRoomish c = isRoom c || isGroupDm c.
Proof.
  unfold classify. cbn.
  destruct (normalizeSlackChannelType _ (channel message)) as [[]|];
    repeat case_bool_decide; try congruence; cbn; intuition congruence.
Qed.

(** The stages that pass compose into a passing admission. *)
Lemma admission_passes ctx account message opts w :
  let c := classify ctx account message in
  let senderId := default "" (senderIdOf message) in
  let l := localsOf ctx account message opts in
  (senderGates ctx message c w).2 = inr senderId ->
  (dmAccessPolicy ctx account message c (resolveSlackEffectiveAllowFrom ctx)
     w).2 = inr tt ->
  (mentionGates message c senderId l w).2 = inr tt ->
  prepareSlackMessage ctx account message opts w
  = assemble ctx account message c senderId l w.
Proof.
  intros c senderId l Hgates Hpolicy Hmention.
  destruct (prepareSlackMessage_run ctx account message opts w)
    as [(r & w' & Hadm & _) | [_ Hrun]]; [|exact Hrun].
  fold c in Hadm.
  destruct (admission_stages ctx account message opts c w)
    as [(r0 & Hg & _) | (_ & [(r0 & Hp & _) | (_
          & [(r0 & Hm & _) | (_ & Hok)])])].
  - rewrite Hg in Hgates. discriminate.
  - rewrite Hp in Hpolicy. discriminate.
  - fold senderId in Hm. unfold l, localsOf in Hmention. fold c senderId in Hmention.
    rewrite Hm in Hmention. discriminate.
  - rewrite Hadm in Hok. discriminate.
Qed.

(** Outside the pairing branch the policy leaves the outbox alone. *)
Lemma dmAccessPolicy_outbox ctx account message c allowFromLower w :
  wp (dmAccessPolicy ctx account message c allowFromLower)
    (fun _ _ => True)
    (fun r w' =>
       r <> DmNotPermitted \/ dmPolicy ctx <> "pairing" -> sent w' = sent w)
    w.
Proof.
  unfold dmAccessPolicy, sendPairingReply.
  wp_go;
    try (apply wp_upsertChannelPairingRequest;
         destruct (pairingRequests w !! _) eqn:Hpending; cbv zeta; wp_go).
  all: try exact I.
  all: cbn; intros [Hr|Hp]; try reflexivity; try congruence.
  all: rewrite ?bool_decide_eq_true, ?bool_decide_eq_false in *; congruence.
Qed.

(** X6.  The pairing store and the outbox change only in the pairing
    subflow: a direct message, direct messages enabled, the policy
    ["pairing"], the sender not on the allowlist and without a pending
    request.  The message is then dropped, the request is stored and its
    reply is the one message sent. *)
Theorem pairing_effect_needs_pairing ctx account message opts w :
  let c := classify ctx account message in
  let run := prepareSlackMessage ctx account message opts w in
  let directUserId := default "" (user message) in
  let code := generatePairingCode (pairingRequests w) in
  (pairingRequests run.1 <> pairingRequests w \/ sent run.1 <> sent w) ->
  run.2 = inl DmNotPermitted
  /\ isDirectMessage c = true
  /\ dmEnabled ctx = true
  /\ dmPolicy ctx = "pairing"
  /\ allowListMatches (resolveSlackEffectiveAllowFrom ctx) directUserId
     = false
  /\ pairingRequests w !! ("slack", directUserId) = None
  /\ sent run.1 = sent w ++ [pairingReplyOf account message directUserId code]
  /\ pairingRequests run.1
     = <[("slack", directUserId) :=
           {| pairing_code := code;
              pairing_name := resolveUserName directUserId ≫= user_name |}]>
         (pairingRequests w).
Proof.
  intros c run directUserId code. subst run.
  pose proof (prepareSlackMessage_pairingStep ctx account message opts w)
    as Hstep.
  destruct (prepareSlackMessage ctx account message opts w) as [w' res]
    eqn:Hrun.
  cbn [fst snd] in *. intros Hchanged.
  destruct Hstep as [[Hstore Hsent] | (Hfresh & Hstore & Hsent)].
  { destruct Hchanged; contradiction. }
  fold directUserId in Hfresh, Hstore, Hsent. cbv zeta in Hstore, Hsent.
  fold code in Hstore, Hsent.
  assert (sent w' <> sent w) as Hgrown
    by (rewrite Hsent; apply snoc_neq).
  destruct res as [r|p].
  2:{ destruct (forwarded_stages ctx account message opts w w' p Hrun)
        as (_ & _ & _ & Hasm).
      pose proof (wp_inr _ _ _ _ _ _
                    (assemble_envelope ctx account message _ _ _ w) Hasm)
        as (_ & _ & _ & _ & _ & _ & (_ & Hsame & _) & _).
      contradiction. }
  destruct (dropped_stages ctx account message opts w w' r Hrun)
    as [Hgates | (_ & [Hpolicy | (_ & [Hmention | (_ & _ & ->)])])].
  - pose proof (wp_inl _ _ _ _ _ _ (senderGates_spec ctx message _ w) Hgates)
      as (_ & _ & Hsame & _). contradiction.
  - fold c in Hpolicy.
    pose proof (wp_inl _ _ _ _ _ _
                  (dmAccessPolicy_outbox ctx account message c _ w) Hpolicy)
      as Hframe.
    assert (r = DmNotPermitted /\ dmPolicy ctx = "pairing") as [-> Hpairing].
    { destruct (decide (r = DmNotPermitted)) as [Hr|Hr];
        [|exfalso; apply Hgrown, Hframe; auto].
      destruct (decide (dmPolicy ctx = "pairing")) as [Hp|Hp];
        [|exfalso; apply Hgrown, Hframe; auto].
      auto. }
    pose proof (wp_inl _ _ _ _ _ _
                  (dmAccessPolicy_spec ctx account message c _ w) Hpolicy)
      as (Hdm & _ & _ & [[Hr _] | [[Hr _] | (_ & Hon & _ & _ & Hallow)]]);
      try discriminate.
    repeat split; auto.
  - pose proof (wp_inl _ _ _ _ _ _ (mentionGates_spec message _ _ _ w) Hmention)
      as (_ & _ & Hsame & _). contradiction.
  - contradiction.
Qed.


(** A drop of the policy, after the sender gates, is the outcome of the run. *)
Lemma run_of_policy_drop ctx account message opts w w' r senderId :
  let c := classify ctx account message in
  (senderGates ctx message c w).2 = inr senderId ->
  dmAccessPolicy ctx account message c (resolveSlackEffectiveAllowFrom ctx) w
  = (w', inl r) ->
  prepareSlackMessage ctx account message opts w = (w', inl r).
Proof.
  intros c Hgates Hpolicy.
  destruct (prepareSlackMessage_run ctx account message opts w)
    as [(r1 & w1 & Hadm & Hrun) | [Hadm _]]; fold c in Hadm;
    destruct (admission_stages ctx account message opts c w)
      as [(r0 & Hg & Hr) | (_ & [(r0 & Hp & Hr) | (Hp & _)])];
    try (rewrite Hg in Hgates; discriminate);
    try (rewrite Hp in Hpolicy; discriminate).
  - rewrite Hadm in Hp, Hr. cbn in Hp, Hr. rewrite Hp in Hpolicy.
    injection Hpolicy as -> ->. injection Hr as ->. exact Hrun.
  - rewrite Hadm in Hr. discriminate.
Qed.

(** X7.  In the pairing subflow a rejected send is logged and changes
    nothing else: the message is dropped, the request stays in the store
    and the reply stays the one dispatch; the log holds the line of the
    request and, after a rejection, the line of the failure. *)
Theorem pairing_reply_failure_logged ctx account message opts w sender :
  let c := classify ctx account message in
  let run := prepareSlackMessage ctx account message opts w in
  let name := resolveUserName sender ≫= user_name in
  let code := generatePairingCode (pairingRequests w) in
  let reply := pairingReplyOf account message sender code in
  isDirectMessage c = true ->
  (senderGates ctx message c w).2 = inr sender ->
  dmEnabled ctx = true ->
  dmPolicy ctx = "pairing" ->
  allowListMatches (resolveSlackEffectiveAllowFrom ctx) sender = false ->
  pairingRequests w !! ("slack", sender) = None ->
  run.2 = inl DmNotPermitted
  /\ sent run.1 = sent w ++ [reply]
  /\ pairingRequests run.1 !! ("slack", sender)
     = Some {| pairing_code := code; pairing_name := name |}
  /\ verboseLog run.1
     = verboseLog w
       ++ ["slack pairing request sender=" +:+ sender +:+ " name="
           +:+ default "unknown" name]
       ++ match sendMessageSlack (sent_to reply) (sent_text reply)
                  (botToken ctx) (sent_accountId reply) with
          | Some err =>
              ["slack pairing reply failed for " +:+ sender +:+ ": " +:+ err]
          | None => []
          end.
Proof.
  intros c run name code reply Hdm Hpass Hon Hpolicy Hallow Hfresh.
  destruct (pairing_run ctx account message opts w sender
              Hdm Hpass Hon Hpolicy Hallow) as [Hdrop Hstore].
  fold run in Hdrop, Hstore. rewrite Hfresh in Hstore. cbv zeta in Hstore.
  fold code name in Hstore. destruct Hstore as [Hstore Hsent].
  split; [exact Hdrop|]. split; [exact Hsent|].
  split; [rewrite Hstore; apply lookup_insert_eq|].
  destruct (senderGates ctx message c w) as [w1 [r|sid]] eqn:Hgates;
    [discriminate|].
  cbn in Hpass. injection Hpass as ->.
  pose proof (wp_inr _ _ _ _ _ _ (senderGates_spec ctx message c w) Hgates)
    as (-> & Htruthy & _ & Huser & _).
  specialize (Huser Hdm).
  assert (wp (dmAccessPolicy ctx account message c
                (resolveSlackEffectiveAllowFrom ctx))
            (fun _ _ => False)
            (fun _ w' =>
               verboseLog w'
               = verboseLog w
                 ++ ["slack pairing request sender=" +:+ sender +:+ " name="
                     +:+ default "unknown" name]
                 ++ match sendMessageSlack (sent_to reply) (sent_text reply)
                            (botToken ctx) (sent_accountId reply) with
                    | Some err =>
                        ["slack pairing reply failed for " +:+ sender
                         +:+ ": " +:+ err]
                    | None => []
                    end) w) as Hlog.
  { unfold dmAccessPolicy, sendPairingReply.
    rewrite Hdm, Huser, Hon, Hpolicy.
    change (default "" (Some sender)) with sender. cbn [Js.truthyOpt].
    rewrite Htruthy, Hallow. cbn [negb orb].
    assert (forall s : string,
               s <> "pairing" -> bool_decide ("pairing" = s) = false)
      as Hother by (intros s Hs; apply bool_decide_eq_false_2; congruence).
    rewrite (Hother "disabled"), (Hother "open") by discriminate.
    rewrite bool_decide_eq_true_2 by reflexivity. cbn [negb when].
    wp_go; try discriminate.
    apply wp_upsertChannelPairingRequest. rewrite Hfresh. cbv zeta.
    subst reply. unfold pairingReplyOf.
    cbn [sent_to sent_text sent_accountId].
    wp_go; try discriminate; unfold code, name;
      match goal with Hs : sendMessageSlack _ _ _ _ = _ |- _ =>
        rewrite Hs end;
      cbn; rewrite <- ?app_assoc, ?app_nil_r; reflexivity. }
  destruct (dmAccessPolicy ctx account message c
              (resolveSlackEffectiveAllowFrom ctx) w) as [w' [r|[]]]
    eqn:Hpolicy_run.
  - pose proof (wp_inl _ _ _ _ _ _ Hlog Hpolicy_run) as Hlines.
    assert (run = (w', inl r)) as ->; [|exact Hlines].
    apply (run_of_policy_drop ctx account message opts w w' r sender);
      [fold c; rewrite Hgates; reflexivity|exact Hpolicy_run].
  - exfalso. exact (wp_inr _ _ _ _ _ _ Hlog Hpolicy_run).
Qed.

(** X8.  A direct message that has passed the gates of lines 70-99, with
    direct messages enabled and a policy other than ["disabled"], ["open"]
    and ["pairing"], of a sender who is not on the allowlist, is dropped
    with one log line and no other effect. *)
Theorem blocked_sender_logged ctx account message opts w sender :
  let c := classify ctx account message in
  isDirectMessage c = true ->
  (senderGates ctx message c w).2 = inr sender ->
  dmEnabled ctx = true ->
  dmPolicy ctx <> "disabled" ->
  dmPolicy ctx <> "open" ->
  dmPolicy ctx <> "pairing" ->
  allowListMatches (resolveSlackEffectiveAllowFrom ctx) sender = false ->
  prepareSlackMessage ctx account message opts w
  = ((logVerbose ("Blocked unauthorized slack sender " +:+ sender
                  +:+ " (dmPolicy=" +:+ dmPolicy ctx +:+ ")") w).1,
     inl DmNotPermitted).
Proof.
  intros c Hdm Hpass Hon Hdisabled Hopen Hpairing Hallow.
  destruct (senderGates ctx message c w) as [w1 [r|sid]] eqn:Hgates;
    [discriminate|].
  cbn in Hpass. injection Hpass as ->.
  pose proof (wp_inr _ _ _ _ _ _ (senderGates_spec ctx message c w) Hgates)
    as (-> & Htruthy & _ & Huser & _).
  specialize (Huser Hdm).
  apply (run_of_policy_drop ctx account message opts w _ _ sender);
    [fold c; rewrite Hgates; reflexivity|].
  fold c. unfold dmAccessPolicy.
  rewrite Hdm, Huser, Hon.
  change (default "" (Some sender)) with sender. cbn [Js.truthyOpt Js.tpl].
  rewrite Htruthy, Hallow.
  rewrite !bool_decide_eq_false_2 by assumption.
  reflexivity.
Qed.


(** X9.  A direct message that has passed the gates of lines 70-99 is
    forwarded whenever direct messages are enabled, the policy is not
    ["disabled"], the policy is ["open"] or the sender is on the allowlist,
    and the body is not empty: no mention is asked of it.  Its envelope is
    the direct one, addressed to the sender, and neither the stores nor the
    outbox change. *)
Theorem permitted_dm_forwarded ctx account message opts w sender :
  let c := classify ctx account message in
  let run := prepareSlackMessage ctx account message opts w in
  let media :=
    resolveSlackMedia (files message) (botToken ctx) (mediaMaxBytes ctx) in
  isDirectMessage c = true ->
  (senderGates ctx message c w).2 = inr sender ->
  dmEnabled ctx = true ->
  dmPolicy ctx <> "disabled" ->
  dmPolicy ctx = "open"
  \/ allowListMatches (resolveSlackEffectiveAllowFrom ctx) sender = true ->
  rawBodyOf message media <> "" ->
  exists p,
    run.2 = inr p
    /\ SenderId (ctxPayload p) = sender
    /\ ChatType (ctxPayload p) = "direct"
    /\ From (ctxPayload p) = "slack:" +:+ sender
    /\ To (ctxPayload p) = "user:" +:+ sender
    /\ WasMentioned (ctxPayload p) = None
    /\ GroupSubject (ctxPayload p) = None
    /\ GroupSystemPrompt (ctxPayload p) = None
    /\ pairingRequests run.1 = pairingRequests w
    /\ sent run.1 = sent w
    /\ channelHistories run.1 = channelHistories w.
Proof.
  intros c run media Hdm Hpass Hon Hdisabled Hpermitted Hbody.
  destruct (classify_kinds ctx account message) as (Hkinds & _).
  destruct (Hkinds Hdm) as (Hroom & _ & Hroomish & _). fold c in Hroom, Hroomish.
  destruct (senderGates ctx message c w) as [w1 [r|sid]] eqn:Hgates;
    [discriminate|].
  cbn in Hpass. injection Hpass as ->.
  pose proof (wp_inr _ _ _ _ _ _ (senderGates_spec ctx message c w) Hgates)
    as (-> & Htruthy & Hsender & Huser & _).
  specialize (Huser Hdm).
  assert (default "" (senderIdOf message) = sender) as Hid
    by (rewrite Hsender; reflexivity).
  assert ((dmAccessPolicy ctx account message c
             (resolveSlackEffectiveAllowFrom ctx) w).2 = inr tt) as Hpolicy.
  { destruct (dmAccessPolicy ctx account message c
                (resolveSlackEffectiveAllowFrom ctx) w) as [w2 [r|[]]]
      eqn:Hrun; [|reflexivity].
    pose proof (wp_inl _ _ _ _ _ _
                  (dmAccessPolicy_spec ctx account message c _ w) Hrun)
      as (_ & _ & _ & Hwhy).
    rewrite Huser in Hwhy. cbn in Hwhy. exfalso.
    destruct Hpermitted; intuition congruence. }
  assert ((mentionGates message c (default "" (senderIdOf message))
             (localsOf ctx account message opts) w).2 = inr tt) as Hmention
    by (unfold mentionGates; rewrite Hroom; reflexivity).
  pose proof (admission_passes ctx account message opts w) as Hrun.
  cbv zeta in Hrun. fold c in Hrun. rewrite Hgates, Hid in Hrun.
  rewrite Hid in Hmention.
  specialize (Hrun eq_refl Hpolicy Hmention). fold run in Hrun.
  pose proof (assemble_spec ctx account message c sender
                (localsOf ctx account message opts) w) as Hbodyspec.
  pose proof (assemble_envelope ctx account message c sender
                (localsOf ctx account message opts) w) as Henv.
  cbv zeta in Hbodyspec, Henv. unfold wp in Hbodyspec, Henv.
  rewrite <- Hrun in Hbodyspec, Henv.
  destruct run as [w' [r|p]].
  { destruct Hbodyspec as (_ & _ & Hempty). fold media in Hempty.
    apply truthy_false in Hempty. contradiction. }
  destruct Henv as (_ & (Hsid & _) & (Hchat & Hfrom & Hto & _ & Hsubject
                      & Hprompt & Hmentioned) & _ & _ & _
                    & (Hstore & Hsent & _) & Hhistory).
  rewrite Hdm in Hchat, Hfrom. rewrite Hroomish in *.
  unfold slackToOf in Hto. rewrite Hdm, Huser in Hto. rewrite Huser in Hfrom.
  cbn [andb] in Hhistory. destruct Hhistory as [_ Hhistory].
  exists p. cbn [fst snd]. auto 15.
Qed.

End DirectMessages.

(** ** The mention gate in the pipeline *)
Section MentionGate.
Context `{Collaborators}.
Implicit Types (ctx : SlackMonitorContext) (message : SlackMessageEvent)
  (account : ResolvedSlackAccount) (opts : PrepareOpts) (w : World).

(** The gate as called at lines 226-232, every flag being given. *)
Lemma resolveMentionGating_given (req can was implicit bypass : bool) :
  let gate :=
    MentionGating.resolveMentionGating
      {| MentionGating.requireMention := req;
         MentionGating.canDetectMention := can;
         MentionGating.wasMentioned := was;
         MentionGating.implicitMention := Some implicit;
         MentionGating.shouldBypassMention := Some bypass |} in
  MentionGating.effectiveWasMentioned gate = was || implicit || bypass
  /\ MentionGating.shouldSkip gate
     = req && can && negb (was || implicit || bypass).
Proof. destruct implicit, bypass; split; reflexivity. Qed.

Lemma localsOf_gate ctx account message opts :
  let l := localsOf ctx account message opts in
  effectiveWasMentioned l
  = wasMentioned l || implicitMention l || shouldBypassMention l
  /\ MentionGating.shouldSkip (mentionGate l)
     = shouldRequireMention l && canDetectMention l
       && negb (wasMentioned l || implicitMention l || shouldBypassMention l).
Proof.
  unfold localsOf. generalize (classify ctx account message). intros c.
  unfold mentionLocals.
  cbn [effectiveWasMentioned mentionGate wasMentioned implicitMention
       shouldBypassMention shouldRequireMention canDetectMention].
  apply resolveMentionGating_given.
Qed.


(** Where a drop for lack of a mention, or for the sender not being among
    the channel's users, comes from. *)
Lemma mention_stage_drop ctx account message opts w w' r :
  let c := classify ctx account message in
  let senderId := default "" (senderIdOf message) in
  let l := localsOf ctx account message opts in
  prepareSlackMessage ctx account message opts w = (w', inl r) ->
  r = NoMention \/ r = ChannelUserNotAllowed ->
  mentionGates message c senderId l w = (w', inl r).
Proof.
  intros c senderId l Hrun Hr.
  destruct (dropped_stages ctx account message opts w w' r Hrun)
    as [Hgates | (_ & [Hpolicy | (_ & [Hmention | (_ & -> & _)])])].
  - pose proof (wp_inl _ _ _ _ _ _ (senderGates_spec ctx message _ w) Hgates)
      as [Hin _].
    exfalso. destruct Hr as [-> | ->]; in_reasons.
  - pose proof (wp_inl _ _ _ _ _ _
                  (dmAccessPolicy_spec ctx account message _ _ w) Hpolicy)
      as (_ & _ & _ & Hwhy).
    exfalso. destruct Hr as [-> | ->]; intuition congruence.
  - exact Hmention.
  - destruct Hr; discriminate.
Qed.

(** The drop of line 236 tells the logger and nobody else: the world is
    the one before with the record of line 235 appended. *)
Lemma mentionGates_logger message c senderId (l : MentionLocals) w :
  wp (mentionGates message c senderId l)
    (fun _ _ => True)
    (fun r w' =>
       r = NoMention ->
       w' = (loggerInfo {| info_channel := channel message;
                           info_reason := "no-mention";
                           info_msg := "skipping room message" |} w).1)
    w.
Proof.
  unfold mentionGates. wp_go; try exact I; cbn; intros Hr;
    [discriminate|reflexivity].
Qed.

(** X10.  A message is dropped for lack of a mention only in a room that
    requires one, with detection possible, and neither a mention nor an
    implicit mention nor a bypass; the world after the drop is the world
    before with one record appended to the logger, so that the verbose log,
    the stores, the outbox, the reactions and the system events are all
    unchanged.  In particular the gate drops nothing when the bot's user id
    is unknown and no mention pattern is configured.  Conversely, such a
    room message is dropped once it has passed the gates before. *)
Theorem no_mention_drop ctx account message opts w :
  let c := classify ctx account message in
  let l := localsOf ctx account message opts in
  let run := prepareSlackMessage ctx account message opts w in
  let unmentioned :=
    isRoom c = true /\ shouldRequireMention l = true
    /\ canDetectMention l = true /\ wasMentioned l = false
    /\ implicitMention l = false /\ shouldBypassMention l = false in
  (run.2 = inl NoMention ->
   unmentioned
   /\ run.1
      = (loggerInfo {| info_channel := channel message;
                       info_reason := "no-mention";
                       info_msg := "skipping room message" |} w).1
   /\ verboseLog run.1 = verboseLog w
   /\ quiet w run.1)
  /\ (Js.truthy (botUserId ctx) = false -> mentionRegexes l = [] ->
      run.2 <> inl NoMention)
  /\ (forall senderId,
        (senderGates ctx message c w).2 = inr senderId ->
        channelUserAuthorized l = true ->
        unmentioned ->
        run.2 = inl NoMention).
Proof.
  intros c l run unmentioned.
  destruct (localsOf_gate ctx account message opts) as [_ Hskip].
  fold l in Hskip.
  assert (run.2 = inl NoMention ->
          unmentioned
          /\ run.1
             = (loggerInfo {| info_channel := channel message;
                              info_reason := "no-mention";
                              info_msg := "skipping room message" |} w).1
          /\ verboseLog run.1 = verboseLog w
          /\ quiet w run.1)
    as Honly.
  { subst run.
    destruct (prepareSlackMessage ctx account message opts w) as [w' res]
      eqn:Hrun.
    cbn [fst snd]. intros ->.
    pose proof (mention_stage_drop ctx account message opts w w' NoMention
                  Hrun (or_introl eq_refl)) as Hmention.
    fold c l in Hmention.
    pose proof (wp_inl _ _ _ _ _ _ (mentionGates_spec message _ _ _ w) Hmention)
      as (Hroom & _ & _ & _ & [[Hno _] | (_ & Hrequire & Hcond)]);
      [discriminate|].
    pose proof (wp_inl _ _ _ _ _ _ (mentionGates_logger message _ _ _ w)
                  Hmention eq_refl) as Hworld.
    rewrite Hskip, Hrequire in Hcond. cbn [andb] in Hcond.
    rewrite !andb_true_iff, negb_true_iff, !orb_false_iff in Hcond.
    split; [unfold unmentioned; tauto|].
    split; [exact Hworld|]. rewrite Hworld.
    split; [reflexivity|repeat split]. }
  split; [exact Honly|]. split.
  - intros Hunknown Hnone Hdrop.
    destruct (Honly Hdrop) as ((_ & _ & Hcan & _) & _).
    revert Hcan. unfold l, localsOf, mentionLocals.
    cbn [canDetectMention]. rewrite Hunknown.
    fold c. change (canDetectMention l) with (canDetectMention l).
    unfold l, localsOf, mentionLocals in Hnone. cbn [mentionRegexes] in Hnone.
    fold c in Hnone. rewrite Hnone. discriminate.
  - intros senderId Hpass Hauthorized
      (Hroom & Hrequire & Hcan & Hwas & Himplicit & Hbypass).
    destruct (classify_kinds ctx account message) as (_ & Hkinds & _).
    destruct (Hkinds Hroom) as [Hdm _]. fold c in Hdm.
    destruct (senderGates ctx message c w) as [w1 [r|sid]] eqn:Hgates;
      [discriminate|].
    pose proof (wp_inr _ _ _ _ _ _ (senderGates_spec ctx message c w) Hgates)
      as (-> & _ & Hsender & _).
    assert (sid = default "" (senderIdOf message)) as ->
      by (rewrite Hsender; reflexivity).
    subst run. unfold prepareSlackMessage, admission. fold c.
    rewrite !bind_run, Hgates. cbv zeta. rewrite !bind_run.
    unfold dmAccessPolicy at 1. rewrite Hdm. cbn [when ret].
    change (mentionLocals ctx account message opts c
              (default "" (senderIdOf message))
              (resolveSlackEffectiveAllowFrom ctx)) with l.
    unfold mentionGates. rewrite Hskip, Hroom, Hauthorized, Hrequire, Hcan,
      Hwas, Himplicit, Hbypass.
    reflexivity.
Qed.

(** X11.  Evidence of a mention lets a message through the gate: the
    caller's flag, the bot's mention token in the text of a message outside
    a direct conversation when the caller gave no flag, or a reply in a
    thread whose parent is the bot.  The envelope of a room or group message
    then says so. *)
Theorem mention_evidence_passes_gate ctx account message opts w :
  let c := classify ctx account message in
  let l := localsOf ctx account message opts in
  let run := prepareSlackMessage ctx account message opts w in
  opts_wasMentioned opts = Some true
  \/ (opts_wasMentioned opts = None /\ isDirectMessage c = false
      /\ botUserId ctx <> ""
      /\ exists t, text message = Some t
                   /\ Js.includes ("<@" +:+ botUserId ctx +:+ ">") t = true)
  \/ (isDirectMessage c = false /\ botUserId ctx <> ""
      /\ (exists t, thread_ts message = Some t /\ t <> "")
      /\ parent_user_id message = Some (botUserId ctx)) ->
  effectiveWasMentioned l = true
  /\ run.2 <> inl NoMention
  /\ (forall p,
        run.2 = inr p -> p_isRoomish p = true ->
        WasMentioned (ctxPayload p) = Some true).
Proof.
  intros c l run Hevidence.
  assert (forall s : string, s <> "" -> Js.truthy s = true) as Htruthy
    by (intros [|a s] Hs; [contradiction|reflexivity]).
  destruct (localsOf_gate ctx account message opts) as [Heffective Hskip].
  fold l in Heffective, Hskip.
  assert (effectiveWasMentioned l = true) as Hmentioned.
  { rewrite Heffective.
    destruct Hevidence
      as [Hflag | [(Hflag & Hdm & Hbot & t & Htext & Htoken)
                  | (Hdm & Hbot & (t & Hthread & Ht) & Hparent)]].
    - assert (wasMentioned l = true) as ->; [|reflexivity].
      unfold l, localsOf, mentionLocals. cbn [wasMentioned].
      rewrite Hflag. reflexivity.
    - assert (wasMentioned l = true) as ->; [|reflexivity].
      unfold l, localsOf, mentionLocals. cbn [wasMentioned]. fold c.
      rewrite Hflag, Hdm, Htext, Htoken, (Htruthy _ Hbot). reflexivity.
    - assert (implicitMention l = true) as ->;
        [|rewrite orb_true_r; reflexivity].
      unfold l, localsOf, mentionLocals. cbn [implicitMention]. fold c.
      rewrite Hdm, Hthread, Hparent, (Htruthy _ Hbot). cbn.
      rewrite (Htruthy _ Ht). apply bool_decide_eq_true_2. reflexivity. }
  split; [exact Hmentioned|]. split.
  - subst run.
    destruct (prepareSlackMessage ctx account message opts w) as [w' res]
      eqn:Hrun.
    cbn [snd]. intros ->.
    pose proof (mention_stage_drop ctx account message opts w w' NoMention
                  Hrun (or_introl eq_refl)) as Hmention.
    fold c l in Hmention. unfold mentionGates in Hmention.
    rewrite Hskip, <- Heffective, Hmentioned, !andb_false_r in Hmention.
    destruct (isRoom c && negb (channelUserAuthorized l));
      cbn in Hmention; discriminate.
  - intros p Hrun Hroomish. subst run.
    destruct (prepareSlackMessage ctx account message opts w) as [w' res]
      eqn:Heq.
    cbn in Hrun. subst res.
    destruct (forwarded_stages ctx account message opts w w' p Heq)
      as (_ & _ & _ & Hasm).
    pose proof (wp_inr _ _ _ _ _ _
                  (assemble_envelope ctx account message _ _ _ w) Hasm)
      as ((_ & Hish & _) & _ & (_ & _ & _ & _ & _ & _ & Hwas) & _).
    fold c l in Hish, Hwas. rewrite Hroomish in Hish.
    rewrite <- Hish, Hmentioned in Hwas. exact Hwas.
Qed.

(** X12.  A forwarded message has passed the channel's user list, so its
    [CommandAuthorized] is the verdict of the allowlist on its sender; and
    the drop of line 196 happens in a room only, for a sender off the
    channel's list. *)
Theorem command_authorized_of_forwarded ctx account message opts w :
  let c := classify ctx account message in
  let run := prepareSlackMessage ctx account message opts w in
  (forall p,
      run.2 = inr p ->
      let senderId := SenderId (ctxPayload p) in
      let senderName := SenderName (ctxPayload p) in
      CommandAuthorized (ctxPayload p)
      = isSlackSenderAllowListed (resolveSlackEffectiveAllowFrom ctx)
          senderId senderName
      /\ (isRoom c = true ->
          resolveSlackUserAllowed (channelConfig c ≫= cc_users) senderId
            senderName = true))
  /\ (run.2 = inl ChannelUserNotAllowed ->
      isRoom c = true
      /\ resolveSlackUserAllowed (channelConfig c ≫= cc_users)
           (default "" (senderIdOf message))
           (senderName (localsOf ctx account message opts)) = false).
Proof.
  intros c run.
  assert (forall l : MentionLocals,
             l = localsOf ctx account message opts ->
             commandAuthorized l
             = isSlackSenderAllowListed (resolveSlackEffectiveAllowFrom ctx)
                 (default "" (senderIdOf message)) (senderName l)
               && channelUserAuthorized l
             /\ channelUserAuthorized l
                = if isRoom c
                  then resolveSlackUserAllowed (channelConfig c ≫= cc_users)
                         (default "" (senderIdOf message)) (senderName l)
                  else true) as Hlocals.
  { intros l ->. unfold localsOf, mentionLocals. fold c.
    cbn [commandAuthorized channelUserAuthorized senderName].
    split; reflexivity. }
  destruct (Hlocals _ eq_refl) as [Hcommand Hchannel].
  split.
  - intros p Hrun. subst run.
    destruct (prepareSlackMessage ctx account message opts w) as [w' res]
      eqn:Heq.
    cbn in Hrun. subst res.
    destruct (forwarded_stages ctx account message opts w w' p Heq)
      as (_ & _ & Hmention & Hasm).
    pose proof (wp_inr _ _ _ _ _ _
                  (assemble_envelope ctx account message _ _ _ w) Hasm)
      as (_ & (Hid & Hname & Hauth & _) & _).
    pose proof (wp_inr _ _ _ _ _ _ (mentionGates_spec message _ _ _ w) Hmention)
      as (_ & Hroom).
    fold c in Hroom. cbv zeta. rewrite Hauth, Hid, Hname, Hcommand.
    destruct (isRoom c) eqn:Hkind.
    + destruct (Hroom eq_refl) as [Hallowed _].
      rewrite Hallowed, andb_true_r. split; [reflexivity|].
      intros _. rewrite <- Hchannel. exact Hallowed.
    + rewrite Hchannel, andb_true_r. split; [reflexivity|discriminate].
  - subst run.
    destruct (prepareSlackMessage ctx account message opts w) as [w' res]
      eqn:Heq.
    cbn [snd]. intros ->.
    pose proof (mention_stage_drop ctx account message opts w w' _ Heq
                  (or_intror eq_refl)) as Hmention.
    pose proof (wp_inl _ _ _ _ _ _ (mentionGates_spec message _ _ _ w) Hmention)
      as (Hroom & _ & _ & _ & [[_ Hoff] | [Hno _]]); [|discriminate].
    fold c in Hroom. split; [exact Hroom|].
    rewrite Hchannel, Hroom in Hoff. exact Hoff.
Qed.

End MentionGate.

(** ** The envelope of a forwarded message *)
Section Forwarded.
Context `{Collaborators}.
Implicit Types (ctx : SlackMonitorContext) (message : SlackMessageEvent)
  (account : ResolvedSlackAccount) (opts : PrepareOpts) (w : World).

(** Splits a run into its world and outcome, and a forwarded one into the
    facts of its stages: [Hgates] from the sender gates, [Henv] the
    envelope. *)
Ltac forwarded p Hrun Hgates Hasm Henv :=
  lazymatch type of Hrun with
  | context [prepareSlackMessage ?ctx ?account ?message ?opts ?w] =>
      let w' := fresh "w'" in
      let res := fresh "res" in
      let Heq := fresh "Heq" in
      let Hg := fresh "Hg" in
      destruct (prepareSlackMessage ctx account message opts w)
        as [w' res] eqn:Heq;
      cbn [fst snd] in *; subst res;
      destruct (forwarded_stages ctx account message opts w w' p Heq)
        as (Hg & _ & _ & Hasm);
      pose proof (wp_inr _ _ _ _ _ _ (senderGates_spec ctx message _ w) Hg)
        as Hgates;
      pose proof (wp_inr _ _ _ _ _ _
                    (assemble_envelope ctx account message _ _ _ w) Hasm)
        as Henv;
      cbv zeta in Henv
  end.

(** X13.  A forwarded message enqueues exactly one system event, under the
    session key of its envelope and the context key of its channel and
    timestamp, the text ending in the preview; a dropped one enqueues none. *)
Theorem system_event_iff_forwarded ctx account message opts w :
  let run := prepareSlackMessage ctx account message opts w in
  (forall p,
      run.2 = inr p ->
      exists ev label,
        systemEvents run.1 = systemEvents w ++ [ev]
        /\ event_sessionKey ev = SessionKey (ctxPayload p)
        /\ event_contextKey ev
           = "slack:message:" +:+ channel message +:+ ":"
             +:+ default "unknown" (ts message)
        /\ event_text ev = label +:+ ": " +:+ preview p)
  /\ (forall r, run.2 = inl r -> systemEvents run.1 = systemEvents w).
Proof.
  intros run. split.
  - intros p Hrun. subst run. forwarded p Hrun Hgates Hasm Henv.
    destruct Henv as (_ & (_ & _ & _ & _ & Hkey) & _ & _ & _ & _
                      & (_ & _ & _ & Hevents) & _).
    eexists _, _. split; [exact Hevents|]. cbn.
    split; [symmetry; exact Hkey|]. split; reflexivity.
  - intros r Hrun. subst run.
    destruct (prepareSlackMessage_run ctx account message opts w)
      as [(r1 & w1 & Hadm & Heq) | [Hadm Heq]]; rewrite Heq in *.
    + pose proof (wp_inl _ _ _ _ _ _
                    (admission_effects ctx account message opts _ w) Hadm)
        as (_ & _ & Hevents & _).
      exact Hevents.
    + destruct (assemble ctx account message (classify ctx account message)
                  (default "" (senderIdOf message))
                  (localsOf ctx account message opts) w)
        as [w' [r'|p]] eqn:Hasm; [|discriminate].
      pose proof (wp_inl _ _ _ _ _ _
                    (assemble_envelope ctx account message _ _ _ w) Hasm)
        as [_ ->].
      reflexivity.
Qed.

(** X14.  The history map is written only by a forwarded room or group
    message under a positive history limit, through one call of
    [buildHistoryContextFromMap] whose entry carries the sender, the body
    and the id of the message and whose result is the [Body]; direct
    messages never take part.  The key is the channel, or the session key
    for a thread reply under the scope ["thread"]. *)
Theorem history_participation ctx account message opts w :
  let c := classify ctx account message in
  let run := prepareSlackMessage ctx account message opts w in
  (isDirectMessage c = true \/ isRoomish c = false
   \/ (historyLimit ctx <= 0)%Z \/ (exists r, run.2 = inl r) ->
   channelHistories run.1 = channelHistories w)
  /\ (forall p,
        run.2 = inr p ->
        historyKey p
        = (if isThreadReply message
              && bool_decide (threadHistoryScope ctx = "thread")
           then SessionKey (ctxPayload p) else channel message)
        /\ (isRoomish c = true -> (0 < historyLimit ctx)%Z ->
            exists entry current formatEntry,
              entry_sender entry = SenderName (ctxPayload p)
              /\ entry_body entry = RawBody (ctxPayload p)
              /\ entry_messageId entry = ts message
              /\ Body (ctxPayload p)
                 = (buildHistoryContextFromMap (channelHistories w)
                      (historyKey p) (historyLimit ctx) (Some entry)
                      current formatEntry).1
              /\ channelHistories run.1
                 = (buildHistoryContextFromMap (channelHistories w)
                      (historyKey p) (historyLimit ctx) (Some entry)
                      current formatEntry).2)).
Proof.
  intros c run. split.
  - intros Hwhy.
    assert (isRoomish c = false \/ (historyLimit ctx <= 0)%Z
            \/ (exists r, run.2 = inl r)) as Hcases.
    { destruct Hwhy as [Hdm | Hrest]; [|exact Hrest]. left.
      apply (proj1 (classify_kinds ctx account message)). exact Hdm. }
    clear Hwhy. subst run.
    destruct (prepareSlackMessage_run ctx account message opts w)
      as [(r1 & w1 & Hadm & Heq) | [Hadm Heq]]; rewrite Heq in *.
    { pose proof (wp_inl _ _ _ _ _ _
                    (admission_effects ctx account message opts _ w) Hadm)
        as (Hhistories & _).
      exact Hhistories. }
    fold c in Hcases |- *.
    pose proof (assemble_envelope ctx account message c
                  (default "" (senderIdOf message))
                  (localsOf ctx account message opts) w) as Henv.
    cbv zeta in Henv. unfold wp in Henv.
    destruct (assemble ctx account message c
                (default "" (senderIdOf message))
                (localsOf ctx account message opts) w) as [w' [r'|p]].
    { destruct Henv as [_ ->]. reflexivity. }
    destruct Henv as (_ & _ & _ & _ & _ & _ & _ & Hhistory). cbn [fst].
    destruct Hcases as [Hkind | [Hlimit | (r & Hr)]]; [| |discriminate].
    + rewrite Hkind in Hhistory. apply Hhistory.
    + assert ((0 <? historyLimit ctx)%Z = false) as Hoff
        by (apply Z.ltb_ge; exact Hlimit).
      rewrite Hoff, andb_false_r in Hhistory. apply Hhistory.
  - intros p Hrun. subst run. forwarded p Hrun Hgates Hasm Henv.
    destruct Henv as (_ & (_ & Hname & _ & _ & Hkey) & _ & (Hraw & _)
                      & (_ & _ & Hhkey) & _ & _ & Hhistory).
    fold c in Hhistory, Hhkey. rewrite Hkey. split; [exact Hhkey|].
    intros Hkind Hlimit.
    assert ((0 <? historyLimit ctx)%Z = true) as Hon
      by (apply Z.ltb_lt; exact Hlimit).
    rewrite Hkind, Hon in Hhistory. cbn [andb] in Hhistory.
    destruct Hhistory as (entry & formatEntry & Hbody & Hmap & Hsender
                          & Hentry & Hid).
    exists entry. eexists _, formatEntry.
    rewrite Hname, Hraw. repeat split; eassumption.
Qed.

(** X15.  The envelope follows the kind of the conversation: direct, room
    or group, in [ChatType], [From] and [To]; the group fields are filled
    for rooms and group conversations only; a direct envelope is addressed
    by the sender id, which is the message's user. *)
Theorem envelope_by_kind ctx account message opts w :
  let c := classify ctx account message in
  let run := prepareSlackMessage ctx account message opts w in
  forall p,
    run.2 = inr p ->
    let payload := ctxPayload p in
    (p_isDirectMessage p = true ->
     ChatType payload = "direct"
     /\ From payload = "slack:" +:+ SenderId payload
     /\ To payload = "user:" +:+ SenderId payload
     /\ p_isRoomish p = false
     /\ GroupSubject payload = None /\ GroupSystemPrompt payload = None
     /\ WasMentioned payload = None)
    /\ (isRoom c = true ->
        ChatType payload = "room"
        /\ From payload = "slack:channel:" +:+ channel message
        /\ To payload = "channel:" +:+ channel message
        /\ p_isRoomish p = true
        /\ (exists label, GroupSubject payload = Some ("#" +:+ label))
        /\ exists mentioned, WasMentioned payload = Some mentioned)
    /\ (p_isDirectMessage p = false -> isRoom c = false ->
        ChatType payload = "group"
        /\ From payload = "slack:group:" +:+ channel message
        /\ To payload = "channel:" +:+ channel message)
    /\ OriginatingTo payload = To payload
    /\ replyTarget p = To payload
    /\ CommandBody payload = RawBody payload
    /\ MediaUrl payload = MediaPath payload.
Proof.
  intros c run p Hrun. subst run. forwarded p Hrun Hgates Hasm Henv.
  destruct Hgates as (_ & _ & _ & Huser & _).
  destruct Henv as ((Hdm & Hish & _) & (Hid & _)
                    & (Hchat & Hfrom & Hto & Horigin & Hsubject & Hprompt
                       & Hwas)
                    & (Hraw & Hcommand & _ & _ & _ & _ & Hpath & Hurl)
                    & _).
  pose proof (wp_inr _ _ _ _ _ _
                (assemble_spec ctx account message _ _ _ w) Hasm)
    as (_ & _ & _ & _ & Htarget & _).
  destruct (classify_kinds ctx account message)
    as (Hdirect & Hroom & _ & _).
  fold c in Huser, Hdm, Hish, Hchat, Hfrom, Hto, Horigin, Hsubject, Hprompt,
    Hwas, Htarget, Hdirect, Hroom.
  cbv zeta.
  rewrite Hdm, Hish, Hchat, Hfrom, Hto, Horigin, Hsubject, Hprompt, Hwas,
    Hid, Hraw, Hcommand, Hpath, Hurl, Htarget.
  unfold slackToOf.
  split; [|split; [|split]].
  - intros Hkind. destruct (Hdirect Hkind) as (_ & _ & Hnone & _).
    rewrite Hkind, Hnone, (Huser Hkind). cbn. auto 10.
  - intros Hkind. destruct (Hroom Hkind) as [Hnot Hyes].
    rewrite Hkind, Hnot, Hyes.
    repeat split; [|eauto].
    destruct (Js.truthyOpt (channelName c)); eauto.
  - intros Hkind Hother. rewrite Hkind, Hother. auto.
  - auto.
Qed.


(** X16.  The route of a forwarded message is resolved for the peer of its
    kind: the sender for a direct message, the channel otherwise; the
    placeholder peer of line 166 never reaches the resolver. *)
Theorem route_peer ctx account message opts w :
  let c := classify ctx account message in
  let run := prepareSlackMessage ctx account message opts w in
  forall p,
    run.2 = inr p ->
    p_route p
    = resolveAgentRoute (cfg ctx) "slack" (accountId account)
        (if Js.truthy (teamId ctx) then Some (teamId ctx) else None)
        {| peer_kind :=
             if p_isDirectMessage p then "dm"
             else if isRoom c then "channel" else "group";
           peer_id :=
             if p_isDirectMessage p then SenderId (ctxPayload p)
             else channel message |}
    /\ AccountId (ctxPayload p) = route_accountId (p_route p).
Proof.
  intros c run p Hrun. subst run. forwarded p Hrun Hgates Hasm Henv.
  destruct Hgates as (_ & _ & _ & Huser & _).
  destruct Henv as ((Hdm & _ & Hroute & _) & (Hid & _ & _ & Haccount & _) & _).
  fold c in Huser, Hdm. rewrite Haccount, Hroute, Hid, Hdm. split; [|reflexivity].
  unfold localsOf, mentionLocals. fold c. cbn [route].
  destruct (isDirectMessage c); [|reflexivity].
  rewrite (Huser eq_refl). reflexivity.
Qed.

(** X17.  The sender name of a forwarded message: the name the directory
    gives for the user; failing that the trimmed [username] of the event;
    failing that the sender id. *)
Theorem sender_name_fallback ctx account message opts w :
  let run := prepareSlackMessage ctx account message opts w in
  forall p,
    run.2 = inr p ->
    let senderName := SenderName (ctxPayload p) in
    (forall u n,
        user message = Some u ->
        resolveUserName u ≫= user_name = Some n -> senderName = n)
    /\ ((forall u,
            user message = Some u -> resolveUserName u ≫= user_name = None) ->
        (forall n, username message = Some n -> senderName = Js.trim n)
        /\ (username message = None ->
            senderName = SenderId (ctxPayload p))).
Proof.
  intros run p Hrun. subst run. forwarded p Hrun Hgates Hasm Henv.
  destruct Hgates as (_ & Htruthy & Hsender & _).
  destruct Henv as (_ & (Hid & Hname & _) & _).
  cbv zeta. rewrite Hname, Hid.
  set (sid := default "" (senderIdOf message)) in *. clearbody sid.
  unfold localsOf, mentionLocals. cbn [senderName].
  unfold senderIdOf, isBotMessage in Hsender. split.
  - intros u n Hu Hn. rewrite Hu in *. cbn in Hsender.
    injection Hsender as ->. rewrite Htruthy, Hn. reflexivity.
  - intros Hnone. destruct (user message) as [u|] eqn:Hu.
    + cbn in Hsender. injection Hsender as ->.
      rewrite Htruthy, (Hnone sid eq_refl). split.
      * intros n ->. reflexivity.
      * intros ->. reflexivity.
    + cbn in Hsender. split.
      * intros n ->. reflexivity.
      * intros ->. cbn.
        destruct (Js.truthyOpt (bot_id message)); [|discriminate].
        rewrite Hsender. reflexivity.
Qed.

(** X18.  A forwarded message carries a thread label exactly when it is a
    thread reply, and the label starts with ["Slack thread #"]; it carries
    a thread-starter body only when it is a thread reply whose starter was
    found with a non-empty text. *)
Theorem thread_label_iff_reply ctx account message opts w :
  let run := prepareSlackMessage ctx account message opts w in
  forall p,
    run.2 = inr p ->
    (ThreadLabel (ctxPayload p) <> None <-> isThreadReply message = true)
    /\ (forall label,
          ThreadLabel (ctxPayload p) = Some label ->
          String.prefix "Slack thread #" label = true)
    /\ (ThreadStarterBody (ctxPayload p) <> None ->
        isThreadReply message = true
        /\ exists starter,
            resolveSlackThreadStarter (channel message)
              (default "" (thread_ts message)) = Some starter
            /\ starter_text starter <> "").
Proof.
  intros run p Hrun. subst run. forwarded p Hrun Hgates Hasm Henv.
  destruct Henv as (_ & _ & _ & _ & (Hbody & Hlabel & _) & _).
  rewrite Hbody, Hlabel. clear Hbody Hlabel.
  set (roomLabel := if Js.truthyOpt (channelName _) then _ else _).
  assert (exists rest, roomLabel = "#" +:+ rest) as [rest ->]
    by (subst roomLabel; destruct (Js.truthyOpt (channelName _)); eauto).
  unfold threadStarterOf.
  assert (isThreadReply message = true ->
          Js.truthyOpt (thread_ts message) = true) as Hthread
    by (unfold isThreadReply, hasThreadTs; intros Hr;
        apply andb_true_iff in Hr as [Hr _]; exact Hr).
  destruct (isThreadReply message) eqn:Hreply; cbn [andb].
  2:{ cbn. repeat split; try congruence; try discriminate. }
  rewrite (Hthread eq_refl).
  destruct (resolveSlackThreadStarter (channel message)
              (default "" (thread_ts message))) as [starter|] eqn:Hstarter.
  - destruct (Js.truthy (starter_text starter)) eqn:Htext; cbn [fst snd].
    + split; [split; [reflexivity|discriminate]|]. split.
      * intros label [= <-]. cbn. apply prefix_empty.
      * intros _. split; [reflexivity|]. exists starter.
        split; [reflexivity|]. intros Hempty. rewrite Hempty in Htext.
        discriminate.
    + split; [split; [reflexivity|discriminate]|]. split.
      * intros label [= <-]. cbn. apply prefix_empty.
      * intros Hno. contradiction.
  - cbn [fst snd]. split; [split; [reflexivity|discriminate]|]. split.
    + intros label [= <-]. cbn. apply prefix_empty.
    + intros Hno. contradiction.
Qed.


Lemma truthyTrimmed_truthy (o : option string) (x : string) :
  truthyTrimmed o = Some x -> Js.truthy x = true.
Proof.
  unfold truthyTrimmed. destruct o as [s|]; [|discriminate].
  destruct (Js.truthy (Js.trim s)) eqn:Htrim; [|discriminate].
  intros [= <-]. exact Htrim.
Qed.

Lemma truthy_append (a b : string) :
  Js.truthy a = true -> Js.truthy (a +:+ b) = true.
Proof. destruct a; [discriminate|reflexivity]. Qed.

(** Lines 347-357 on a classified channel: no prompt exactly when topic,
    purpose and configured prompt are all blank; a purpose that repeats the
    topic is described once. *)
Lemma groupSystemPromptOf_cases (c : Classified) :
  let topic := truthyTrimmed (info_topic (channelInfo c)) in
  let purpose := truthyTrimmed (info_purpose (channelInfo c)) in
  let prompt := truthyTrimmed (channelConfig c ≫= cc_systemPrompt) in
  (groupSystemPromptOf c = None
   <-> topic = None /\ purpose = None /\ prompt = None)
  /\ (forall t,
        topic = Some t -> purpose = Some t -> prompt = None ->
        groupSystemPromptOf c = Some ("Channel description: " +:+ t))
  /\ (forall t u,
        topic = Some t -> purpose = Some u -> t <> u -> prompt = None ->
        groupSystemPromptOf c
        = Some ("Channel description: " +:+ t +:+ Js.nl +:+ u)).
Proof.
  intros topic purpose prompt. unfold groupSystemPromptOf.
  cbn [omap list_omap]. fold topic purpose prompt.
  assert (forall x : string, bool_decide (x ∈ @nil string) = false) as Hnil
    by (intros x; apply bool_decide_eq_false_2, not_elem_of_nil).
  destruct topic as [t|] eqn:Htopic, purpose as [u|] eqn:Hpurpose;
    cbn [keepFirst]; rewrite ?Hnil.
  - pose proof (truthyTrimmed_truthy _ _ Htopic) as Ht.
    pose proof (truthyTrimmed_truthy _ _ Hpurpose) as Hu.
    case_bool_decide as Hsame.
    + apply list_elem_of_singleton in Hsame as ->.
      cbn [String.concat]. rewrite Ht.
      destruct prompt as [q|]; cbn; repeat split; try congruence;
        try discriminate; intuition congruence.
    + cbn [String.concat]. rewrite (truthy_append _ _ Ht).
      destruct prompt as [q|]; cbn; repeat split; try congruence;
        try discriminate; try (intuition congruence).
      intros t0 Heq1 Heq2. injection Heq1 as <-. injection Heq2 as <-.
      exfalso. apply Hsame. apply list_elem_of_here.
  - pose proof (truthyTrimmed_truthy _ _ Htopic) as Ht.
    cbn [String.concat]. rewrite Ht.
    destruct prompt as [q|]; cbn; repeat split; try congruence;
      try discriminate; intuition congruence.
  - pose proof (truthyTrimmed_truthy _ _ Hpurpose) as Hu.
    cbn [String.concat]. rewrite Hu.
    destruct prompt as [q|]; cbn; repeat split; try congruence;
      try discriminate; intuition congruence.
  - cbn [String.concat Js.truthy].
    destruct prompt as [q|]; cbn; repeat split; try congruence;
      try discriminate; intuition congruence.
Qed.

(** X19.  The group system prompt of a forwarded message is absent exactly
    outside rooms and group conversations or when the channel's topic, its
    purpose and the configured prompt are all blank; a purpose equal to the
    topic is described once, a different one on a second line. *)
Theorem group_system_prompt ctx account message opts w :
  let c := classify ctx account message in
  let run := prepareSlackMessage ctx account message opts w in
  let topic := truthyTrimmed (info_topic (channelInfo c)) in
  let purpose := truthyTrimmed (info_purpose (channelInfo c)) in
  let prompt := truthyTrimmed (channelConfig c ≫= cc_systemPrompt) in
  forall p,
    run.2 = inr p ->
    (GroupSystemPrompt (ctxPayload p) = None
     <-> p_isRoomish p = false
         \/ (topic = None /\ purpose = None /\ prompt = None))
    /\ (p_isRoomish p = true -> prompt = None ->
        forall t u,
          topic = Some t -> purpose = Some u ->
          GroupSystemPrompt (ctxPayload p)
          = Some ("Channel description: "
                  +:+ (if decide (t = u) then t else t +:+ Js.nl +:+ u))).
Proof.
  intros c run topic purpose prompt p Hrun. subst run.
  forwarded p Hrun Hgates Hasm Henv.
  destruct Henv as ((_ & Hish & _) & _ & (_ & _ & _ & _ & _ & Hprompt & _) & _).
  fold c in Hish, Hprompt. rewrite Hprompt, Hish.
  destruct (groupSystemPromptOf_cases c) as (Hnone & Hsame & Hdiff).
  fold topic purpose prompt in Hnone, Hsame, Hdiff.
  destruct (isRoomish c); split.
  - rewrite Hnone. intuition discriminate.
  - intros _ Hblank t u Ht Hu. destruct (decide (t = u)) as [<-|Hne]; auto.
  - intuition.
  - discriminate.
Qed.

(** *** The preview, line 290 *)

Lemma slice0_length (n : nat) (s : string) :
  String.length (Js.slice0 n s) <= n.
Proof.
  unfold Js.slice0. revert s.
  induction n as [|n IH]; intros [|c t]; cbn; try lia.
  specialize (IH t). lia.
Qed.

Lemma slice0_short (n : nat) (s : string) :
  String.length s <= n -> Js.slice0 n s = s.
Proof.
  unfold Js.slice0. revert n.
  induction s as [|c t IH]; intros [|n]; cbn; try reflexivity; try lia.
  intros Hle. f_equal. apply IH. lia.
Qed.

Lemma slice0_collapse_truthy (n : nat) (s : string) :
  Js.truthy s = true ->
  Js.truthy (Js.slice0 (S n) (Js.collapseSpaces s)) = true.
Proof.
  destruct s as [|c t]; [discriminate|]. intros _.
  unfold Js.collapseSpaces, Js.slice0. cbn [Js.collapseFrom].
  destruct (Js.isSpace c); reflexivity.
Qed.

Lemma slice0_collapse_chars (n : nat) (s : string) (inRun : bool) (c : ascii) :
  c ∈ list_ascii_of_string (Js.slice0 n (Js.collapseFrom inRun s)) ->
  Js.isSpace c = true -> c = " "%char.
Proof.
  unfold Js.slice0. revert n inRun.
  induction s as [|d t IH]; intros n inRun.
  { destruct n; cbn; intros Hin; apply elem_of_nil in Hin; contradiction. }
  cbn [Js.collapseFrom].
  destruct (Js.isSpace d) eqn:Hd; [destruct inRun|].
  - apply IH.
  - destruct n; cbn; intros Hin Hc.
    + apply elem_of_nil in Hin. contradiction.
    + apply elem_of_cons in Hin as [->|Hin]; [reflexivity|].
      exact (IH _ _ Hin Hc).
  - destruct n; cbn; intros Hin Hc.
    + apply elem_of_nil in Hin. contradiction.
    + apply elem_of_cons in Hin as [->|Hin]; [congruence|].
      exact (IH _ _ Hin Hc).
Qed.

Lemma slice0_collapse_runs (n : nat) (s : string) (inRun : bool) :
  Js.includes "  " (Js.slice0 n (Js.collapseFrom inRun s)) = false
  /\ (inRun = true ->
      String.prefix " " (Js.slice0 n (Js.collapseFrom inRun s)) = false).
Proof.
  unfold Js.slice0. revert n inRun.
  induction s as [|d t IH]; intros n inRun.
  { destruct n; cbn; auto. }
  cbn [Js.collapseFrom].
  destruct (Js.isSpace d) eqn:Hd; [destruct inRun|].
  - apply IH.
  - destruct n; [cbn; split; [reflexivity|discriminate]|].
    split; [|discriminate].
    destruct (IH n true) as [Hincl Hprefix].
    change (substring 0 (S n) (String " " (Js.collapseFrom true t)))
      with (String " " (substring 0 n (Js.collapseFrom true t))).
    change (Js.includes "  "
              (String " " (substring 0 n (Js.collapseFrom true t))))
      with (String.prefix " " (substring 0 n (Js.collapseFrom true t))
            || Js.includes "  " (substring 0 n (Js.collapseFrom true t))).
    rewrite Hincl, (Hprefix eq_refl). reflexivity.
  - assert (" "%char <> d) as Hne by (intros <-; discriminate).
    destruct n; [cbn; split; [reflexivity|reflexivity]|].
    destruct (IH n false) as [Hincl _].
    change (substring 0 (S n) (String d (Js.collapseFrom false t)))
      with (String d (substring 0 n (Js.collapseFrom false t))).
    set (rest := substring 0 n (Js.collapseFrom false t)) in *.
    change (Js.includes "  " (String d rest))
      with ((if ascii_dec " " d then String.prefix " " rest else false)
            || Js.includes "  " rest).
    change (String.prefix " " (String d rest))
      with (if ascii_dec " " d then String.prefix "" rest else false).
    destruct (ascii_dec " " d) as [Heq|_]; [contradiction|].
    rewrite Hincl. split; reflexivity.
Qed.

(** X20.  The preview of a forwarded message is its raw body with every run
    of white space replaced by one space, cut to 160 code units: it is not
    empty, at most 160 long, has no white space but single spaces, and is the
    whole collapsed body when that is short enough. *)
Theorem preview_shape ctx account message opts w :
  let run := prepareSlackMessage ctx account message opts w in
  forall p,
    run.2 = inr p ->
    Js.truthy (preview p) = true
    /\ String.length (preview p) <= 160
    /\ Js.includes "  " (preview p) = false
    /\ (forall c,
          c ∈ list_ascii_of_string (preview p) ->
          Js.isSpace c = true -> c = " "%char)
    /\ (String.length (Js.collapseSpaces (RawBody (ctxPayload p))) <= 160 ->
        preview p = Js.collapseSpaces (RawBody (ctxPayload p))).
Proof.
  intros run p Hrun. subst run.
  forwarded p Hrun Hgates Hasm Henv.
  destruct Henv
    as (_ & _ & _ & (Hraw & _ & Htruthy & Hpreview & _) & _).
  rewrite Hpreview, Hraw. repeat split.
  - apply slice0_collapse_truthy, Htruthy.
  - apply slice0_length.
  - apply (slice0_collapse_runs 160 _ false).
  - apply slice0_collapse_chars.
  - apply slice0_short.
Qed.

(** *** The acknowledgment reaction and the verbose log, lines 247-277 and
    417-419 *)

(** What assembly adds to the reactions and to the verbose log. *)
Lemma assemble_log ctx account message c senderId (l : MentionLocals) w :
  let ack := resolveAckReaction (cfg ctx) (agentId (route l)) in
  wp (assemble ctx account message c senderId l)
    (fun p w' =>
       reactions w'
       = reactions w
         ++ (if ackScheduled ctx message c l ack
             then [ {| react_channel := channel message;
                       react_ts := default "" (ts message);
                       react_emoji := default "" ack |} ]
             else [])
       /\ verboseLog w'
          = verboseLog w
            ++ (if shouldLogVerbose
                then ["slack inbound: channel=" +:+ channel message
                      +:+ " from=" +:+ From (ctxPayload p)
                      +:+ " preview=" +:+ Js.quote +:+ preview p
                      +:+ Js.quote]
                else []))
    (fun _ _ => True)
    w.
Proof.
  intros ack. unfold assemble. wp_go.
  { exact I. }
  eapply wp_mono;
    [apply scheduleAckReaction_effects | | intros ? ? []].
  intros promise w1 (_ & _ & _ & _ & _ & _ & Hreactions & Hlog).
  fold ack in Hreactions.
  wp_go; try (apply wp_buildHistoryContext; cbv zeta); wp_go.
  all: try exact I.
  all: match goal with Hv : shouldLogVerbose = _ |- _ => rewrite Hv end.
  all: cbn.
  all: rewrite ?Hreactions, ?Hlog, ?app_nil_r.
  all: split; reflexivity.
Qed.

(** The handlers of lines 270-276, in whatever world they run: success
    changes nothing, a rejection adds its line to the verbose log. *)
Lemma ackReactionSettled_run ctx message (ack : option string) w :
  let outcome :=
    reactSlackMessage (channel message) (default "" (ts message))
      (default "" ack) (botToken ctx) in
  ackReactionSettled ctx message ack w
  = match outcome with
    | None => (w, inr true)
    | Some err =>
        ((logVerbose ("slack react failed for channel "
                      +:+ channel message +:+ ": " +:+ err) w).1,
         inr false)
    end.
Proof.
  intros outcome. unfold ackReactionSettled. fold outcome.
  destruct outcome as [err|]; reflexivity.
Qed.

(** X21.  Which forwarded messages get an acknowledgment reaction: none
    without a configured emoji or without a message timestamp; with both,
    every message under scope [all], direct messages only under [direct],
    rooms and group conversations only under [group-all], and none under a
    scope the code does not know.  A reaction is recorded exactly when one is
    scheduled. *)
Theorem ack_reaction_by_scope ctx account message opts w :
  let l := localsOf ctx account message opts in
  let ack := resolveAckReaction (cfg ctx) (agentId (route l)) in
  let run := prepareSlackMessage ctx account message opts w in
  forall p,
    run.2 = inr p ->
    (ackReactionPromise p = None <-> reactions run.1 = reactions w)
    /\ (Js.truthyOpt ack = false \/ Js.truthyOpt (ts message) = false ->
        ackReactionPromise p = None)
    /\ (Js.truthyOpt ack = true -> Js.truthyOpt (ts message) = true ->
        (ackReactionScope ctx = "all" -> ackReactionPromise p <> None)
        /\ (ackReactionScope ctx = "direct" ->
            (ackReactionPromise p <> None <-> p_isDirectMessage p = true))
        /\ (ackReactionScope ctx = "group-all" ->
            (ackReactionPromise p <> None <-> p_isRoomish p = true))
        /\ (ackReactionScope ctx
              ∉ ["all"; "direct"; "group-all"; "group-mentions"] ->
            ackReactionPromise p = None)).
Proof.
  intros l ack run p Hrun. subst run.
  forwarded p Hrun Hgates Hasm Henv.
  pose proof (wp_inr _ _ _ _ _ _
                (assemble_log ctx account message _ _ _ w) Hasm)
    as [Hreactions _].
  cbv zeta in Hreactions.
  destruct Henv
    as ((Hdirect & Hish & _) & _ & _ & _ & _ & (_ & _ & Hpromise) & _).
  fold l in Hpromise, Hreactions. fold ack in Hpromise, Hreactions.
  rewrite Hpromise, Hreactions, Hdirect, Hish.
  unfold ackScheduled, shouldAckReaction.
  split; [|split].
  - destruct (_ && _ && _).
    + split; [discriminate|]. intros Hsame.
      apply snoc_neq in Hsame. contradiction.
    + rewrite app_nil_r. split; reflexivity.
  - intros [Hack | Hts].
    + rewrite Hack. reflexivity.
    + rewrite Hts, andb_false_r. reflexivity.
  - intros Hack Hts. rewrite Hack, Hts.
    assert (Js.truthy (default "" ack) = true) as ->
      by (destruct ack; [exact Hack|discriminate]).
    cbn [negb]. rewrite !andb_true_r.
    split; [|split; [|split]].
    + intros Hscope. rewrite Hscope.
      repeat case_bool_decide; try discriminate; congruence.
    + intros Hscope. rewrite Hscope.
      repeat case_bool_decide; try discriminate;
        destruct (isDirectMessage _); split; congruence.
    + intros Hscope. rewrite Hscope.
      repeat case_bool_decide; try discriminate;
        destruct (isRoomish _); split; congruence.
    + intros Hscope. repeat case_bool_decide; try reflexivity;
        exfalso; apply Hscope; in_reasons.
Qed.

(** X22.  A scheduled reaction is one call, for the message's channel and
    timestamp and the configured emoji, and its promise settles to whether
    the call went through.  The failure of the call is logged by the
    promise's rejection handler, when that runs: the function's own code
    writes to the verbose log only its inbound line, when verbose logging is
    on.  The handlers, in whatever world they run, return the value of the
    promise, change nothing on success and add the one failure line on
    rejection; run after the function has returned, as they are for a
    message outside a thread, the failure line comes after the inbound
    line. *)
Theorem ack_reaction_outcome ctx account message opts w :
  let l := localsOf ctx account message opts in
  let ack := resolveAckReaction (cfg ctx) (agentId (route l)) in
  let run := prepareSlackMessage ctx account message opts w in
  let inbound p :=
    "slack inbound: channel=" +:+ channel message +:+ " from="
    +:+ From (ctxPayload p) +:+ " preview=" +:+ Js.quote +:+ preview p
    +:+ Js.quote in
  let failure err :=
    "slack react failed for channel " +:+ channel message +:+ ": "
    +:+ err in
  forall p,
    run.2 = inr p ->
    verboseLog run.1
    = verboseLog w ++ (if shouldLogVerbose then [inbound p] else [])
    /\ forall settled,
        ackReactionPromise p = Some settled ->
        exists emoji stamp,
          ack = Some emoji /\ ts message = Some stamp
          /\ ackReactionValue p = emoji
          /\ reactions run.1
             = reactions w
               ++ [ {| react_channel := channel message;
                       react_ts := stamp;
                       react_emoji := emoji |} ]
          /\ (settled = true
              <-> reactSlackMessage (channel message) stamp emoji
                    (botToken ctx) = None)
          /\ (forall w2,
                (ackReactionSettled ctx message ack w2).2 = inr settled
                /\ (settled = true ->
                    (ackReactionSettled ctx message ack w2).1 = w2)
                /\ (settled = false ->
                    exists err,
                      reactSlackMessage (channel message) stamp emoji
                        (botToken ctx) = Some err
                      /\ (ackReactionSettled ctx message ack w2).1
                         = (logVerbose (failure err) w2).1))
          /\ (settled = false ->
              exists err,
                reactSlackMessage (channel message) stamp emoji
                  (botToken ctx) = Some err
                /\ verboseLog (ackReactionSettled ctx message ack run.1).1
                   = (verboseLog w
                      ++ (if shouldLogVerbose then [inbound p] else []))
                     ++ [failure err]).
Proof.
  intros l ack run inbound failure p Hrun. subst run.
  forwarded p Hrun Hgates Hasm Henv.
  pose proof (wp_inr _ _ _ _ _ _
                (assemble_log ctx account message _ _ _ w) Hasm)
    as [Hreactions Hlog].
  cbv zeta in Hreactions, Hlog.
  destruct Henv as (_ & _ & _ & _ & _ & (Hvalue & _ & Hpromise) & _).
  fold l in Hpromise, Hreactions, Hlog, Hvalue.
  fold ack in Hpromise, Hreactions, Hlog, Hvalue.
  fold (inbound p) in Hlog.
  split; [exact Hlog|].
  intros settled Hsettled. rewrite Hpromise in Hsettled.
  rewrite Hreactions, Hvalue.
  destruct (ackScheduled ctx message _ l ack) eqn:Hsched; [|discriminate].
  injection Hsettled as <-.
  unfold ackScheduled in Hsched.
  apply andb_prop in Hsched as [Hsched Hemoji].
  apply andb_prop in Hsched as [_ Hts].
  destruct ack as [emoji|] eqn:Hack; [|discriminate].
  destruct (ts message) as [stamp|] eqn:Hstamp; [|discriminate].
  exists emoji, stamp.
  change (default "" (Some emoji)) with emoji.
  change (default "" (Some stamp)) with stamp.
  repeat (split; [reflexivity|]).
  assert (forall w2,
             ackReactionSettled ctx message (Some emoji) w2
             = match reactSlackMessage (channel message) stamp emoji
                       (botToken ctx) with
               | None => (w2, inr true)
               | Some err => ((logVerbose (failure err) w2).1, inr false)
               end) as Hhandlers.
  { intros w2. rewrite ackReactionSettled_run, Hstamp. reflexivity. }
  destruct (reactSlackMessage (channel message) stamp emoji (botToken ctx))
    as [err|] eqn:Hcall.
  - rewrite bool_decide_eq_false_2 by discriminate.
    split; [split; discriminate|]. split.
    + intros w2. rewrite Hhandlers. cbn [fst snd].
      split; [reflexivity|]. split; [discriminate|].
      intros _. exists err. split; reflexivity.
    + intros _. exists err. split; [reflexivity|].
      rewrite Hhandlers. cbn. rewrite Hlog. reflexivity.
  - rewrite bool_decide_eq_true_2 by reflexivity.
    split; [split; reflexivity|]. split.
    + intros w2. rewrite Hhandlers. cbn [fst snd].
      split; [reflexivity|]. split; [reflexivity|]. discriminate.
    + discriminate.
Qed.

End Forwarded.

(** ** The further properties on concrete runs *)

(** A bot message in a room whose configuration allows no bots. *)
Lemma bot_message_needs_allowBots_witness :
  let run :=
    prepareSlackMessage Demo.ctx0 Demo.account0
      (Demo.asBot "B1" Demo.mentioning) Demo.opts0 Demo.world0 in
  run.2 = inl BotsNotAllowed
  /\ verboseLog run.1 = ["slack: drop bot message B1 (allowBots=false)"].
Proof.
  cbv zeta.
  destruct (bot_message_needs_allowBots Demo.ctx0 Demo.account0
              (Demo.asBot "B1" Demo.mentioning) Demo.opts0 Demo.world0
              eq_refl eq_refl) as [Hdrop _].
  rewrite (Hdrop eq_refl). split; reflexivity.
Defined.

(** The sender of a forwarded room message. *)
Lemma forwarded_sender_id_witness :
  exists p,
    (prepareSlackMessage Demo.ctx0 Demo.account0 Demo.mentioning Demo.opts0
       Demo.world0).2 = inr p
    /\ SenderId (ctxPayload p) <> ""
    /\ user Demo.mentioning = Some (SenderId (ctxPayload p)).
Proof.
  destruct (prepareSlackMessage Demo.ctx0 Demo.account0 Demo.mentioning
              Demo.opts0 Demo.world0).2 as [r|p] eqn:Hrun;
    [vm_compute in Hrun; discriminate|].
  exists p. split; [reflexivity|].
  destruct (forwarded_sender_id Demo.ctx0 Demo.account0 Demo.mentioning
              Demo.opts0 Demo.world0 p Hrun)
    as (Hsender & [Huser | (Hnone & _)] & _).
  - split; [exact Hsender | exact Huser].
  - discriminate Hnone.
Defined.

(** A message in the channel the second deployment refuses. *)
Lemma channel_not_allowed_drop_witness :
  let run :=
    @prepareSlackMessage Demo.strict Demo.ctx0 Demo.account0
      (Demo.event "CPRIVATE" (Some "U7") (Some "<@UBOT> hello") "1.0")
      Demo.opts0 Demo.world0 in
  returned run = None /\ quiet Demo.world0 run.1.
Proof.
  cbv zeta.
  apply (@channel_not_allowed_drop Demo.strict Demo.ctx0 Demo.account0
           (Demo.event "CPRIVATE" (Some "U7") (Some "<@UBOT> hello") "1.0")
           Demo.opts0 Demo.world0).
  reflexivity.
Defined.

(** The direct message of a stranger has passed the first user test. *)
Lemma second_dm_user_check_dead_witness :
  (dmAccessPolicy Demo.ctx0 Demo.account0 Demo.fromStranger
     (classify Demo.ctx0 Demo.account0 Demo.fromStranger) ["uowner"]
     Demo.world0).2
  <> inl DmMissingUser.
Proof.
  apply (second_dm_user_check_dead Demo.ctx0 Demo.account0 Demo.fromStranger
           (classify Demo.ctx0 Demo.account0 Demo.fromStranger)
           Demo.world0 Demo.world0 "U9").
  reflexivity.
Defined.

(** A room message without a mention is dropped and leaves no trace. *)
Lemma dropped_leaves_no_trace_witness :
  let run :=
    prepareSlackMessage Demo.ctx0 Demo.account0 Demo.unmentioning
      Demo.opts0 Demo.world0 in
  run.2 = inl NoMention
  /\ systemEvents run.1 = [] /\ reactions run.1 = []
  /\ quiet Demo.world0 run.1.
Proof.
  cbv zeta.
  assert ((prepareSlackMessage Demo.ctx0 Demo.account0 Demo.unmentioning
             Demo.opts0 Demo.world0).2 = inl NoMention) as Hrun
    by (vm_compute; reflexivity).
  destruct (dropped_leaves_no_trace Demo.ctx0 Demo.account0
              Demo.unmentioning Demo.opts0 Demo.world0 NoMention Hrun)
    as (Hevents & Hreactions & _ & Hquiet & _).
  split; [exact Hrun|]. split; [exact Hevents|].
  split; [exact Hreactions|]. apply Hquiet. discriminate.
Defined.

(** The stranger's direct message changes the outbox, so it went through
    the pairing subflow. *)
Lemma pairing_effect_needs_pairing_witness :
  let run :=
    prepareSlackMessage Demo.ctx0 Demo.account0 Demo.fromStranger
      Demo.opts0 Demo.world0 in
  run.2 = inl DmNotPermitted /\ length (sent run.1) = 1.
Proof.
  cbv zeta.
  assert (sent (prepareSlackMessage Demo.ctx0 Demo.account0
                  Demo.fromStranger Demo.opts0 Demo.world0).1
          <> sent Demo.world0) as Hsent
    by (vm_compute; discriminate).
  destruct (pairing_effect_needs_pairing Demo.ctx0 Demo.account0
              Demo.fromStranger Demo.opts0 Demo.world0 (or_intror Hsent))
    as (Hrun & _ & _ & _ & _ & _ & Hreply & _).
  split; [exact Hrun|]. rewrite Hreply. reflexivity.
Defined.

(** The pairing reply to the stranger is rejected by Slack. *)
Lemma pairing_reply_failure_logged_witness :
  let run :=
    @prepareSlackMessage Demo.strict Demo.ctx0 Demo.account0
      Demo.fromStranger Demo.opts0 Demo.world0 in
  run.2 = inl DmNotPermitted
  /\ verboseLog run.1
     = ["slack pairing request sender=U9 name=name-U9";
        "slack pairing reply failed for U9: channel_not_found"].
Proof.
  cbv zeta.
  destruct (@pairing_reply_failure_logged Demo.strict Demo.ctx0
              Demo.account0 Demo.fromStranger Demo.opts0 Demo.world0 "U9"
              eq_refl eq_refl eq_refl eq_refl eq_refl eq_refl)
    as (Hrun & _ & _ & Hlog).
  split; [exact Hrun|]. rewrite Hlog. reflexivity.
Defined.

(** The stranger under an allow-list policy. *)
Lemma blocked_sender_logged_witness :
  let run :=
    prepareSlackMessage Demo.ctx1 Demo.account0 Demo.fromStranger
      Demo.opts0 Demo.world0 in
  run.2 = inl DmNotPermitted
  /\ verboseLog run.1
     = ["Blocked unauthorized slack sender U9 (dmPolicy=allowlist)"].
Proof.
  cbv zeta.
  pose proof (blocked_sender_logged Demo.ctx1 Demo.account0
                Demo.fromStranger Demo.opts0 Demo.world0 "U9"
                eq_refl eq_refl eq_refl
                ltac:(discriminate) ltac:(discriminate) ltac:(discriminate)
                eq_refl) as Hrun.
  rewrite Hrun. split; reflexivity.
Defined.

(** The owner's direct message is forwarded. *)
Lemma permitted_dm_forwarded_witness :
  exists p,
    (prepareSlackMessage Demo.ctx0 Demo.account0 Demo.fromOwner Demo.opts0
       Demo.world0).2 = inr p
    /\ To (ctxPayload p) = "user:uowner"
    /\ ChatType (ctxPayload p) = "direct".
Proof.
  pose proof (permitted_dm_forwarded Demo.ctx0 Demo.account0
                Demo.fromOwner Demo.opts0 Demo.world0 "uowner"
                eq_refl eq_refl eq_refl
                ltac:(discriminate) (or_intror eq_refl)
                ltac:(vm_compute; discriminate)) as Hforwarded.
  destruct Hforwarded as (p & Hrun & _ & Hchat & _ & Hto & _).
  exists p. split; [exact Hrun|]. split; [exact Hto | exact Hchat].
Defined.

(** The drop of a room message without a mention is told to the logger
    only. *)
Lemma no_mention_drop_witness :
  let run :=
    prepareSlackMessage Demo.ctx0 Demo.account0 Demo.unmentioning
      Demo.opts0 Demo.world0 in
  infoLog run.1
  = [ {| info_channel := "C1";
         info_reason := "no-mention";
         info_msg := "skipping room message" |} ]
  /\ verboseLog run.1 = [].
Proof.
  cbv zeta.
  destruct (no_mention_drop Demo.ctx0 Demo.account0 Demo.unmentioning
              Demo.opts0 Demo.world0) as [Hdrop _].
  destruct (Hdrop ltac:(vm_compute; reflexivity)) as (_ & Hworld & _).
  rewrite Hworld. split; reflexivity.
Defined.

(** A room message whose text names the bot. *)
Lemma mention_evidence_passes_gate_witness :
  effectiveWasMentioned
    (localsOf Demo.ctx0 Demo.account0 Demo.mentioning Demo.opts0) = true
  /\ (prepareSlackMessage Demo.ctx0 Demo.account0 Demo.mentioning
        Demo.opts0 Demo.world0).2 <> inl NoMention.
Proof.
  destruct (mention_evidence_passes_gate Demo.ctx0 Demo.account0
              Demo.mentioning Demo.opts0 Demo.world0) as (Hwas & Hpass & _).
  - right. left. split; [reflexivity|]. split; [reflexivity|].
    split; [discriminate|].
    exists "<@UBOT>  hello   there". split; reflexivity.
  - split; [exact Hwas | exact Hpass].
Defined.

(** The sender of the room message is not on the owner list. *)
Lemma command_authorized_of_forwarded_witness :
  exists p,
    (prepareSlackMessage Demo.ctx0 Demo.account0 Demo.mentioning Demo.opts0
       Demo.world0).2 = inr p
    /\ CommandAuthorized (ctxPayload p)
       = isSlackSenderAllowListed ["uowner"] (SenderId (ctxPayload p))
           (SenderName (ctxPayload p)).
Proof.
  destruct (prepareSlackMessage Demo.ctx0 Demo.account0 Demo.mentioning
              Demo.opts0 Demo.world0).2 as [r|p] eqn:Hrun;
    [vm_compute in Hrun; discriminate|].
  exists p. split; [reflexivity|].
  destruct (command_authorized_of_forwarded Demo.ctx0 Demo.account0
              Demo.mentioning Demo.opts0 Demo.world0) as [Hforwarded _].
  exact (proj1 (Hforwarded p Hrun)).
Defined.

(** The system event of the forwarded room message. *)
Lemma system_event_iff_forwarded_witness :
  exists p ev label,
    (prepareSlackMessage Demo.ctx0 Demo.account0 Demo.mentioning Demo.opts0
       Demo.world0).2 = inr p
    /\ systemEvents
         (prepareSlackMessage Demo.ctx0 Demo.account0 Demo.mentioning
            Demo.opts0 Demo.world0).1 = [ev]
    /\ event_contextKey ev = "slack:message:C1:1.0"
    /\ event_text ev = label +:+ ": " +:+ preview p.
Proof.
  destruct (system_event_iff_forwarded Demo.ctx0 Demo.account0
              Demo.mentioning Demo.opts0 Demo.world0) as [Hforwarded _].
  cbv zeta in Hforwarded.
  destruct (prepareSlackMessage Demo.ctx0 Demo.account0 Demo.mentioning
              Demo.opts0 Demo.world0).2 as [r|p] eqn:Hrun;
    [vm_compute in Hrun; discriminate|].
  destruct (Hforwarded p eq_refl) as (ev & label & Hev & _ & Hkey & Htext).
  exists p, ev, label. split; [reflexivity|].
  split; [exact Hev|]. split; [exact Hkey | exact Htext].
Defined.

(** A forwarded room message under a positive history limit. *)
Lemma history_participation_witness :
  exists p entry current formatEntry,
    (@prepareSlackMessage Demo.strict Demo.ctx1 Demo.account0
       Demo.mentioning Demo.opts0 Demo.world0).2 = inr p
    /\ entry_body entry = RawBody (ctxPayload p)
    /\ historyKey p = "C1"
    /\ channelHistories
         (@prepareSlackMessage Demo.strict Demo.ctx1 Demo.account0
            Demo.mentioning Demo.opts0 Demo.world0).1
       = (@buildHistoryContextFromMap Demo.strict ∅ (historyKey p) 5
            (Some entry) current formatEntry).2.
Proof.
  destruct (@history_participation Demo.strict Demo.ctx1 Demo.account0
              Demo.mentioning Demo.opts0 Demo.world0) as [_ Hforwarded].
  cbv zeta in Hforwarded.
  destruct (@prepareSlackMessage Demo.strict Demo.ctx1 Demo.account0
              Demo.mentioning Demo.opts0 Demo.world0).2
    as [r|p] eqn:Hrun; [vm_compute in Hrun; discriminate|].
  destruct (Hforwarded p eq_refl) as [Hkey Hhistory].
  destruct (Hhistory eq_refl eq_refl)
    as (entry & current & formatEntry & _ & Hbody & _ & _ & Hmap).
  exists p, entry, current, formatEntry. split; [reflexivity|].
  split; [exact Hbody|]. split; [exact Hkey | exact Hmap].
Defined.

(** The envelope of the forwarded room message. *)
Lemma envelope_by_kind_witness :
  exists p,
    (prepareSlackMessage Demo.ctx0 Demo.account0 Demo.mentioning Demo.opts0
       Demo.world0).2 = inr p
    /\ ChatType (ctxPayload p) = "room"
    /\ To (ctxPayload p) = "channel:C1"
    /\ replyTarget p = To (ctxPayload p).
Proof.
  destruct (prepareSlackMessage Demo.ctx0 Demo.account0 Demo.mentioning
              Demo.opts0 Demo.world0).2 as [r|p] eqn:Hrun;
    [vm_compute in Hrun; discriminate|].
  exists p. split; [reflexivity|].
  destruct (envelope_by_kind Demo.ctx0 Demo.account0 Demo.mentioning
              Demo.opts0 Demo.world0 p Hrun)
    as (_ & Hroom & _ & _ & Hreply & _).
  destruct (Hroom eq_refl) as (Hchat & _ & Hto & _).
  split; [exact Hchat|]. split; [exact Hto | exact Hreply].
Defined.

(** The route of the forwarded room message. *)
Lemma route_peer_witness :
  exists p,
    (prepareSlackMessage Demo.ctx0 Demo.account0 Demo.mentioning Demo.opts0
       Demo.world0).2 = inr p
    /\ AccountId (ctxPayload p) = route_accountId (p_route p).
Proof.
  destruct (prepareSlackMessage Demo.ctx0 Demo.account0 Demo.mentioning
              Demo.opts0 Demo.world0).2 as [r|p] eqn:Hrun;
    [vm_compute in Hrun; discriminate|].
  exists p. split; [reflexivity|].
  exact (proj2 (route_peer Demo.ctx0 Demo.account0 Demo.mentioning
                  Demo.opts0 Demo.world0 p Hrun)).
Defined.

(** The directory knows the sender of the room message. *)
Lemma sender_name_fallback_witness :
  exists p,
    (prepareSlackMessage Demo.ctx0 Demo.account0 Demo.mentioning Demo.opts0
       Demo.world0).2 = inr p
    /\ SenderName (ctxPayload p) = "name-U7".
Proof.
  destruct (prepareSlackMessage Demo.ctx0 Demo.account0 Demo.mentioning
              Demo.opts0 Demo.world0).2 as [r|p] eqn:Hrun;
    [vm_compute in Hrun; discriminate|].
  exists p. split; [reflexivity|].
  exact (proj1 (sender_name_fallback Demo.ctx0 Demo.account0
                  Demo.mentioning Demo.opts0 Demo.world0 p Hrun)
           "U7" "name-U7" eq_refl eq_refl).
Defined.

(** A reply in a thread whose starter is known. *)
Lemma thread_label_iff_reply_witness :
  exists p label,
    (@prepareSlackMessage Demo.strict Demo.ctx0 Demo.account0
       (Demo.inThread "0.5" None Demo.mentioning) Demo.opts0
       Demo.world0).2 = inr p
    /\ ThreadLabel (ctxPayload p) = Some label
    /\ String.prefix "Slack thread #" label = true.
Proof.
  destruct (@prepareSlackMessage Demo.strict Demo.ctx0 Demo.account0
              (Demo.inThread "0.5" None Demo.mentioning) Demo.opts0
              Demo.world0).2 as [r|p] eqn:Hrun;
    [vm_compute in Hrun; discriminate|].
  destruct (@thread_label_iff_reply Demo.strict Demo.ctx0 Demo.account0
              (Demo.inThread "0.5" None Demo.mentioning) Demo.opts0
              Demo.world0 p Hrun) as (Hlabel & Hprefix & _).
  destruct (ThreadLabel (ctxPayload p)) as [label|] eqn:Hsome.
  - exists p, label. split; [reflexivity|].
    split; [exact Hsome|]. exact (Hprefix label eq_refl).
  - exfalso. exact (proj2 Hlabel eq_refl eq_refl).
Defined.

(** A channel whose purpose repeats its topic. *)
Lemma group_system_prompt_witness :
  exists p,
    (@prepareSlackMessage Demo.strict Demo.ctx0 Demo.account0
       Demo.mentioning Demo.opts0 Demo.world0).2 = inr p
    /\ GroupSystemPrompt (ctxPayload p)
       = Some "Channel description: Releases".
Proof.
  assert (exists p,
             (@prepareSlackMessage Demo.strict Demo.ctx0 Demo.account0
                Demo.mentioning Demo.opts0 Demo.world0).2 = inr p
             /\ p_isRoomish p = true) as (p & Hrun & Hish)
    by (eexists; split; vm_compute; reflexivity).
  exists p. split; [exact Hrun|].
  exact (proj2 (@group_system_prompt Demo.strict Demo.ctx0 Demo.account0
                  Demo.mentioning Demo.opts0 Demo.world0 p Hrun)
           Hish eq_refl "Releases" "Releases" eq_refl eq_refl).
Defined.

(** The preview of the forwarded room message. *)
Lemma preview_shape_witness :
  exists p,
    (prepareSlackMessage Demo.ctx0 Demo.account0 Demo.mentioning Demo.opts0
       Demo.world0).2 = inr p
    /\ String.length (preview p) <= 160
    /\ Js.includes "  " (preview p) = false.
Proof.
  destruct (prepareSlackMessage Demo.ctx0 Demo.account0 Demo.mentioning
              Demo.opts0 Demo.world0).2 as [r|p] eqn:Hrun;
    [vm_compute in Hrun; discriminate|].
  exists p. split; [reflexivity|].
  destruct (preview_shape Demo.ctx0 Demo.account0 Demo.mentioning
              Demo.opts0 Demo.world0 p Hrun) as (_ & Hlength & Hruns & _).
  split; [exact Hlength | exact Hruns].
Defined.

(** Under scope [all] the owner's direct message gets a reaction. *)
Lemma ack_reaction_by_scope_witness :
  exists p,
    (prepareSlackMessage Demo.ctx1 Demo.account0 Demo.fromOwner Demo.opts0
       Demo.world0).2 = inr p
    /\ ackReactionPromise p <> None.
Proof.
  destruct (prepareSlackMessage Demo.ctx1 Demo.account0 Demo.fromOwner
              Demo.opts0 Demo.world0).2 as [r|p] eqn:Hrun;
    [vm_compute in Hrun; discriminate|].
  exists p. split; [reflexivity|].
  destruct (ack_reaction_by_scope Demo.ctx1 Demo.account0 Demo.fromOwner
              Demo.opts0 Demo.world0 p Hrun) as (_ & _ & Hscope).
  exact (proj1 (Hscope eq_refl eq_refl) eq_refl).
Defined.

(** A reaction that Slack rejects: the failure is logged after the inbound
    line, by the handlers. *)
Lemma ack_reaction_outcome_witness :
  exists p,
    (@prepareSlackMessage Demo.strict Demo.ctx1 Demo.account0
       Demo.mentioning Demo.opts0 Demo.world0).2 = inr p
    /\ ackReactionPromise p = Some false
    /\ reactions
         (@prepareSlackMessage Demo.strict Demo.ctx1 Demo.account0
            Demo.mentioning Demo.opts0 Demo.world0).1
       = [ {| react_channel := "C1"; react_ts := "1.0";
              react_emoji := "eyes" |} ]
    /\ verboseLog
         (@prepareSlackMessage Demo.strict Demo.ctx1 Demo.account0
            Demo.mentioning Demo.opts0 Demo.world0).1
       = ["slack inbound: channel=C1 from=slack:channel:C1 preview="
          +:+ Js.quote +:+ "<@UBOT> hello there" +:+ Js.quote]
    /\ verboseLog
         (@ackReactionSettled Demo.strict Demo.ctx1 Demo.mentioning
            (Some "eyes")
            (@prepareSlackMessage Demo.strict Demo.ctx1 Demo.account0
               Demo.mentioning Demo.opts0 Demo.world0).1).1
       = ["slack inbound: channel=C1 from=slack:channel:C1 preview="
          +:+ Js.quote +:+ "<@UBOT> hello there" +:+ Js.quote;
          "slack react failed for channel C1: ratelimited"].
Proof.
  assert (exists p,
             (@prepareSlackMessage Demo.strict Demo.ctx1 Demo.account0
                Demo.mentioning Demo.opts0 Demo.world0).2 = inr p
             /\ ackReactionPromise p = Some false
             /\ From (ctxPayload p) = "slack:channel:C1"
             /\ preview p = "<@UBOT> hello there")
    as (p & Hrun & Hpromise & Hfrom & Hpreview)
    by (eexists; repeat split; vm_compute; reflexivity).
  destruct (@ack_reaction_outcome Demo.strict Demo.ctx1 Demo.account0
              Demo.mentioning Demo.opts0 Demo.world0 p Hrun)
    as [Hlog Hsettled].
  destruct (Hsettled false Hpromise)
    as (emoji & stamp & Hemoji & Hstamp & _ & Hreactions & _ & _ & Hfailed).
  injection Hemoji as <-. injection Hstamp as <-.
  destruct (Hfailed eq_refl) as (err & Herr & Hafter).
  injection Herr as <-.
  exists p. split; [exact Hrun|]. split; [exact Hpromise|].
  split; [exact Hreactions|].
  rewrite Hfrom, Hpreview in Hlog, Hafter.
  split; [exact Hlog | exact Hafter].
Defined.
